(** * solana-common: the transaction execution pipeline

    A shallow embedding of the priority-fee estimator ([utils.ts]), of the
    compute-budget injection, of the sending retry loop and of the batch
    orchestrator ([payload/multiTransactionPayload.ts]), with the properties
    the specification states about them.

    Conventions.
    - A [BigNumber] is a finite decimal or NaN.  Finite values are carried
      as rationals; [times], [plus] and [minus] are exact, [div] rounds to
      20 decimal places with ROUND_HALF_UP, the library defaults, which the
      repository never reconfigures.
    - A fee rate reported by the node is an unsigned 64-bit count of
      micro-lamports, so a [prioritizationFee] is an integer or NaN (the
      case the filter and the test suite guard against).
    - An [async] function is a function into [Result]: [Throw] is a
      rejected promise. *)

From Stdlib Require Import ZArith QArith Qround Qminmax Lia Lqa Bool.
From Stdlib Require Import List String Ascii DecimalString Permutation Sorted.
From stdpp Require Import base option list gmap strings.
Import ListNotations.

Local Open Scope Z_scope.

(** ** JavaScript errors and promises *)

#[warnings="-register-all"]
Inductive JsError : Type :=
| Error (message : string)
| AssertionError (message : string)
| MultiTransactionSimulationError
    (message : string) (simulationErrors : list (nat * JsError)).

Inductive Result (A : Type) : Type :=
| Ok (value : A)
| Throw (reason : JsError).
Arguments Ok {A} value.
Arguments Throw {A} reason.

(** [await]: a rejection passes through what follows. *)
#[global] Instance Result_bind : MBind Result := fun A B k r =>
  match r with
  | Ok a => k a
  | Throw e => Throw e
  end.

(** ** bignumber.js on finite decimals *)

Module BigNumber.

Inductive t : Type :=
| NaN
| BN (q : Q).

Inductive RoundingMode : Type :=
| ROUND_DOWN      (* towards zero *)
| ROUND_CEIL      (* towards +Infinity *)
| ROUND_FLOOR     (* towards -Infinity *)
| ROUND_HALF_UP.  (* to nearest, ties away from zero *)

(** Rounding of a rational to an integer. *)
Definition roundQ (rm : RoundingMode) (x : Q) : Z :=
  match rm with
  | ROUND_DOWN => if Qle_bool 0 x then Qfloor x else Qceiling x
  | ROUND_CEIL => Qceiling x
  | ROUND_FLOOR => Qfloor x
  | ROUND_HALF_UP =>
      if Qle_bool 0 x then Qfloor (x + (1 # 2)) else Qceiling (x - (1 # 2))
  end.

Definition pow10 (dp : nat) : Q := inject_Z (10 ^ Z.of_nat dp).

(** [x.decimalPlaces(dp, rm)] *)
Definition decimalPlaces (dp : nat) (rm : RoundingMode) (x : t) : t :=
  match x with
  | NaN => NaN
  | BN q => BN (inject_Z (roundQ rm (q * pow10 dp)) / pow10 dp)
  end.

Definition lift2 (f : Q -> Q -> Q) (x y : t) : t :=
  match x, y with
  | BN a, BN b => BN (f a b)
  | _, _ => NaN
  end.

Definition plus : t -> t -> t := lift2 Qplus.
Definition minus : t -> t -> t := lift2 Qminus.
Definition times : t -> t -> t := lift2 Qmult.

Definition DECIMAL_PLACES : nat := 20.

(** [x.div(y)].  A zero divisor yields an infinity or NaN in the library;
    every divisor of the modelled code is a non-zero literal or a positive
    compute-unit count, so that case is folded into [NaN]. *)
Definition div (x y : t) : t :=
  match x, y with
  | BN a, BN b =>
      if Qeq_bool b 0 then NaN
      else decimalPlaces DECIMAL_PLACES ROUND_HALF_UP (BN (a / b))
  | _, _ => NaN
  end.

(** [BigNumber.min(x, y)]: NaN when an argument is NaN. *)
Definition min (x y : t) : t := lift2 Qmin x y.

(** [x.comparedTo(y)]: [null] (here [None]) when an argument is NaN. *)
Definition comparedTo (x y : t) : option Z :=
  match x, y with
  | BN a, BN b =>
      Some match Qcompare a b with Lt => -1 | Eq => 0 | Gt => 1 end
  | _, _ => None
  end.

(** [BigInt(x.toFixed(0, rm))]: the string "NaN" makes [BigInt] throw. *)
Definition toBigInt (rm : RoundingMode) (x : t) : Result Z :=
  match x with
  | NaN => Throw (Error "Cannot convert NaN to a BigInt")
  | BN q => Ok (roundQ rm q)
  end.

Definition ofZ (z : Z) : t := BN (inject_Z z).

(** [x <= y] on numbers; false when an argument is NaN. *)
Definition le (x y : t) : Prop :=
  match x, y with
  | BN a, BN b => (a <= b)%Q
  | _, _ => False
  end.

(** Equality of values (rationals up to [Qeq]). *)
Definition eqv (x y : t) : Prop :=
  match x, y with
  | BN a, BN b => (a == b)%Q
  | NaN, NaN => True
  | _, _ => False
  end.

End BigNumber.



(** ** Solana data (the parts of web3.js the pipeline touches) *)

Definition PublicKey : Type := string.
Definition Signer : Type := string.
Definition AddressLookupTableAccount : Type := string.

Record AccountMeta : Type := {
  pubkey : PublicKey;
  isSigner : bool;
  isWritable : bool
}.

Record TransactionInstruction : Type := {
  keys : list AccountMeta;
  programId : PublicKey;
  data : list Z   (* bytes *)
}.

(** A fee rate as the RPC reports it: an integer count of micro-lamports,
    or NaN. *)
Inductive FeeRate : Type :=
| FeeNaN
| Fee (microLamports : Z).

Record RecentPrioritizationFees : Type := {
  prioritizationFee : FeeRate;
  slot : Z
}.

(** One entry of [transactionsData]; a [null] fee payer is [None]. *)
Record TransactionData : Type := {
  instructions : list TransactionInstruction;
  feePayer : option PublicKey;
  signers : option (list Signer);
  addressLookupTableAccounts : option (list AddressLookupTableAccount)
}.

Record MessageV0 : Type := {
  compiledInstructions : list TransactionInstruction;
  payerKey : option PublicKey;
  recentBlockhash : string;
  lookupTables : option (list AddressLookupTableAccount)
}.

(** Signatures are carried base58-encoded. *)
Record VersionedTransaction : Type := {
  message : MessageV0;
  signatures : list string
}.

Record SimulatedTransactionResponse : Type := {
  err : option string;
  unitsConsumed : option N
}.

Record BlockhashWithExpiryBlockHeight : Type := {
  blockhash : string;
  lastValidBlockHeight : Z
}.

Definition BigNumber_of_fee (f : FeeRate) : BigNumber.t :=
  match f with
  | FeeNaN => BigNumber.NaN
  | Fee z => BigNumber.ofZ z
  end.

(** [Number.isNaN(f)] and [f > 0] *)
Definition Number_isNaN (f : FeeRate) : bool :=
  match f with FeeNaN => true | Fee _ => false end.

Definition gt0 (f : FeeRate) : bool :=
  match f with FeeNaN => false | Fee z => 0 <? z end.

(** [s.includes(needle)] *)
Definition includes (s needle : string) : bool :=
  match String.index 0 needle s with
  | Some _ => true
  | None => false
  end.

Definition message_of (e : JsError) : string :=
  match e with
  | Error m => m
  | AssertionError m => m
  | MultiTransactionSimulationError m _ => m
  end.

(** ** The ledger client

    Every RPC is an oracle.  A call that is repeated over time carries the
    number of earlier calls of its kind made by the same task, so that the
    node may answer differently each time. *)
Record Connection : Type := {
  getLatestBlockhash : nat -> Result BlockhashWithExpiryBlockHeight;
  simulateTransaction :
    VersionedTransaction -> Result SimulatedTransactionResponse;
  getRecentPrioritizationFees :
    list PublicKey -> Result (list RecentPrioritizationFees);
  (** the [n]-th broadcast of a transaction *)
  sendRawTransaction : VersionedTransaction -> nat -> Result string;
  (** the [n]-th height poll of the task that sends [signature] *)
  getBlockHeight : string -> nat -> Result Z
}.

(** ** constants.ts *)

Definition DEFAULT_SEND_TRANSACTION_INTERVAL : Z := 1000.
Definition MAX_COMPUTE_UNIT : positive := 1400000.
Definition BASE_FEE_LAMPORTS : Z := 5000.
Definition LAMPORTS_PER_MICRO_LAMPORT : Q := 1 # 1000000.
Definition DEFAULT_MAX_PRIORITY_FEE : Q := 1 # 1000.
Definition COMPUTE_BUDGET_PROGRAM_COMPUTE_UNIT : Z := 400.
Definition LAMPORTS_PER_SOL : Z := 1000000000.
Definition Number_MAX_SAFE_INTEGER : Z := 9007199254740991.

(** ** [Array.prototype.sort] with a comparator

    The language guarantees a stable sort; for a consistent comparator the
    result is the unique stable ordering, computed here by insertion. *)

Section ArraySort.
Context {A : Type} (cmp : A -> A -> Z).

Fixpoint insertSorted (x : A) (l : list A) : list A :=
  match l with
  | [] => [x]
  | y :: ys => if cmp x y <=? 0 then x :: y :: ys else y :: insertSorted x ys
  end.

Fixpoint Array_sort (l : list A) : list A :=
  match l with
  | [] => []
  | x :: xs => insertSorted x (Array_sort xs)
  end.
End ArraySort.

(** ** utils.ts: the fee estimator *)

Definition feeComparator (a b : RecentPrioritizationFees) : Z :=
  match BigNumber.comparedTo (BigNumber_of_fee (prioritizationFee a))
                             (BigNumber_of_fee (prioritizationFee b)) with
  | Some c => c
  | None => 0
  end.

Definition keepFee (fee : RecentPrioritizationFees) : bool :=
  negb (Number_isNaN (prioritizationFee fee)) && gt0 (prioritizationFee fee).

Definition replaceNonZeroAndSortPrioritizationFeesAsc
    (recentPrioritizationFees : list RecentPrioritizationFees)
  : list RecentPrioritizationFees :=
  Array_sort feeComparator (List.filter keepFee recentPrioritizationFees).

Inductive PriorityLevel : Type := low | medium | high.

Definition multipliers (l : PriorityLevel) : Q :=
  match l with
  | low => 8 # 10
  | medium => 12 # 10
  | high => 2
  end.

Definition fallbackFees (l : PriorityLevel) : Z :=
  match l with
  | low => 1000
  | medium => 5000
  | high => 25000
  end.

(** [sortedNonZeroList[i]!.prioritizationFee]; reading past the end is a
    [TypeError] in the source and never happens for the indices used. *)
Definition feeAt (l : list RecentPrioritizationFees) (i : nat) : BigNumber.t :=
  match l !! i with
  | Some s => BigNumber_of_fee (prioritizationFee s)
  | None => BigNumber.NaN
  end.

(** The [medianFee] variable of [getRecentPriorityFee]. *)
Definition medianFee (sortedNonZeroList : list RecentPrioritizationFees)
  : BigNumber.t :=
  let len := length sortedNonZeroList in
  if (0 <? len)%nat then
    let midIndex := (len / 2)%nat in
    if negb (len mod 2 =? 0)%nat then
      BigNumber.decimalPlaces 0 BigNumber.ROUND_DOWN
        (feeAt sortedNonZeroList midIndex)
    else
      BigNumber.decimalPlaces 0 BigNumber.ROUND_DOWN
        (BigNumber.div
           (BigNumber.plus (feeAt sortedNonZeroList (midIndex - 1))
                           (feeAt sortedNonZeroList midIndex))
           (BigNumber.ofZ 2))
  else BigNumber.ofZ 0.

(** The [calculatedFee] variable of [getRecentPriorityFee]. *)
Definition calculatedFee (median : BigNumber.t) (priorityLevel : PriorityLevel)
  : BigNumber.t :=
  BigNumber.decimalPlaces 0 BigNumber.ROUND_CEIL
    (BigNumber.times median (BigNumber.BN (multipliers priorityLevel))).

Fixpoint dedupe (l : list PublicKey) : list PublicKey :=
  match l with
  | [] => []
  | k :: ks => k :: List.filter (fun k' => negb (String.eqb k k')) (dedupe ks)
  end.

(** [[...new Set(instructions.flatMap(...))]], first occurrences kept in
    order.  The list only scopes the query sent to the node. *)
Definition lockedWritableAccounts (instructions : list TransactionInstruction)
  : list PublicKey :=
  dedupe
    (List.flat_map
       (fun ix =>
          List.map pubkey
            (List.filter (fun key => isSigner key || isWritable key) (keys ix))
          ++ [programId ix])
       instructions).

(** [getRecentPriorityFee]: the whole body sits in a [try]; the [catch]
    branch returns the per-level fallback, so the promise never rejects. *)
Definition getRecentPriorityFee
    (connection : Connection)
    (instructions : list TransactionInstruction)
    (priorityLevel : PriorityLevel)
    (maxFeeCap : BigNumber.t) : BigNumber.t :=
  match getRecentPrioritizationFees connection
          (lockedWritableAccounts instructions) with
  | Ok recentPrioritizationFees =>
      let sortedNonZeroList :=
        replaceNonZeroAndSortPrioritizationFeesAsc recentPrioritizationFees in
      BigNumber.min (calculatedFee (medianFee sortedNonZeroList) priorityLevel)
                    maxFeeCap
  | Throw _ =>
      BigNumber.min (BigNumber.ofZ (fallbackFees priorityLevel)) maxFeeCap
  end.

(** ** web3.js: the compute-budget program *)

Module ComputeBudgetProgram.

Definition programId : PublicKey :=
  "ComputeBudget111111111111111111111111111111".

(** [n] little-endian bytes of [v] *)
Fixpoint leBytes (n : nat) (v : Z) : list Z :=
  match n with
  | O => []
  | S n' => Z.land v 255 :: leBytes n' (Z.shiftr v 8)
  end.

(** [setComputeUnitLimit({ units })]: opcode 2, then a u32 *)
Definition setComputeUnitLimit (units : Z) : TransactionInstruction :=
  Build_TransactionInstruction [] programId (2 :: leBytes 4 units).

(** [setComputeUnitPrice({ microLamports })]: opcode 3, then a u64.  The
    u64 encoder has no bytes for a negative number: the call throws (a
    TypeError of the layout, carried with its message) and builds no
    instruction. *)
Definition setComputeUnitPrice (microLamports : Z)
  : Result TransactionInstruction :=
  if microLamports <? 0
  then Throw (Error "Blob.encode[microLamports] requires (length 8) Uint8Array as src")
  else Ok (Build_TransactionInstruction [] programId
             (3 :: leBytes 8 microLamports)).

End ComputeBudgetProgram.

Module ComputeBudgetInstruction.

Inductive InstructionType : Type :=
| RequestUnits
| RequestHeapFrame
| SetComputeUnitLimit
| SetComputeUnitPrice.

Definition InstructionType_eqb (a b : InstructionType) : bool :=
  match a, b with
  | RequestUnits, RequestUnits
  | RequestHeapFrame, RequestHeapFrame
  | SetComputeUnitLimit, SetComputeUnitLimit
  | SetComputeUnitPrice, SetComputeUnitPrice => true
  | _, _ => false
  end.

(** [decodeInstructionType(instruction)]: checks the program id, reads the
    opcode byte and looks it up in the four layouts; throws otherwise. *)
Definition decodeInstructionType (instruction : TransactionInstruction)
  : Result InstructionType :=
  if negb (String.eqb (programId instruction) ComputeBudgetProgram.programId)
  then Throw (Error "invalid instruction; programId is not ComputeBudgetProgram")
  else
    match data instruction with
    | [] => Throw (Error "The value of offset is out of range")
    | typeIndex :: _ =>
        if typeIndex =? 0 then Ok RequestUnits
        else if typeIndex =? 1 then Ok RequestHeapFrame
        else if typeIndex =? 2 then Ok SetComputeUnitLimit
        else if typeIndex =? 3 then Ok SetComputeUnitPrice
        else Throw (Error "Instruction type incorrect; not a ComputeBudgetInstruction")
    end.

End ComputeBudgetInstruction.

(** [array.some(p)] for a predicate that may throw *)
Fixpoint Array_some {A : Type} (p : A -> Result bool) (l : list A)
  : Result bool :=
  match l with
  | [] => Ok false
  | x :: xs =>
      match p x with
      | Throw e => Throw e
      | Ok true => Ok true
      | Ok false => Array_some p xs
      end
  end.

(** ** Execution options *)

Record TransactionExecutionOptions : Type := {
  enablePriorityFee : option bool;
  sendTransactionInterval : option Z;
  maxSendTransactionRetries : option Z;
  priorityLevel : option PriorityLevel;
  maxPriorityFeeSol : option Q;
  exactPriorityFeeSol : option Q;
  confirmationTimeout : option Z;
  skipPreflight : option bool;
  sigVerify : option bool;
  commitment : option string
}.

(** [options?.field] *)
Definition opt {A : Type} (options : option TransactionExecutionOptions)
    (field : TransactionExecutionOptions -> option A) : option A :=
  match options with
  | Some o => field o
  | None => None
  end.

(** [x ?? d] *)
Definition nullish {A : Type} (x : option A) (d : A) : A :=
  match x with
  | Some a => a
  | None => d
  end.

(** Truthiness of a finite number: zero is falsy. *)
Definition truthyQ (x : Q) : bool := negb (Qeq_bool x 0).

Definition truthyZ (x : Z) : bool := negb (x =? 0).

(** ** payload/multiTransactionPayload.ts: [MultiTransactionPayload]

    [validateTransactionData], [simulate], [buildVersionTransactions],
    [addPriorityFeeInstructions] and [calculatePriorityFee] read the same in
    both revisions of the class; [execute] is the revision that returns each
    outcome with its request and compiled transaction, and
    [sendTransactionWithRetry] is the private method of the other one. *)

Definition SignAllTransactionsFunction : Type :=
  list VersionedTransaction -> Result (list VersionedTransaction).

Record MultiTransactionPayload : Type := {
  _connection : Connection;
  _errors : gmap Z string;
  transactionsData : list TransactionData;
  _signAllTransactions : option SignAllTransactionsFunction
}.

Module ERROR_MESSAGES.
Definition SIGN_FUNCTION_REQUIRED : string :=
  "signTransaction is required to execute transaction payload.".
Definition CONFIRMATION_TIMEOUT : string :=
  "Transaction confirmation timed out".
End ERROR_MESSAGES.

Definition string_of_index (index : nat) : string :=
  NilZero.string_of_uint (Nat.to_uint index).

(** The [for] loop of [validateTransactionData], from [index] on. *)
Fixpoint validateEntries (index : nat) (entries : list TransactionData)
  : Result unit :=
  match entries with
  | [] => Ok tt
  | data :: rest =>
      if (List.length (instructions data) =? 0)%nat then
        Throw (Error ("Transaction " ++ string_of_index index
                        ++ ": No instructions provided"))
      else
        match feePayer data with
        | None =>
            Throw (Error ("Transaction " ++ string_of_index index
                            ++ ": Fee payer is required"))
        | Some _ => validateEntries (S index) rest
        end
  end.

Definition validateTransactionData (transactionsData : list TransactionData)
  : Result unit :=
  if (List.length transactionsData =? 0)%nat then
    Throw (Error "At least one transaction is required")
  else validateEntries 0 transactionsData.

(** [new MultiTransactionPayload(...)]: the constructor stores its
    arguments and validates; it talks to nobody. *)
Definition MultiTransactionPayload_new
    (connection : Connection) (errors : gmap Z string)
    (transactionsData : list TransactionData)
    (signAllTransactions : option SignAllTransactionsFunction)
  : Result MultiTransactionPayload :=
  match validateTransactionData transactionsData with
  | Throw e => Throw e
  | Ok _ =>
      Ok {| _connection := connection;
            _errors := errors;
            transactionsData := transactionsData;
            _signAllTransactions := signAllTransactions |}
  end.

(** ** payload/transactionPayload.ts: [TransactionPayload] *)

Definition SignTransactionFunction : Type :=
  VersionedTransaction -> Result VersionedTransaction.

Module TransactionPayload.

Record t : Type := {
  _connection : Connection;
  _errors : gmap Z string;
  transactionData : TransactionData;
  _signTransaction : option SignTransactionFunction
}.

(** [new TransactionPayload(...)]: the constructor body is empty. *)
Definition new
    (connection : Connection) (errors : gmap Z string)
    (transactionData : TransactionData)
    (signTransaction : option SignTransactionFunction) : Result t :=
  Ok (Build_t connection errors transactionData signTransaction).

End TransactionPayload.

(** ** The pipeline *)

Definition newline : string := String (ascii_of_nat 10) EmptyString.

(** The all-zero signature a fresh transaction holds in each slot. *)
Definition defaultSignature : string :=
  "1111111111111111111111111111111111111111111111111111111111111111".

(** Distinct signer keys of a message: the payer and the signer accounts. *)
Definition numRequiredSignatures (data : TransactionData) : nat :=
  List.length
    (dedupe
       (match feePayer data with Some p => [p] | None => [] end
        ++ List.flat_map
             (fun ix => List.map pubkey (List.filter isSigner (keys ix)))
             (instructions data))).

(** [new VersionedTransaction(new TransactionMessage({...})
      .compileToV0Message(data.addressLookupTableAccounts))] *)
Definition compileTransaction (blockhash : string) (data : TransactionData)
  : VersionedTransaction :=
  {| message :=
       {| compiledInstructions := instructions data;
          payerKey := feePayer data;
          recentBlockhash := blockhash;
          lookupTables := addressLookupTableAccounts data |};
     signatures := List.repeat defaultSignature (numRequiredSignatures data) |}.

(** [{ ...options, sigVerify: true }] *)
Definition withSigVerify (options : option TransactionExecutionOptions)
  : TransactionExecutionOptions :=
  {| enablePriorityFee := opt options enablePriorityFee;
     sendTransactionInterval := opt options sendTransactionInterval;
     maxSendTransactionRetries := opt options maxSendTransactionRetries;
     priorityLevel := opt options priorityLevel;
     maxPriorityFeeSol := opt options maxPriorityFeeSol;
     exactPriorityFeeSol := opt options exactPriorityFeeSol;
     confirmationTimeout := opt options confirmationTimeout;
     skipPreflight := opt options skipPreflight;
     sigVerify := Some true;
     commitment := opt options commitment |}.

(** [PromiseSettledResult<string>] *)
Inductive PromiseSettledResult : Type :=
| fulfilled (value : string)
| rejected (reason : JsError).

(** One element of [MultiTransactionPayloadExecuteReturn]. *)
Record ExecuteReturnItem : Type := {
  settled : PromiseSettledResult;
  transactionData : TransactionData;
  transaction : VersionedTransaction
}.

(** What a call of [execute] leaves behind: the promise's outcome, the
    (mutated) [transactionsData] and the raw transactions handed to the
    node for broadcast. *)
Record Execution : Type := {
  outcome : Result (list ExecuteReturnItem);
  finalTransactionsData : list TransactionData;
  broadcasts : list VersionedTransaction
}.

(** [array.unshift(x)] *)
Definition unshift {A : Type} (x : A) (l : list A) : list A := x :: l.

(** The first rejection of [Promise.all] over tasks that reject in index
    order. *)
Fixpoint firstThrow (rs : list (Result unit)) : Result unit :=
  match rs with
  | [] => Ok tt
  | Throw e :: _ => Throw e
  | Ok _ :: rest => firstThrow rest
  end.

Section Pipeline.

(** anchor's [translateError(err, idlErrors)] *)
Variable translateError : JsError -> gmap Z string -> JsError.

(** [transaction.sign(signers)] *)
Variable sign : VersionedTransaction -> list Signer -> VersionedTransaction.

(** [JSON.stringify(entries, null, 2)] on index/message entries *)
Variable JSON_stringify : list (nat * string) -> string.

(** The order in which [n] concurrent RPCs complete, as indices. *)
Variable completionOrder : nat -> list nat.

(** [Promise.all([sendTransactionWithRetry(...),
    confirmTransactionWithTimeout(...)])] with the abort controller, as
    [execute] imports the two functions from utils.  Their source is not
    at hand, so the pair is a parameter: how it settles and which raw
    transactions it handed to the node. *)
Variable sendAndConfirm :
  Connection -> VersionedTransaction -> string -> string -> Z ->
  option TransactionExecutionOptions ->
  Result unit * list VersionedTransaction.

(** utils.ts *)
Definition parseSolanaSendTransactionError
    (error : JsError) (idlErrors : gmap Z string) : JsError :=
  let translatedError := translateError error idlErrors in
  let isInsufficientBalance :=
    includes (message_of translatedError)
      "Attempt to debit an account but found no record of a prior credit."
    || includes (message_of translatedError) "custom program error: 0x1"
    || includes (message_of translatedError) "insufficient funds" in
  if isInsufficientBalance
  then Error "An account does not have enough SOL for transaction"
  else translatedError.

(** [if (signers?.length) transaction.sign(signers)] *)
Definition signWith (signers : option (list Signer))
    (transaction : VersionedTransaction) : VersionedTransaction :=
  match signers with
  | Some (s :: rest) => sign transaction (s :: rest)
  | _ => transaction
  end.

(** The entries pushed on [simulationErrors], in completion order. *)
Definition collectSimulationErrors (payload : MultiTransactionPayload)
    (signedTransactions : list VersionedTransaction)
  : list (nat * JsError) :=
  omap
    (fun i =>
       match signedTransactions !! i with
       | Some signedTransaction =>
           match simulateTransaction (_connection payload) signedTransaction with
           | Ok _ => None
           | Throw error => Some (i, translateError error (_errors payload))
           end
       | None => None
       end)
    (completionOrder (List.length signedTransactions)).

(** The array [Promise.all] resolves to: [[i, result]] or [null]. *)
Definition collectSimulationResults (payload : MultiTransactionPayload)
    (signedTransactions : list VersionedTransaction)
  : list (option (nat * SimulatedTransactionResponse)) :=
  imap
    (fun i signedTransaction =>
       match simulateTransaction (_connection payload) signedTransaction with
       | Ok result => Some (i, result)
       | Throw _ => None
       end)
    signedTransactions.

Definition simulate (payload : MultiTransactionPayload)
    (options : option TransactionExecutionOptions)
  : Result (gmap nat SimulatedTransactionResponse) :=
  latest ← getLatestBlockhash (_connection payload) 0;
  let sigVerify := nullish (opt options sigVerify) false in
  let transactions :=
    List.map
      (fun data =>
         let transaction := compileTransaction (blockhash latest) data in
         if sigVerify then signWith (signers data) transaction
         else transaction)
      (transactionsData payload) in
  signedTransactions ←
    (if sigVerify then
       match _signAllTransactions payload with
       | None => Throw (Error ERROR_MESSAGES.SIGN_FUNCTION_REQUIRED)
       | Some signAllTransactions => signAllTransactions transactions
       end
     else Ok transactions);
  let simulationErrors :=
    collectSimulationErrors payload signedTransactions in
  let simulationResult :=
    collectSimulationResults payload signedTransactions in
  if (0 <? List.length simulationErrors)%nat then
    Throw
      (MultiTransactionSimulationError
         ("One or more simulation failed:" ++ newline
            ++ JSON_stringify
                 (List.map (fun e => (e.1, message_of e.2))
                           simulationErrors))
         simulationErrors)
  else Ok (list_to_map (omap id simulationResult)).

Definition buildVersionTransactions (payload : MultiTransactionPayload)
    (transactionsData : list TransactionData) (blockhash : string)
  : list VersionedTransaction :=
  List.map
    (fun data => signWith (signers data) (compileTransaction blockhash data))
    transactionsData.

Definition calculatePriorityFee (payload : MultiTransactionPayload)
    (instructions : list TransactionInstruction) (computeUnit : positive)
    (options : option TransactionExecutionOptions) : Result Z :=
  let exactPriorityFeeSol :=
    match opt options exactPriorityFeeSol with
    | Some x => if truthyQ x then Some (BigNumber.BN x) else None
    | None => None
    end in
  match exactPriorityFeeSol with
  | Some exact =>
      BigNumber.toBigInt BigNumber.ROUND_DOWN
        (BigNumber.div
           (BigNumber.div
              (BigNumber.minus
                 (BigNumber.times exact (BigNumber.ofZ LAMPORTS_PER_SOL))
                 (BigNumber.ofZ BASE_FEE_LAMPORTS))
              (BigNumber.ofZ (Z.pos computeUnit)))
           (BigNumber.BN LAMPORTS_PER_MICRO_LAMPORT))
  | None =>
      let priorityLevel := nullish (opt options priorityLevel) medium in
      let maxPriorityFeeSol :=
        nullish (opt options maxPriorityFeeSol) DEFAULT_MAX_PRIORITY_FEE in
      let maxPriorityFeePerCU :=
        BigNumber.div
          (BigNumber.div
             (BigNumber.minus
                (BigNumber.times (BigNumber.BN maxPriorityFeeSol)
                                 (BigNumber.ofZ LAMPORTS_PER_SOL))
                (BigNumber.ofZ BASE_FEE_LAMPORTS))
             (BigNumber.ofZ (Z.pos computeUnit)))
          (BigNumber.BN LAMPORTS_PER_MICRO_LAMPORT) in
      let priorityFeePerCU :=
        getRecentPriorityFee (_connection payload) instructions
          priorityLevel maxPriorityFeePerCU in
      BigNumber.toBigInt BigNumber.ROUND_DOWN priorityFeePerCU
  end.

(** [instruction.programId.equals(ComputeBudgetProgram.programId) &&
    decodeInstructionType(instruction) === type] *)
Definition isBudgetInstruction
    (type : ComputeBudgetInstruction.InstructionType)
    (instruction : TransactionInstruction) : Result bool :=
  if String.eqb (programId instruction) ComputeBudgetProgram.programId then
    match ComputeBudgetInstruction.decodeInstructionType instruction with
    | Ok decoded =>
        Ok (ComputeBudgetInstruction.InstructionType_eqb decoded type)
    | Throw e => Throw e
    end
  else Ok false.

(** [addPriorityFeeInstructions] edits the array it is given: the result
    is the array's content when the call settles, with how it settled.
    The limit is put in front before the price is computed and encoded, so
    a call that is rejected there leaves the limit in the array. *)
Definition addPriorityFeeInstructions (payload : MultiTransactionPayload)
    (instructions : list TransactionInstruction) (computeUnit : positive)
    (options : option TransactionExecutionOptions)
  : list TransactionInstruction * Result unit :=
  match Array_some
          (isBudgetInstruction ComputeBudgetInstruction.SetComputeUnitLimit)
          instructions with
  | Throw e => (instructions, Throw e)
  | Ok hasComputeUnitLimitInstruction =>
      match Array_some
              (isBudgetInstruction ComputeBudgetInstruction.SetComputeUnitPrice)
              instructions with
      | Throw e => (instructions, Throw e)
      | Ok hasComputeUnitPriceInstruction =>
          let instructions1 :=
            if negb hasComputeUnitLimitInstruction then
              unshift
                (ComputeBudgetProgram.setComputeUnitLimit (Z.pos computeUnit))
                instructions
            else instructions in
          if negb hasComputeUnitPriceInstruction then
            match calculatePriorityFee payload instructions1 computeUnit
                    options with
            | Throw e => (instructions1, Throw e)
            | Ok priorityFeeInMicroLamports =>
                match ComputeBudgetProgram.setComputeUnitPrice
                        priorityFeeInMicroLamports with
                | Throw e => (instructions1, Throw e)
                | Ok instruction =>
                    (unshift instruction instructions1, Ok tt)
                end
            end
          else (instructions1, Ok tt)
      end
  end.

(** [simulationResult?.value.unitsConsumed
      ? Math.floor((unitsConsumed + COMPUTE_BUDGET_PROGRAM_COMPUTE_UNIT) * 1.1)
      : MAX_COMPUTE_UNIT]; the node reports an unsigned count. *)
Definition computeUnitFor (simulationResult : option SimulatedTransactionResponse)
  : positive :=
  match simulationResult with
  | Some response =>
      match unitsConsumed response with
      | Some units =>
          if truthyZ (Z.of_N units) then
            Z.to_pos
              (Qfloor
                 (inject_Z (Z.of_N units + COMPUTE_BUDGET_PROGRAM_COMPUTE_UNIT)
                  * (11 # 10)))
          else MAX_COMPUTE_UNIT
      | None => MAX_COMPUTE_UNIT
      end
  | None => MAX_COMPUTE_UNIT
  end.

Definition setInstructions (data : TransactionData)
    (newInstructions : list TransactionInstruction) : TransactionData :=
  {| instructions := newInstructions;
     feePayer := feePayer data;
     signers := signers data;
     addressLookupTableAccounts := addressLookupTableAccounts data |}.

(** The body of [signedTransactions.map(async (signedTransaction) => ...)]:
    how one promise settles, and what it broadcast. *)
Definition settleOne (payload : MultiTransactionPayload)
    (latest : BlockhashWithExpiryBlockHeight)
    (options : option TransactionExecutionOptions)
    (signedTransaction : VersionedTransaction)
  : PromiseSettledResult * list VersionedTransaction :=
  match signatures signedTransaction with
  | [] =>
      (rejected
         (parseSolanaSendTransactionError
            (Error "Expected Uint8Array") (_errors payload)),
       [])
  | signature :: _ =>
      let sent :=
        sendAndConfirm (_connection payload) signedTransaction signature
          (blockhash latest) (lastValidBlockHeight latest) options in
      match sent.1 with
      | Ok _ => (fulfilled signature, sent.2)
      | Throw err =>
          (rejected (parseSolanaSendTransactionError err (_errors payload)),
           sent.2)
      end
  end.

#[global] Instance TransactionData_inhabited : Inhabited TransactionData :=
  populate {| instructions := []; feePayer := None; signers := None;
              addressLookupTableAccounts := None |}.

#[global] Instance VersionedTransaction_inhabited : Inhabited VersionedTransaction :=
  populate (compileTransaction "" inhabitant).

(** The compute-budget pass of [execute]: simulate, then inject per
    request.  Every injection runs to its end even when another one fails. *)
Definition prepare (payload : MultiTransactionPayload)
    (options : option TransactionExecutionOptions)
  : Result unit * list TransactionData :=
  match simulate payload (Some (withSigVerify options)) with
  | Throw e => (Throw e, transactionsData payload)
  | Ok simulationResults =>
      let injected :=
        imap
          (fun i data =>
             addPriorityFeeInstructions payload (instructions data)
               (computeUnitFor (simulationResults !! i)) options)
          (transactionsData payload) in
      (firstThrow (List.map snd injected),
       zip_with setInstructions (transactionsData payload)
                (List.map fst injected))
  end.

Definition execute (payload : MultiTransactionPayload)
    (options : option TransactionExecutionOptions) : Execution :=
  match _signAllTransactions payload with
  | None =>
      {| outcome := Throw (Error ERROR_MESSAGES.SIGN_FUNCTION_REQUIRED);
         finalTransactionsData := transactionsData payload;
         broadcasts := [] |}
  | Some signAllTransactions =>
      let enablePriorityFee := nullish (opt options enablePriorityFee) true in
      let prepared :=
        if enablePriorityFee then prepare payload options
        else (Ok tt, transactionsData payload) in
      match prepared.1 with
      | Throw e =>
          {| outcome := Throw e;
             finalTransactionsData := prepared.2;
             broadcasts := [] |}
      | Ok _ =>
          match getLatestBlockhash (_connection payload)
                  (if enablePriorityFee then 1%nat else 0%nat) with
          | Throw e =>
              {| outcome := Throw e;
                 finalTransactionsData := prepared.2;
                 broadcasts := [] |}
          | Ok latest =>
              let transactions :=
                buildVersionTransactions payload prepared.2 (blockhash latest) in
              match signAllTransactions transactions with
              | Throw e =>
                  {| outcome := Throw e;
                     finalTransactionsData := prepared.2;
                     broadcasts := [] |}
              | Ok signedTransactions =>
                  let settledAll :=
                    List.map (settleOne payload latest options)
                             signedTransactions in
                  let results := List.map fst settledAll in
                  {| outcome :=
                       if negb (List.length results =? List.length prepared.2)%nat
                       then Throw (AssertionError "Results length mismatch")
                       else if negb (List.length results
                                     =? List.length transactions)%nat
                       then Throw (AssertionError "Results length mismatch")
                       else
                         Ok (imap
                               (fun i result =>
                                  {| settled := result;
                                     transactionData := prepared.2 !!! i;
                                     transaction := transactions !!! i |})
                               results);
                     finalTransactionsData := prepared.2;
                     broadcasts := List.concat (List.map snd settledAll) |}
              end
          end
      end
  end.

(** *** [sendTransactionWithRetry] (the private method) *)

(** How the method ends: [return], [throw new Error(BLOCK_HEIGHT_EXCEEDED)],
    or an error of the node that is passed on. *)
Inductive SendExit : Type :=
| Returned
| Expired
| Raised (err : JsError).

Record SendState : Type := {
  retry : Z;
  blockHeight : Z;
  sendCalls : nat;
  heightCalls : nat;
  responses : list (Result string)
}.

(** A finished call: its exit, the last value of [blockHeight] (none when
    the first poll failed), the answers to the broadcasts it made and the
    last value of [retry]. *)
Record SendRun : Type := {
  exit : SendExit;
  lastBlockHeight : option Z;
  sendResponses : list (Result string);
  retries : Z
}.

Inductive CatchAction : Type := ReturnNow | SleepAndRetry | Rethrow.

(** The two [err.message?.includes(...)] tests of the [catch] block. *)
Definition classifySendError (err : JsError) : CatchAction :=
  if includes (message_of err) "This transaction has already been processed"
  then ReturnNow
  else if includes (message_of err) "Blockhash not found" then SleepAndRetry
  else Rethrow.

Definition finish (e : SendExit) (st : SendState) : SendRun :=
  {| exit := e;
     lastBlockHeight := Some (blockHeight st);
     sendResponses := responses st;
     retries := retry st |}.

(** The [while] loop and the test after it.  [fuel] bounds the number of
    iterations; [None] means the bound was too small. *)
Fixpoint sendLoop (fuel : nat) (connection : Connection)
    (signedTransaction : VersionedTransaction) (signature : string)
    (lastValidBlockHeight maxRetries : Z) (st : SendState) : option SendRun :=
  if (blockHeight st <? lastValidBlockHeight) && (retry st <? maxRetries) then
    match fuel with
    | O => None
    | S fuel' =>
        let response :=
          sendRawTransaction connection signedTransaction (sendCalls st) in
        let sent :=
          {| retry := retry st; blockHeight := blockHeight st;
             sendCalls := S (sendCalls st); heightCalls := heightCalls st;
             responses := responses st ++ [response] |} in
        let caught (retries : Z) (polls : nat) (err : JsError) :=
          let here :=
            {| retry := retries; blockHeight := blockHeight st;
               sendCalls := sendCalls sent; heightCalls := polls;
               responses := responses sent |} in
          match classifySendError err with
          | ReturnNow => Some (finish Returned here)
          | SleepAndRetry =>
              match getBlockHeight connection signature polls with
              | Ok h =>
                  sendLoop fuel' connection signedTransaction signature
                    lastValidBlockHeight maxRetries
                    {| retry := retries + 1; blockHeight := h;
                       sendCalls := sendCalls sent; heightCalls := S polls;
                       responses := responses sent |}
              | Throw e => Some (finish (Raised e) here)
              end
          | Rethrow => Some (finish (Raised err) here)
          end in
        match response with
        | Ok _ =>
            match getBlockHeight connection signature (heightCalls st) with
            | Ok h =>
                sendLoop fuel' connection signedTransaction signature
                  lastValidBlockHeight maxRetries
                  {| retry := retry st + 1; blockHeight := h;
                     sendCalls := sendCalls sent;
                     heightCalls := S (heightCalls st);
                     responses := responses sent |}
            | Throw err => caught (retry st + 1) (S (heightCalls st)) err
            end
        | Throw err => caught (retry st) (heightCalls st) err
        end
    end
  else
    Some (finish (if lastValidBlockHeight <=? blockHeight st
                  then Expired else Returned) st).

Definition sendTransactionWithRetry (payload : MultiTransactionPayload)
    (signedTransaction : VersionedTransaction) (signature : string)
    (lastValidBlockHeight : Z) (options : option TransactionExecutionOptions)
  : option SendRun :=
  let maxRetries :=
    nullish (opt options maxSendTransactionRetries) Number_MAX_SAFE_INTEGER in
  match getBlockHeight (_connection payload) signature 0 with
  | Throw e =>
      Some {| exit := Raised e; lastBlockHeight := None; sendResponses := [];
              retries := 0 |}
  | Ok h =>
      sendLoop (Z.to_nat maxRetries) (_connection payload) signedTransaction
        signature lastValidBlockHeight maxRetries
        {| retry := 0; blockHeight := h; sendCalls := 0; heightCalls := 1;
           responses := [] |}
  end.


End Pipeline.

(** ** Vocabulary of the statements *)

(** The fee rate of a sample as an integer (0 for NaN). *)
Definition feeZ (s : RecentPrioritizationFees) : Z :=
  match prioritizationFee s with
  | Fee z => z
  | FeeNaN => 0
  end.

(** A sample that is a number and strictly positive. *)
Definition positiveFee (s : RecentPrioritizationFees) : Prop :=
  exists z, prioritizationFee s = Fee z /\ 0 < z.

(** Ascending order of two samples that are numbers. *)
Definition feeLeq (a b : RecentPrioritizationFees) : Prop :=
  match prioritizationFee a, prioritizationFee b with
  | Fee x, Fee y => x <= y
  | _, _ => False
  end.

(** An instruction of the compute-budget program that decodes to [type]. *)
Definition hasType (type : ComputeBudgetInstruction.InstructionType)
    (instruction : TransactionInstruction) : bool :=
  String.eqb (programId instruction) ComputeBudgetProgram.programId
  && match ComputeBudgetInstruction.decodeInstructionType instruction with
     | Ok decoded => ComputeBudgetInstruction.InstructionType_eqb decoded type
     | Throw _ => false
     end.

Definition countType (type : ComputeBudgetInstruction.InstructionType)
    (l : list TransactionInstruction) : nat :=
  List.length (List.filter (hasType type) l).

(** [{ ...options, exactPriorityFeeSol: v }] *)
Definition withExactPriorityFeeSol (o : TransactionExecutionOptions)
    (v : option Q) : TransactionExecutionOptions :=
  {| enablePriorityFee := enablePriorityFee o;
     sendTransactionInterval := sendTransactionInterval o;
     maxSendTransactionRetries := maxSendTransactionRetries o;
     priorityLevel := priorityLevel o;
     maxPriorityFeeSol := maxPriorityFeeSol o;
     exactPriorityFeeSol := v;
     confirmationTimeout := confirmationTimeout o;
     skipPreflight := skipPreflight o;
     sigVerify := sigVerify o;
     commitment := commitment o |}.

(** The per-compute-unit cap [calculatePriorityFee] passes to the estimator. *)
Definition maxPriorityFeePerCU (maxPriorityFeeSol : Q) (computeUnit : positive)
  : BigNumber.t :=
  BigNumber.div
    (BigNumber.div
       (BigNumber.minus
          (BigNumber.times (BigNumber.BN maxPriorityFeeSol)
                           (BigNumber.ofZ LAMPORTS_PER_SOL))
          (BigNumber.ofZ BASE_FEE_LAMPORTS))
       (BigNumber.ofZ (Z.pos computeUnit)))
    (BigNumber.BN LAMPORTS_PER_MICRO_LAMPORT).

(** A broadcast answered with "already processed". *)
Definition alreadyProcessed (response : Result string) : Prop :=
  match response with
  | Ok _ => False
  | Throw err =>
      includes (message_of err) "This transaction has already been processed"
      = true
  end.



(** The simulation at index [i] was rejected, and [e'] is its translated
    error. *)
Definition simulationFails
    (translateError : JsError -> gmap Z string -> JsError)
    (payload : MultiTransactionPayload)
    (signedTransactions : list VersionedTransaction) (i : nat) (e' : JsError)
  : Prop :=
  exists tx e,
    signedTransactions !! i = Some tx
    /\ simulateTransaction (_connection payload) tx = Throw e
    /\ e' = translateError e (_errors payload).

(** ** Sample nodes, wallets and requests *)

Module Examples.

Definition sample (fee : Z) : RecentPrioritizationFees :=
  {| prioritizationFee := Fee fee; slot := 338801267 |}.

Definition transfer (fromPubkey toPubkey : PublicKey) : TransactionInstruction :=
  {| keys := [ {| pubkey := fromPubkey; isSigner := true; isWritable := true |};
               {| pubkey := toPubkey; isSigner := false; isWritable := true |} ];
     programId := "11111111111111111111111111111111";
     data := [2; 0; 0; 0; 128; 240; 250; 2; 0; 0; 0; 0] |}.

Definition request (payer : PublicKey) : TransactionData :=
  {| instructions := [transfer payer "Bob"];
     feePayer := Some payer;
     signers := None;
     addressLookupTableAccounts := None |}.

Definition noOptions : TransactionExecutionOptions :=
  {| enablePriorityFee := None; sendTransactionInterval := None;
     maxSendTransactionRetries := None; priorityLevel := None;
     maxPriorityFeeSol := None; exactPriorityFeeSol := None;
     confirmationTimeout := None; skipPreflight := None;
     sigVerify := None; commitment := None |}.


(** A node that answers the fee query with [fees], rejects the simulation
    of the transactions paid by [failing], accepts two broadcasts and then
    reports the transaction as processed, and sees the chain grow by one
    block per poll from height 90. *)
Definition node (fees : list RecentPrioritizationFees)
    (failing : PublicKey -> bool) : Connection :=
  {| getLatestBlockhash := fun _ =>
       Ok {| blockhash := "EkSnNWid2cvwEVnVx9aBqawnmiCNiDgp3gUdkDPTKN1N";
             lastValidBlockHeight := 240 |};
     simulateTransaction := fun tx =>
       match payerKey (message tx) with
       | Some payer =>
           if failing payer
           then Throw (Error "failed to simulate transaction: AccountNotFound")
           else Ok {| err := None; unitsConsumed := Some 150%N |}
       | None => Throw (Error "failed to simulate transaction")
       end;
     getRecentPrioritizationFees := fun _ => Ok fees;
     sendRawTransaction := fun _ n =>
       if (n <? 2)%nat then Ok "ok"
       else Throw (Error "Transaction simulation failed: This transaction has already been processed");
     getBlockHeight := fun _ n => Ok (90 + Z.of_nat n) |}.

(** A wallet that signs every transaction for its payer. *)
Definition wallet : SignAllTransactionsFunction := fun transactions =>
  Ok (List.map
        (fun tx =>
           {| message := message tx;
              signatures :=
                [String.append "sig-" (nullish (payerKey (message tx)) "")] |})
        transactions).

Definition payloadOf (connection : Connection) (requests : list TransactionData)
  : MultiTransactionPayload :=
  {| _connection := connection; _errors := ∅;
     transactionsData := requests; _signAllTransactions := Some wallet |}.

Definition translateError (e : JsError) (idlErrors : gmap Z string) : JsError := e.

Definition sign (tx : VersionedTransaction) (signers : list Signer)
  : VersionedTransaction := tx.

Definition JSON_stringify (entries : list (nat * string)) : string := "[...]".

(** The last request answers first. *)
Definition completionOrder (n : nat) : list nat := List.rev (List.seq 0 n).

(** Alice's transaction confirms after one broadcast; the others run out
    of funds after two. *)
Definition sendAndConfirm (connection : Connection) (tx : VersionedTransaction)
    (signature blockhash : string) (lastValidBlockHeight : Z)
    (options : option TransactionExecutionOptions)
  : Result unit * list VersionedTransaction :=
  if String.eqb signature "sig-Alice" then (Ok tt, [tx])
  else (Throw (Error "Transaction failed: custom program error: 0x1"), [tx; tx]).

End Examples.

(** The options ask for no exact fee: the field is absent, or zero. *)
Definition noExactFee (options : option TransactionExecutionOptions) : Prop :=
  match opt options exactPriorityFeeSol with
  | Some x => (x == 0)%Q
  | None => True
  end.

(** A request the constructor accepts. *)
Definition wellFormed (data : TransactionData) : Prop :=
  instructions data <> [] /\ feePayer data <> None.

(** ** utils.ts: amounts and the decimals cache

    A formatted amount (the output of [toFixed()], plain decimal notation)
    is carried as the number it denotes; [BigNumber(amount)] of an input
    that is not a number is NaN. *)

(** [x.pow(n)] for a non-negative integer exponent: exact. *)
Fixpoint BigNumber_pow (x : BigNumber.t) (n : nat) : BigNumber.t :=
  match n with
  | O => BigNumber.ofZ 1
  | S n' => BigNumber.times x (BigNumber_pow x n')
  end.

Definition TEN_BIGNUM : BigNumber.t := BigNumber.ofZ 10.

(** [BigInt(x.toFixed(0))], with the library's default rounding mode *)
Definition toFixed0 (x : BigNumber.t) : Result Z :=
  BigNumber.toBigInt BigNumber.ROUND_HALF_UP x.

Definition parseSol (amount : BigNumber.t) : Result Z :=
  toFixed0 (BigNumber.times amount (BigNumber.ofZ LAMPORTS_PER_SOL)).

Definition formatSol (amount : BigNumber.t) : BigNumber.t :=
  BigNumber.div amount (BigNumber.ofZ LAMPORTS_PER_SOL).

Definition parseToken (amount : BigNumber.t) (decimals : nat) : Result Z :=
  toFixed0 (BigNumber.times amount (BigNumber_pow TEN_BIGNUM decimals)).

Definition formatToken (amount : BigNumber.t) (decimals : nat) : BigNumber.t :=
  BigNumber.div amount (BigNumber_pow TEN_BIGNUM decimals).

(** [getMintDecimals]: the module-level [mintToDecimalsMap] is threaded
    through; [getTokenSupply] is the node's answer for a mint. *)
Definition getMintDecimals (getTokenSupply : PublicKey -> Result Z)
    (mintToDecimalsMap : gmap string Z) (mint : PublicKey)
  : gmap string Z * Result Z :=
  match mintToDecimalsMap !! mint with
  | Some decimals => (mintToDecimalsMap, Ok decimals)
  | None =>
      match getTokenSupply mint with
      | Ok decimals => (<[mint := decimals]> mintToDecimalsMap, Ok decimals)
      | Throw e => (mintToDecimalsMap, Throw e)
      end
  end.

(** ** utils.ts: associated token accounts and balances *)

(** anchor's [Address]: a key object, or the base-58 text of one. *)
Inductive Address : Type :=
| AddressKey (key : PublicKey)
| AddressText (text : string).

(** [address.toString()] *)
Definition Address_toString (address : Address) : string :=
  match address with
  | AddressKey key => key
  | AddressText text => text
  end.

(** What [getMultipleParsedAccounts] finds in an account: raw bytes, or the
    parsed [tokenAmount] of a token account ([amount] is the text of an
    unsigned integer). *)
Inductive AccountData : Type :=
| BufferData (bytes : list Z)
| ParsedData (amount : Z) (decimals : nat).

Definition TOKEN_PROGRAM_ID : PublicKey :=
  "TokenkegQfeZyiNwAJbNbGKPFXCWuBvf9Ss623VQ5DA".
Definition ASSOCIATED_TOKEN_PROGRAM_ID : PublicKey :=
  "ATokenGPvbdGVxr1b2hvZbsiqW5xWH25efTNsLJA8knL".

(** [array.map(f)] for an [f] that may throw: the first throw ends it. *)
Fixpoint Array_map_throwing {A B : Type} (f : A -> Result B) (l : list A)
  : Result (list B) :=
  match l with
  | [] => Ok []
  | x :: xs =>
      match f x with
      | Throw e => Throw e
      | Ok y =>
          match Array_map_throwing f xs with
          | Throw e => Throw e
          | Ok ys => Ok (y :: ys)
          end
      end
  end.

Section TokenAccounts.

(** [new web3.PublicKey(text)] *)
Variable PublicKey_new : string -> Result PublicKey.

(** [web3.PublicKey.isOnCurve(key.toBuffer())] *)
Variable isOnCurve : PublicKey -> bool.

(** [web3.PublicKey.findProgramAddressSync(seeds, programId)[0]] *)
Variable findProgramAddressSync : list PublicKey -> PublicKey -> Result PublicKey.

(** [connection.getBalance(key, commitmentOrConfig)] *)
Variable getBalance : PublicKey -> Result Z.

(** [connection.getMultipleParsedAccounts(keys, config)], its [value] *)
Variable getMultipleParsedAccounts :
  list PublicKey -> Result (list (option AccountData)).

(** anchor's [translateAddress] *)
Definition translateAddress (address : Address) : Result PublicKey :=
  match address with
  | AddressKey key => Ok key
  | AddressText text => PublicKey_new text
  end.

Definition getAssociatedTokenAddressSync (mint owner : PublicKey)
    (allowOwnerOffCurve : bool) : Result PublicKey :=
  if negb allowOwnerOffCurve && negb (isOnCurve owner)
  then Throw (Error "Token owner is off curve.")
  else findProgramAddressSync [owner; TOKEN_PROGRAM_ID; mint]
         ASSOCIATED_TOKEN_PROGRAM_ID.

Definition getSolBalance (address : Address) : Result BigNumber.t :=
  match translateAddress address with
  | Throw e => Throw e
  | Ok key =>
      match getBalance key with
      | Throw e => Throw e
      | Ok balance => Ok (formatSol (BigNumber.ofZ balance))
      end
  end.

(** The callback of [accountsInfo.value.map((accountInfo, i) => ...)] run
    over the accounts from index [i] on, on the record [balances].
    [tokenMints[i]!.toString()] of a missing element is a TypeError, carried
    here with its message. *)
Fixpoint fillBalances (tokenMints : list Address)
    (accountsInfo : list (option AccountData)) (i : nat)
    (balances : gmap string BigNumber.t) : Result (gmap string BigNumber.t) :=
  match accountsInfo with
  | [] => Ok balances
  | accountInfo :: rest =>
      match accountInfo with
      | None =>
          match tokenMints !! i with
          | None =>
              Throw (Error "Cannot read properties of undefined (reading 'toString')")
          | Some mint =>
              fillBalances tokenMints rest (S i)
                (<[Address_toString mint := BigNumber.ofZ 0]> balances)
          end
      | Some (BufferData _) =>
          Throw (Error "Account did not parsed. Account may not Associated Token Account.")
      | Some (ParsedData amount decimals) =>
          match tokenMints !! i with
          | None =>
              Throw (Error "Cannot read properties of undefined (reading 'toString')")
          | Some mint =>
              fillBalances tokenMints rest (S i)
                (<[Address_toString mint :=
                     formatToken (BigNumber.ofZ amount) decimals]> balances)
          end
      end
  end.

Definition getTokenBalances (address : Address) (tokenMints : list Address)
    (allowOwnerOffCurve : bool) : Result (gmap string BigNumber.t) :=
  match
    Array_map_throwing
      (fun mint =>
         match translateAddress mint with
         | Throw e => Throw e
         | Ok mintKey =>
             match translateAddress address with
             | Throw e => Throw e
             | Ok owner =>
                 getAssociatedTokenAddressSync mintKey owner allowOwnerOffCurve
             end
         end)
      tokenMints
  with
  | Throw e => Throw e
  | Ok associatedTokenAccounts =>
      match getMultipleParsedAccounts associatedTokenAccounts with
      | Throw e => Throw e
      | Ok accountsInfo => fillBalances tokenMints accountsInfo 0 ∅
      end
  end.

End TokenAccounts.

(** ** payload/transactionPayload.ts: the methods of [TransactionPayload] *)

Module TransactionPayloadMethods.

Definition SIGN_FUNCTION_REQUIRED : string :=
  "signTransaction is required to execute transaction payload.".

Section Methods.

Variable translateError : JsError -> gmap Z string -> JsError.
Variable sign : VersionedTransaction -> list Signer -> VersionedTransaction.

(** The [Promise.all] of the two functions imported from utils, as in the
    batch class. *)
Variable sendAndConfirm :
  Connection -> VersionedTransaction -> string -> string -> Z ->
  option TransactionExecutionOptions ->
  Result unit * list VersionedTransaction.

Definition simulate (payload : TransactionPayload.t)
    (options : option TransactionExecutionOptions)
  : Result SimulatedTransactionResponse :=
  let attempt :=
    match getLatestBlockhash (TransactionPayload._connection payload) 0 with
    | Throw e => Throw e
    | Ok latest =>
        let transaction :=
          compileTransaction (blockhash latest)
            (TransactionPayload.transactionData payload) in
        if nullish (opt options sigVerify) false then
          let transaction :=
            signWith sign
              (signers (TransactionPayload.transactionData payload))
              transaction in
          match TransactionPayload._signTransaction payload with
          | None => Throw (Error SIGN_FUNCTION_REQUIRED)
          | Some signTransaction =>
              match signTransaction transaction with
              | Throw e => Throw e
              | Ok signedTransaction =>
                  simulateTransaction (TransactionPayload._connection payload)
                    signedTransaction
              end
          end
        else
          simulateTransaction (TransactionPayload._connection payload)
            transaction
    end in
  match attempt with
  | Ok result => Ok result
  | Throw err => Throw (translateError err (TransactionPayload._errors payload))
  end.

Definition buildVersionTransaction (payload : TransactionPayload.t)
    (blockhash : string) : VersionedTransaction :=
  signWith sign (signers (TransactionPayload.transactionData payload))
    (compileTransaction blockhash (TransactionPayload.transactionData payload)).

Definition calculatePriorityFee (payload : TransactionPayload.t)
    (computeUnit : positive) (options : option TransactionExecutionOptions)
  : Result Z :=
  let exactPriorityFeeSol :=
    match opt options exactPriorityFeeSol with
    | Some x => if truthyQ x then Some (BigNumber.BN x) else None
    | None => None
    end in
  match exactPriorityFeeSol with
  | Some exact =>
      BigNumber.toBigInt BigNumber.ROUND_DOWN
        (BigNumber.div
           (BigNumber.div
              (BigNumber.minus
                 (BigNumber.times exact (BigNumber.ofZ LAMPORTS_PER_SOL))
                 (BigNumber.ofZ BASE_FEE_LAMPORTS))
              (BigNumber.ofZ (Z.pos computeUnit)))
           (BigNumber.BN LAMPORTS_PER_MICRO_LAMPORT))
  | None =>
      let priorityLevel := nullish (opt options priorityLevel) medium in
      let maxPriorityFeeSol :=
        nullish (opt options maxPriorityFeeSol) DEFAULT_MAX_PRIORITY_FEE in
      let maxPriorityFeePerCU :=
        BigNumber.div
          (BigNumber.div
             (BigNumber.minus
                (BigNumber.times (BigNumber.BN maxPriorityFeeSol)
                                 (BigNumber.ofZ LAMPORTS_PER_SOL))
                (BigNumber.ofZ BASE_FEE_LAMPORTS))
             (BigNumber.ofZ (Z.pos computeUnit)))
          (BigNumber.BN LAMPORTS_PER_MICRO_LAMPORT) in
      let priorityFeePerCU :=
        getRecentPriorityFee (TransactionPayload._connection payload)
          (instructions (TransactionPayload.transactionData payload))
          priorityLevel maxPriorityFeePerCU in
      BigNumber.toBigInt BigNumber.ROUND_FLOOR priorityFeePerCU
  end.

(** The instructions to put in front; [transactionData] is left alone. *)
Definition getPriorityFeeInstructions (payload : TransactionPayload.t)
    (computeUnit : positive) (options : option TransactionExecutionOptions)
  : Result (list TransactionInstruction) :=
  let instructions := instructions (TransactionPayload.transactionData payload) in
  match Array_some
          (isBudgetInstruction ComputeBudgetInstruction.SetComputeUnitLimit)
          instructions with
  | Throw e => Throw e
  | Ok hasComputeUnitLimitInstruction =>
      match Array_some
              (isBudgetInstruction ComputeBudgetInstruction.SetComputeUnitPrice)
              instructions with
      | Throw e => Throw e
      | Ok hasComputeUnitPriceInstruction =>
          let newInstructions :=
            if negb hasComputeUnitLimitInstruction
            then [ComputeBudgetProgram.setComputeUnitLimit (Z.pos computeUnit)]
            else [] in
          if negb hasComputeUnitPriceInstruction then
            match calculatePriorityFee payload computeUnit options with
            | Throw e => Throw e
            | Ok priorityFeeInMicroLamports =>
                match ComputeBudgetProgram.setComputeUnitPrice
                        priorityFeeInMicroLamports with
                | Throw e => Throw e
                | Ok instruction => Ok (newInstructions ++ [instruction])
                end
            end
          else Ok newInstructions
      end
  end.

(** [unitsConsumed ? Math.floor(unitsConsumed * 1.2) : MAX_COMPUTE_UNIT]:
    on an unsigned count the integer part of the product with the double
    nearest to 1.2 is the integer part of six fifths of the count. *)
Definition computeUnitOf (simulationResult : SimulatedTransactionResponse)
  : positive :=
  match unitsConsumed simulationResult with
  | Some units =>
      if truthyZ (Z.of_N units)
      then Z.to_pos (Qfloor (inject_Z (Z.of_N units) * (12 # 10)))
      else MAX_COMPUTE_UNIT
  | None => MAX_COMPUTE_UNIT
  end.

(** How the promise of [execute] settles, and the raw transactions handed
    to the node. *)
Definition execute (payload : TransactionPayload.t)
    (options : option TransactionExecutionOptions)
  : Result string * list VersionedTransaction :=
  match TransactionPayload._signTransaction payload with
  | None => (Throw (Error SIGN_FUNCTION_REQUIRED), [])
  | Some signTransaction =>
      let enablePriorityFee := nullish (opt options enablePriorityFee) true in
      let connection := TransactionPayload._connection payload in
      let transactionData := TransactionPayload.transactionData payload in
      let attempt : Result string * list VersionedTransaction :=
        match
          (if enablePriorityFee then
             match simulate payload options with
             | Throw e => Throw e
             | Ok simulationResult =>
                 getPriorityFeeInstructions payload
                   (computeUnitOf simulationResult) options
             end
           else Ok [])
        with
        | Throw e => (Throw e, [])
        | Ok priorityFeeInstructions =>
            match getLatestBlockhash connection
                    (if enablePriorityFee then 1%nat else 0%nat) with
            | Throw e => (Throw e, [])
            | Ok latest =>
                let allInstructions :=
                  priorityFeeInstructions ++ instructions transactionData in
                let transaction :=
                  signWith sign (signers transactionData)
                    (compileTransaction (blockhash latest)
                       (setInstructions transactionData allInstructions)) in
                match signTransaction transaction with
                | Throw e => (Throw e, [])
                | Ok signedTransaction =>
                    match signatures signedTransaction with
                    | [] => (Throw (Error "Expected Uint8Array"), [])
                    | signature :: _ =>
                        let sent :=
                          sendAndConfirm connection signedTransaction signature
                            (blockhash latest) (lastValidBlockHeight latest)
                            options in
                        match sent.1 with
                        | Ok _ => (Ok signature, sent.2)
                        | Throw err => (Throw err, sent.2)
                        end
                    end
                end
            end
        end in
      match attempt.1 with
      | Ok signature => (Ok signature, attempt.2)
      | Throw err =>
          (Throw
             (parseSolanaSendTransactionError translateError err
                (TransactionPayload._errors payload)),
           attempt.2)
      end
  end.

End Methods.

End TransactionPayloadMethods.

(** ** Further sample inputs *)

Module Samples.

(** A wallet that signs one transaction for its payer. *)
Definition walletOne : SignTransactionFunction := fun tx =>
  Ok {| message := message tx;
        signatures :=
          [String.append "sig-" (nullish (payerKey (message tx)) "")] |}.

Definition single (connection : Connection) (data : TransactionData)
  : TransactionPayload.t :=
  TransactionPayload.Build_t connection ∅ data (Some walletOne).

(** The send/confirm pair settles for every transaction after one
    broadcast. *)
Definition sendAndConfirm (connection : Connection) (tx : VersionedTransaction)
    (signature blockhash : string) (lastValidBlockHeight : Z)
    (options : option TransactionExecutionOptions)
  : Result unit * list VersionedTransaction :=
  (Ok tt, [tx]).

Definition PublicKey_new (text : string) : Result PublicKey :=
  if String.eqb text "" then Throw (Error "Invalid public key input")
  else Ok text.

(** Every key is on the curve but the program-derived "Vault". *)
Definition isOnCurve (key : PublicKey) : bool := negb (String.eqb key "Vault").

Definition findProgramAddressSync (seeds : list PublicKey)
    (programId : PublicKey) : Result PublicKey :=
  Ok (String.concat "/" seeds).

Definition getBalance (key : PublicKey) : Result Z := Ok 2500000000.

(** Alice holds 1876.190996 USDC and has no other token account. *)
Definition getMultipleParsedAccounts (keys : list PublicKey)
  : Result (list (option AccountData)) :=
  Ok (List.map
        (fun key =>
           if String.eqb key "Alice/TokenkegQfeZyiNwAJbNbGKPFXCWuBvf9Ss623VQ5DA/USDC"
           then Some (ParsedData 1876190996 6)
           else None)
        keys).

Definition getTokenSupply (mint : PublicKey) : Result Z :=
  if String.eqb mint "USDC" then Ok 6
  else Throw (Error "failed to get token supply: Invalid param: not a Token mint").


(** A node whose simulations complete and report that the transaction
    would fail: [value.err] is set, no units are reported. *)
Definition reportingNode : Connection :=
  {| getLatestBlockhash := fun _ =>
       Ok {| blockhash := "EkSnNWid2cvwEVnVx9aBqawnmiCNiDgp3gUdkDPTKN1N";
             lastValidBlockHeight := 240 |};
     simulateTransaction := fun _ =>
       Ok {| err := Some "InstructionError: [0, Custom: 1]";
             unitsConsumed := None |};
     getRecentPrioritizationFees := fun _ => Ok [Examples.sample 5];
     sendRawTransaction := fun _ _ => Ok "ok";
     getBlockHeight := fun _ n => Ok (90 + Z.of_nat n) |}.

End Samples.

(** * Properties *)

(** ** Rationals and rounding *)

Lemma roundQ_comp (rm : BigNumber.RoundingMode) (x y : Q) :
  (x == y)%Q -> BigNumber.roundQ rm x = BigNumber.roundQ rm y.
Proof.
  intros E. unfold BigNumber.roundQ.
  assert (Hb : Qle_bool 0 x = Qle_bool 0 y).
  { destruct (Qle_bool 0 x) eqn:Hx, (Qle_bool 0 y) eqn:Hy; try reflexivity.
    - apply Qle_bool_iff in Hx. rewrite E in Hx. apply Qle_bool_iff in Hx.
      congruence.
    - apply Qle_bool_iff in Hy. rewrite <- E in Hy. apply Qle_bool_iff in Hy.
      congruence. }
  destruct rm; rewrite ?Hb; rewrite ?E; reflexivity.
Qed.

Lemma roundQ_inject_Z (rm : BigNumber.RoundingMode) (z : Z) :
  BigNumber.roundQ rm (inject_Z z) = z.
Proof.
  unfold BigNumber.roundQ.
  destruct rm.
  - destruct (Qle_bool 0 (inject_Z z)); [apply Qfloor_Z | apply Qceiling_Z].
  - apply Qceiling_Z.
  - apply Qfloor_Z.
  - destruct (Qle_bool 0 (inject_Z z)) eqn:H.
    + unfold Qfloor, Qplus, inject_Z; simpl.
      symmetry. apply Z.div_unique with (r := 1); lia.
    + unfold Qceiling, Qfloor, Qminus, Qplus, Qopp, inject_Z; simpl.
      assert (E : (- (z * 2 + - (1) * 1)) / Z.pos (1 * 2) = - z).
      { symmetry. apply Z.div_unique with (r := 1); lia. }
      rewrite E. lia.
Qed.

Lemma pow10_pos (dp : nat) : (0 < BigNumber.pow10 dp)%Q.
Proof.
  unfold BigNumber.pow10, Qlt; simpl.
  assert (0 < 10 ^ Z.of_nat dp) by (apply Z.pow_pos_nonneg; lia). lia.
Qed.

(** Rounding an integer to any number of decimal places changes nothing. *)
Lemma decimalPlaces_integer (dp : nat) (rm : BigNumber.RoundingMode) (q : Q) (z : Z) :
  (q == inject_Z z)%Q ->
  BigNumber.eqv (BigNumber.decimalPlaces dp rm (BigNumber.BN q)) (BigNumber.ofZ z).
Proof.
  intros E. simpl.
  assert (P := pow10_pos dp).
  assert (E2 : (q * BigNumber.pow10 dp == inject_Z (z * 10 ^ Z.of_nat dp))%Q).
  { rewrite E. unfold BigNumber.pow10. rewrite inject_Z_mult. reflexivity. }
  rewrite (roundQ_comp rm _ _ E2), roundQ_inject_Z.
  rewrite inject_Z_mult. fold (BigNumber.pow10 dp).
  field. intro H. rewrite H in P. discriminate.
Qed.

(** ** Sorting by fee *)

Lemma feeComparator_leb (a b : RecentPrioritizationFees) (x y : Z) :
  prioritizationFee a = Fee x -> prioritizationFee b = Fee y ->
  (feeComparator a b <=? 0) = (x <=? y).
Proof.
  intros Ha Hb. unfold feeComparator. rewrite Ha, Hb. simpl.
  unfold Qcompare; simpl. rewrite !Z.mul_1_r.
  destruct (Z.compare_spec x y) as [E|L|G].
  - subst. symmetry. apply Z.leb_le. lia.
  - symmetry. apply Z.leb_le. lia.
  - symmetry. apply Z.leb_gt. lia.
Qed.

Lemma keepFee_positive (s : RecentPrioritizationFees) :
  keepFee s = true <-> positiveFee s.
Proof.
  unfold keepFee, positiveFee. destruct (prioritizationFee s) as [|z]; simpl.
  - split; [discriminate | intros (z & H & _); discriminate].
  - split.
    + intros H. apply Z.ltb_lt in H. eauto.
    + intros (z' & H & Hz). injection H as ->. now apply Z.ltb_lt.
Qed.

Lemma insertSorted_Permutation {A : Type} (cmp : A -> A -> Z) (x : A) (l : list A) :
  Permutation (insertSorted cmp x l) (x :: l).
Proof.
  induction l as [|y ys IH]; simpl.
  - reflexivity.
  - destruct (cmp x y <=? 0).
    + reflexivity.
    + rewrite IH. apply perm_swap.
Qed.

Lemma Array_sort_Permutation {A : Type} (cmp : A -> A -> Z) (l : list A) :
  Permutation (Array_sort cmp l) l.
Proof.
  induction l as [|x xs IH]; simpl.
  - reflexivity.
  - rewrite insertSorted_Permutation. now constructor.
Qed.

Lemma HdRel_insertSorted (y x : RecentPrioritizationFees)
    (l : list RecentPrioritizationFees) :
  HdRel feeLeq y l -> feeLeq y x -> HdRel feeLeq y (insertSorted feeComparator x l).
Proof.
  intros H Hyx. destruct l as [|z zs]; simpl.
  - now constructor.
  - destruct (feeComparator x z <=? 0); constructor; [assumption|].
    now inversion H.
Qed.

Lemma insertSorted_Sorted (x : RecentPrioritizationFees)
    (l : list RecentPrioritizationFees) :
  positiveFee x -> Forall positiveFee l -> Sorted feeLeq l ->
  Sorted feeLeq (insertSorted feeComparator x l).
Proof.
  intros (vx & Hx & _) Hl Hs.
  induction Hs as [|y ys Hys IH Hhd]; simpl.
  - repeat constructor.
  - inversion Hl as [|? ? (vy & Hy & _) Hl']; subst.
    rewrite (feeComparator_leb x y vx vy Hx Hy).
    destruct (vx <=? vy) eqn:E.
    + apply Z.leb_le in E. constructor; [now constructor|].
      constructor. unfold feeLeq. now rewrite Hx, Hy.
    + apply Z.leb_gt in E. constructor; [now apply IH|].
      apply HdRel_insertSorted; [assumption|].
      unfold feeLeq. rewrite Hx, Hy. lia.
Qed.

Lemma Array_sort_Sorted (l : list RecentPrioritizationFees) :
  Forall positiveFee l -> Sorted feeLeq (Array_sort feeComparator l).
Proof.
  induction 1 as [|x xs Hx Hxs IH]; simpl.
  - constructor.
  - apply insertSorted_Sorted; [assumption| |assumption].
    eapply Permutation_Forall; [|exact Hxs].
    symmetry. apply Array_sort_Permutation.
Qed.

(** Sorting a list that is already in order returns it. *)
Lemma Array_sort_fixed (l : list RecentPrioritizationFees) :
  Forall positiveFee l -> Sorted feeLeq l -> Array_sort feeComparator l = l.
Proof.
  intros Hl Hs. induction Hs as [|x xs Hxs IH Hhd]; simpl.
  - reflexivity.
  - inversion Hl as [|? ? (vx & Hx & _) Hl']; subst.
    rewrite (IH Hl').
    destruct Hhd as [|y ys Hxy]; simpl.
    + reflexivity.
    + inversion Hl' as [|? ? (vy & Hy & _) _]; subst.
      rewrite (feeComparator_leb x y vx vy Hx Hy).
      unfold feeLeq in Hxy. rewrite Hx, Hy in Hxy.
      apply Z.leb_le in Hxy. now rewrite Hxy.
Qed.

Lemma filter_keepFee_positive (l : list RecentPrioritizationFees) :
  Forall positiveFee (List.filter keepFee l).
Proof.
  apply List.Forall_forall. intros s Hs. apply filter_In in Hs.
  now apply keepFee_positive.
Qed.

Lemma filter_keepFee_fixed (l : list RecentPrioritizationFees) :
  Forall positiveFee l -> List.filter keepFee l = l.
Proof.
  induction 1 as [|x xs Hx Hxs IH]; simpl.
  - reflexivity.
  - apply keepFee_positive in Hx. now rewrite Hx, IH.
Qed.

Lemma replaceNonZeroAndSort_positive (fees : list RecentPrioritizationFees) :
  Forall positiveFee (replaceNonZeroAndSortPrioritizationFeesAsc fees).
Proof.
  unfold replaceNonZeroAndSortPrioritizationFeesAsc.
  eapply Permutation_Forall; [|apply (filter_keepFee_positive fees)].
  symmetry. apply Array_sort_Permutation.
Qed.

(** C6.  For every list of fee samples, the filter-and-sort operation
    returns the kept samples in ascending order of fee rate; no NaN and no
    non-positive rate is in the output; and applying the operation to its
    own output returns that output unchanged. *)
Theorem replaceNonZeroAndSort_sorted_clean_idempotent
    (fees : list RecentPrioritizationFees) :
  let out := replaceNonZeroAndSortPrioritizationFeesAsc fees in
  Sorted feeLeq out
  /\ Forall positiveFee out
  /\ Permutation out (List.filter keepFee fees)
  /\ replaceNonZeroAndSortPrioritizationFeesAsc out = out.
Proof.
  intros out.
  assert (Hpos : Forall positiveFee out) by apply replaceNonZeroAndSort_positive.
  assert (Hsorted : Sorted feeLeq out).
  { apply Array_sort_Sorted, filter_keepFee_positive. }
  repeat split; try assumption.
  - apply Array_sort_Permutation.
  - unfold replaceNonZeroAndSortPrioritizationFeesAsc.
    rewrite (filter_keepFee_fixed out Hpos).
    now apply Array_sort_fixed.
Qed.

(** ** The median and the multiplier *)

Lemma odd_mod2 (n : nat) : negb (n mod 2 =? 0)%nat = Nat.odd n.
Proof.
  assert (H : (n mod 2 < 2)%nat) by (apply Nat.mod_upper_bound; lia).
  rewrite (Nat.div_mod_eq n 2) at 2.
  rewrite Nat.add_comm, Nat.odd_add_mul_2.
  destruct (n mod 2)%nat as [|[|k]]; simpl; try reflexivity. lia.
Qed.

Lemma feeAt_lookup (l : list RecentPrioritizationFees) (i : nat)
    (s : RecentPrioritizationFees) :
  l !! i = Some s -> positiveFee s -> feeAt l i = BigNumber.ofZ (feeZ s).
Proof.
  intros Hl (z & Hz & _). unfold feeAt, feeZ. rewrite Hl, Hz. reflexivity.
Qed.

(** Halving an integer is exact at 20 decimal places. *)
Lemma div_2_exact (s : Z) :
  BigNumber.eqv (BigNumber.div (BigNumber.ofZ s) (BigNumber.ofZ 2))
                (BigNumber.BN (inject_Z s / inject_Z 2)).
Proof.
  unfold BigNumber.div, BigNumber.ofZ.
  change (Qeq_bool (inject_Z 2) 0) with false. cbv iota.
  unfold BigNumber.decimalPlaces, BigNumber.eqv.
  assert (P := pow10_pos BigNumber.DECIMAL_PLACES).
  assert (E : (inject_Z s / inject_Z 2 * BigNumber.pow10 BigNumber.DECIMAL_PLACES
               == inject_Z (s * 50000000000000000000))%Q).
  { rewrite inject_Z_mult. unfold BigNumber.pow10, BigNumber.DECIMAL_PLACES.
    change (inject_Z (10 ^ Z.of_nat 20)) with (inject_Z 100000000000000000000).
    field. }
  rewrite (roundQ_comp _ _ _ E), roundQ_inject_Z, inject_Z_mult.
  unfold BigNumber.pow10, BigNumber.DECIMAL_PLACES.
  change (inject_Z (10 ^ Z.of_nat 20)) with (inject_Z 100000000000000000000).
  field.
Qed.

Lemma decimalPlaces_eqv (dp : nat) (rm : BigNumber.RoundingMode)
    (x y : BigNumber.t) :
  BigNumber.eqv x y ->
  BigNumber.eqv (BigNumber.decimalPlaces dp rm x) (BigNumber.decimalPlaces dp rm y).
Proof.
  destruct x as [|a], y as [|b]; simpl; try tauto.
  intros E.
  assert (E2 : (a * BigNumber.pow10 dp == b * BigNumber.pow10 dp)%Q)
    by now rewrite E.
  now rewrite (roundQ_comp rm _ _ E2).
Qed.

Lemma eqv_trans (x y z : BigNumber.t) :
  BigNumber.eqv x y -> BigNumber.eqv y z -> BigNumber.eqv x z.
Proof.
  destruct x, y, z; simpl; try tauto. intros E1 E2. now rewrite E1.
Qed.

(** Rounding half of a non-negative integer down is integer division. *)
Lemma round_down_half (s : Z) :
  0 <= s ->
  BigNumber.eqv
    (BigNumber.decimalPlaces 0 BigNumber.ROUND_DOWN
       (BigNumber.BN (inject_Z s / inject_Z 2)))
    (BigNumber.ofZ (s / 2)).
Proof.
  intros Hs. unfold BigNumber.decimalPlaces, BigNumber.eqv, BigNumber.ofZ.
  assert (E : (inject_Z s / inject_Z 2 * BigNumber.pow10 0
               == inject_Z s / inject_Z 2)%Q).
  { unfold BigNumber.pow10. change (inject_Z (10 ^ Z.of_nat 0)) with 1%Q. field. }
  rewrite (roundQ_comp _ _ _ E).
  unfold BigNumber.roundQ.
  assert (H0 : Qle_bool 0 (inject_Z s / inject_Z 2) = true).
  { apply Qle_bool_iff. apply Qle_shift_div_l; [reflexivity|].
    rewrite Qmult_0_l. unfold Qle; simpl. lia. }
  rewrite H0, <- Zdiv_Qdiv.
  unfold BigNumber.pow10. change (inject_Z (10 ^ Z.of_nat 0)) with 1%Q. field.
Qed.

(** The median of a list of kept samples, by cases on the length. *)
Lemma medianFee_kept (l : list RecentPrioritizationFees) :
  Forall positiveFee l ->
  match l with
  | [] => medianFee l = BigNumber.ofZ 0
  | _ :: _ =>
      if Nat.odd (List.length l) then
        exists m, l !! (List.length l / 2)%nat = Some m
                  /\ BigNumber.eqv (medianFee l) (BigNumber.ofZ (feeZ m))
      else
        exists a b, l !! (List.length l / 2 - 1)%nat = Some a
                    /\ l !! (List.length l / 2)%nat = Some b
                    /\ BigNumber.eqv (medianFee l)
                         (BigNumber.ofZ ((feeZ a + feeZ b) / 2))
  end.
Proof.
  intros Hl. destruct l as [|x xs]; [reflexivity|].
  set (l := x :: xs) in *.
  assert (Hn : (0 < List.length l)%nat) by (simpl; lia).
  unfold medianFee.
  replace (0 <? List.length l)%nat with true by (symmetry; now apply Nat.ltb_lt).
  rewrite odd_mod2.
  assert (Hmid : (List.length l / 2 < List.length l)%nat)
    by (apply Nat.div_lt; lia).
  destruct (lookup_lt_is_Some_2 l _ Hmid) as [m Hm].
  assert (Pm : positiveFee m).
  { rewrite List.Forall_forall in Hl. apply Hl.
    apply list_elem_of_In. eapply list_elem_of_lookup_2, Hm. }
  destruct (Nat.odd (List.length l)) eqn:Hodd; cbv iota.
  - exists m. split; [assumption|].
    rewrite (feeAt_lookup l _ m Hm Pm).
    apply decimalPlaces_integer. reflexivity.
  - assert (Hprev : (List.length l / 2 - 1 < List.length l)%nat) by lia.
    destruct (lookup_lt_is_Some_2 l _ Hprev) as [a Ha].
    assert (Pa : positiveFee a).
    { rewrite List.Forall_forall in Hl. apply Hl.
      apply list_elem_of_In. eapply list_elem_of_lookup_2, Ha. }
    exists a, m. repeat split; try assumption.
    rewrite (feeAt_lookup l _ a Ha Pa), (feeAt_lookup l _ m Hm Pm).
    change (BigNumber.plus (BigNumber.ofZ (feeZ a)) (BigNumber.ofZ (feeZ m)))
      with (BigNumber.BN (inject_Z (feeZ a) + inject_Z (feeZ m))).
    eapply eqv_trans; [|apply (round_down_half (feeZ a + feeZ m))].
    + apply decimalPlaces_eqv.
      eapply eqv_trans; [|apply (div_2_exact (feeZ a + feeZ m))].
      unfold BigNumber.div, BigNumber.ofZ.
      change (Qeq_bool (inject_Z 2) 0) with false. cbv iota.
      apply decimalPlaces_eqv. simpl. rewrite inject_Z_plus. reflexivity.
    + destruct Pa as (za & Hza & ?), Pm as (zm & Hzm & ?).
      unfold feeZ. rewrite Hza, Hzm. lia.
Qed.

Lemma medianFee_integer (fees : list RecentPrioritizationFees) :
  exists z, 0 <= z /\
    BigNumber.eqv (medianFee (replaceNonZeroAndSortPrioritizationFeesAsc fees))
                  (BigNumber.ofZ z).
Proof.
  assert (Hpos := replaceNonZeroAndSort_positive fees).
  assert (H := medianFee_kept _ Hpos).
  assert (Hfee : forall i s,
             replaceNonZeroAndSortPrioritizationFeesAsc fees !! i = Some s ->
             0 < feeZ s).
  { intros i s Hs. rewrite List.Forall_forall in Hpos.
    destruct (Hpos s) as (z & Hz & Hz0).
    - apply list_elem_of_In. eapply list_elem_of_lookup_2, Hs.
    - unfold feeZ. now rewrite Hz. }
  destruct (replaceNonZeroAndSortPrioritizationFeesAsc fees) as [|x xs] eqn:E.
  - exists 0. rewrite H. split; [lia|reflexivity].
  - destruct (Nat.odd _).
    + destruct H as (m & Hm & Hv). exists (feeZ m). split; [|assumption].
      apply Hfee in Hm. lia.
    + destruct H as (a & b & Ha & Hb & Hv). exists ((feeZ a + feeZ b) / 2).
      split; [|assumption].
      apply Hfee in Ha, Hb. apply Z.div_pos; lia.
Qed.

(** C5.  The median the estimator uses, for the sorted list of kept
    samples: zero when the list is empty; the middle element when the
    length is odd (an integer, which rounding down leaves as it is); the
    average of the two middle elements rounded down when the length is
    even; and the sample itself for a single sample. *)
Theorem medianFee_of_sorted_samples (fees : list RecentPrioritizationFees) :
  let l := replaceNonZeroAndSortPrioritizationFeesAsc fees in
  match l with
  | [] => medianFee l = BigNumber.ofZ 0
  | [s] => BigNumber.eqv (medianFee l) (BigNumber.ofZ (feeZ s))
  | _ :: _ :: _ =>
      if Nat.odd (List.length l) then
        exists m, l !! (List.length l / 2)%nat = Some m
                  /\ BigNumber.eqv (medianFee l) (BigNumber.ofZ (feeZ m))
      else
        exists a b, l !! (List.length l / 2 - 1)%nat = Some a
                    /\ l !! (List.length l / 2)%nat = Some b
                    /\ BigNumber.eqv (medianFee l)
                         (BigNumber.ofZ ((feeZ a + feeZ b) / 2))
  end.
Proof.
  intros l.
  assert (H := medianFee_kept l (replaceNonZeroAndSort_positive fees)).
  destruct l as [|s [|s' rest]]; try exact H.
  simpl in H. destruct H as (m & Hm & Hv). now injection Hm as <-.
Qed.

Lemma calculatedFee_ceiling (median : BigNumber.t) (m : Z) (level : PriorityLevel) :
  BigNumber.eqv median (BigNumber.ofZ m) ->
  BigNumber.eqv (calculatedFee median level)
    (BigNumber.ofZ (Qceiling (inject_Z m * multipliers level))).
Proof.
  intros E. destruct median as [|q]; [contradiction|].
  unfold calculatedFee, BigNumber.times, BigNumber.lift2,
    BigNumber.decimalPlaces, BigNumber.eqv, BigNumber.ofZ in *.
  assert (E2 : (q * multipliers level * BigNumber.pow10 0
                == inject_Z m * multipliers level)%Q).
  { rewrite E. unfold BigNumber.pow10.
    change (inject_Z (10 ^ Z.of_nat 0)) with 1%Q. ring. }
  rewrite (roundQ_comp _ _ _ E2). unfold BigNumber.roundQ, BigNumber.pow10.
  change (inject_Z (10 ^ Z.of_nat 0)) with 1%Q. field.
Qed.

Lemma min_le_cap (x : BigNumber.t) (v cap : Q) :
  BigNumber.eqv x (BigNumber.BN v) ->
  BigNumber.le (BigNumber.min x (BigNumber.BN cap)) (BigNumber.BN cap).
Proof.
  destruct x as [|q]; [contradiction|]. intros _. simpl. apply Q.le_min_r.
Qed.

Lemma getRecentPriorityFee_is_min (connection : Connection)
    (instructions : list TransactionInstruction) (priorityLevel : PriorityLevel)
    (maxFeeCap : BigNumber.t) :
  exists (x : BigNumber.t) (v : Q),
    BigNumber.eqv x (BigNumber.BN v)
    /\ getRecentPriorityFee connection instructions priorityLevel maxFeeCap
       = BigNumber.min x maxFeeCap.
Proof.
  unfold getRecentPriorityFee.
  destruct (getRecentPrioritizationFees connection _) as [fees|e].
  - destruct (medianFee_integer fees) as (m & _ & Hm).
    eexists _, _. split; [|reflexivity].
    apply (calculatedFee_ceiling _ m priorityLevel Hm).
  - eexists _, (inject_Z (fallbackFees priorityLevel)).
    split; [|reflexivity]. unfold BigNumber.ofZ. simpl. reflexivity.
Qed.

(** C4.  Whatever the node answers to the fee query, a list of samples
    (empty or not) or a failure, the estimator returns a number that is at
    most the cap it was given. *)
Theorem getRecentPriorityFee_le_cap (connection : Connection)
    (instructions : list TransactionInstruction) (priorityLevel : PriorityLevel)
    (maxFeeCap : Q) :
  BigNumber.le
    (getRecentPriorityFee connection instructions priorityLevel
       (BigNumber.BN maxFeeCap))
    (BigNumber.BN maxFeeCap).
Proof.
  destruct (getRecentPriorityFee_is_min connection instructions priorityLevel
              (BigNumber.BN maxFeeCap)) as (x & v & Hx & ->).
  eapply min_le_cap, Hx.
Qed.

(** C7, as the code has it.  The multipliers are 0.8 < 1.0 <= 1.2 < 2.0,
    and at every level the product of the median and the multiplier is
    rounded up: the fee is the least integer that is not below it. *)
Theorem multipliers_ordered_and_product_rounded_up :
  (multipliers low < 1 /\ 1 <= multipliers medium
   /\ multipliers medium < multipliers high)%Q
  /\ forall (level : PriorityLevel) (median : Z),
       exists fee : Z,
         BigNumber.eqv (calculatedFee (BigNumber.ofZ median) level)
                       (BigNumber.ofZ fee)
         /\ (inject_Z median * multipliers level <= inject_Z fee)%Q
         /\ (inject_Z (fee - 1) < inject_Z median * multipliers level)%Q.
Proof.
  split.
  - repeat split; unfold Qlt, Qle; simpl; lia.
  - intros level median.
    exists (Qceiling (inject_Z median * multipliers level)). repeat split.
    + apply calculatedFee_ceiling. unfold BigNumber.ofZ. simpl. reflexivity.
    + apply Qle_ceiling.
    + apply Qceiling_lt.
Qed.

(** C7, counterexample.  With the single sample 1 the median is 1; at the
    low level the estimator returns 1, the product 0.8 rounded up, where
    rounding down gives 0; so the low and medium levels do not round down. *)
Lemma low_level_is_not_rounded_down :
  BigNumber.eqv
    (getRecentPriorityFee (Examples.node [Examples.sample 1] (fun _ => false))
       [] low (BigNumber.BN 1000))
    (BigNumber.ofZ 1)
  /\ Qfloor (inject_Z 1 * multipliers low) = 0
  /\ ~ (forall (level : PriorityLevel) (median : Z),
          level <> high ->
          BigNumber.eqv (calculatedFee (BigNumber.ofZ median) level)
            (BigNumber.ofZ (Qfloor (inject_Z median * multipliers level)))).
Proof.
  split; [vm_compute; reflexivity|].
  split; [reflexivity|].
  intros H. specialize (H low 1 ltac:(discriminate)).
  vm_compute in H. discriminate.
Qed.

(** ** The budget injector *)

Lemma Array_some_count (type : ComputeBudgetInstruction.InstructionType)
    (l : list TransactionInstruction) (b : bool) :
  Array_some (isBudgetInstruction type) l = Ok b ->
  if b then (1 <= countType type l)%nat else countType type l = 0%nat.
Proof.
  unfold countType. revert b. induction l as [|x xs IH]; intros b; simpl.
  - intros [= <-]. reflexivity.
  - unfold isBudgetInstruction, hasType.
    destruct (String.eqb (programId x) ComputeBudgetProgram.programId); simpl.
    + destruct (ComputeBudgetInstruction.decodeInstructionType x) as [d|e];
        [|discriminate].
      destruct (ComputeBudgetInstruction.InstructionType_eqb d type); simpl.
      * intros [= <-]. lia.
      * apply IH.
    + apply IH.
Qed.



Lemma hasType_limit (units : Z) (type : ComputeBudgetInstruction.InstructionType) :
  hasType type (ComputeBudgetProgram.setComputeUnitLimit units)
  = ComputeBudgetInstruction.InstructionType_eqb
      ComputeBudgetInstruction.SetComputeUnitLimit type.
Proof. reflexivity. Qed.

Lemma hasType_price (fee : Z) (instruction : TransactionInstruction)
    (type : ComputeBudgetInstruction.InstructionType) :
  ComputeBudgetProgram.setComputeUnitPrice fee = Ok instruction ->
  hasType type instruction
  = ComputeBudgetInstruction.InstructionType_eqb
      ComputeBudgetInstruction.SetComputeUnitPrice type.
Proof.
  unfold ComputeBudgetProgram.setComputeUnitPrice.
  destruct (fee <? 0); [discriminate|]. now intros [= <-].
Qed.

Lemma div_finite (a b : Q) :
  Qeq_bool b 0 = false ->
  exists q, BigNumber.div (BigNumber.BN a) (BigNumber.BN b) = BigNumber.BN q.
Proof.
  intros H. unfold BigNumber.div. rewrite H. simpl. eauto.
Qed.

Lemma computeUnit_nonzero (computeUnit : positive) :
  Qeq_bool (inject_Z (Z.pos computeUnit)) 0 = false.
Proof.
  destruct (Qeq_bool _ 0) eqn:E; [|reflexivity].
  apply Qeq_bool_iff in E. unfold Qeq in E. simpl in E. lia.
Qed.

Lemma maxPriorityFeePerCU_finite (maxPriorityFeeSol : Q) (computeUnit : positive) :
  exists q, maxPriorityFeePerCU maxPriorityFeeSol computeUnit = BigNumber.BN q.
Proof.
  unfold maxPriorityFeePerCU.
  destruct (div_finite
              (maxPriorityFeeSol * inject_Z LAMPORTS_PER_SOL
               - inject_Z BASE_FEE_LAMPORTS)
              (inject_Z (Z.pos computeUnit)) (computeUnit_nonzero computeUnit))
    as [q Hq].
  unfold BigNumber.times, BigNumber.minus, BigNumber.lift2, BigNumber.ofZ in *.
  rewrite Hq. now apply div_finite.
Qed.

Lemma getRecentPriorityFee_finite (connection : Connection)
    (instructions : list TransactionInstruction) (level : PriorityLevel) (cap : Q) :
  exists q, getRecentPriorityFee connection instructions level (BigNumber.BN cap)
            = BigNumber.BN q.
Proof.
  destruct (getRecentPriorityFee_is_min connection instructions level
              (BigNumber.BN cap)) as (x & v & Hx & ->).
  destruct x as [|q]; [contradiction|]. simpl. eauto.
Qed.

(** [calculatePriorityFee], with the two conversions named. *)
Lemma calculatePriorityFee_unfold (payload : MultiTransactionPayload)
    (instructions : list TransactionInstruction) (computeUnit : positive)
    (options : option TransactionExecutionOptions) :
  calculatePriorityFee payload instructions computeUnit options
  = match opt options exactPriorityFeeSol with
    | Some x =>
        if truthyQ x then
          BigNumber.toBigInt BigNumber.ROUND_DOWN (maxPriorityFeePerCU x computeUnit)
        else
          BigNumber.toBigInt BigNumber.ROUND_DOWN
            (getRecentPriorityFee (_connection payload) instructions
               (nullish (opt options priorityLevel) medium)
               (maxPriorityFeePerCU
                  (nullish (opt options maxPriorityFeeSol) DEFAULT_MAX_PRIORITY_FEE)
                  computeUnit))
    | None =>
        BigNumber.toBigInt BigNumber.ROUND_DOWN
          (getRecentPriorityFee (_connection payload) instructions
             (nullish (opt options priorityLevel) medium)
             (maxPriorityFeePerCU
                (nullish (opt options maxPriorityFeeSol) DEFAULT_MAX_PRIORITY_FEE)
                computeUnit))
    end.
Proof.
  unfold calculatePriorityFee, maxPriorityFeePerCU.
  destruct (opt options exactPriorityFeeSol) as [x|]; [|reflexivity].
  destruct (truthyQ x); reflexivity.
Qed.

(** The fee calculation always yields an integer: its promise never
    rejects. *)
Lemma calculatePriorityFee_ok (payload : MultiTransactionPayload)
    (instructions : list TransactionInstruction) (computeUnit : positive)
    (options : option TransactionExecutionOptions) :
  exists fee, calculatePriorityFee payload instructions computeUnit options = Ok fee.
Proof.
  rewrite calculatePriorityFee_unfold.
  assert (E : forall m level,
             exists fee,
               BigNumber.toBigInt BigNumber.ROUND_DOWN
                 (getRecentPriorityFee (_connection payload) instructions level
                    (maxPriorityFeePerCU m computeUnit)) = Ok fee).
  { intros m level.
    destruct (maxPriorityFeePerCU_finite m computeUnit) as [cap ->].
    destruct (getRecentPriorityFee_finite (_connection payload) instructions
                level cap) as [q ->].
    simpl. eauto. }
  destruct (opt options exactPriorityFeeSol) as [x|]; [|apply E].
  destruct (truthyQ x); [|apply E].
  destruct (maxPriorityFeePerCU_finite x computeUnit) as [q ->]. simpl. eauto.
Qed.

Lemma countType_cons (type : ComputeBudgetInstruction.InstructionType)
    (x : TransactionInstruction) (l : list TransactionInstruction) :
  countType type (x :: l)
  = ((if hasType type x then 1 else 0) + countType type l)%nat.
Proof. unfold countType. simpl. now destruct (hasType type x). Qed.

(** How a call of the injection settles: the scan throws and the list is
    as it was, or both scans answer and then the limit is put in front when
    absent and, when the price is absent, the price is computed and either
    encoded and put in front, or refused by the encoder with the list left
    as it then is. *)
Lemma addPriorityFeeInstructions_cases (payload : MultiTransactionPayload)
    (instructions : list TransactionInstruction) (computeUnit : positive)
    (options : option TransactionExecutionOptions) :
  let r := addPriorityFeeInstructions payload instructions computeUnit options in
  (exists e, r = (instructions, Throw e))
  \/ exists hasLimit hasPrice,
       Array_some
         (isBudgetInstruction ComputeBudgetInstruction.SetComputeUnitLimit)
         instructions = Ok hasLimit
       /\ Array_some
            (isBudgetInstruction ComputeBudgetInstruction.SetComputeUnitPrice)
            instructions = Ok hasPrice
       /\ let instructions1 :=
            if hasLimit then instructions
            else ComputeBudgetProgram.setComputeUnitLimit (Z.pos computeUnit)
                 :: instructions in
          if hasPrice then r = (instructions1, Ok tt)
          else exists fee,
                 calculatePriorityFee payload instructions1 computeUnit options
                 = Ok fee
                 /\ match ComputeBudgetProgram.setComputeUnitPrice fee with
                    | Ok instruction => r = (instruction :: instructions1, Ok tt)
                    | Throw e => r = (instructions1, Throw e)
                    end.
Proof.
  intros r. subst r. unfold addPriorityFeeInstructions.
  destruct (Array_some
              (isBudgetInstruction ComputeBudgetInstruction.SetComputeUnitLimit)
              instructions) as [hasLimit|e]; [|left; eauto].
  destruct (Array_some
              (isBudgetInstruction ComputeBudgetInstruction.SetComputeUnitPrice)
              instructions) as [hasPrice|e]; [|left; eauto].
  right. exists hasLimit, hasPrice. split; [reflexivity|]. split; [reflexivity|].
  unfold unshift. destruct hasLimit, hasPrice; cbn [negb]; try reflexivity.
  - destruct (calculatePriorityFee_ok payload instructions computeUnit options)
      as [fee Hfee].
    rewrite Hfee. exists fee. split; [reflexivity|].
    destruct (ComputeBudgetProgram.setComputeUnitPrice fee); reflexivity.
  - destruct (calculatePriorityFee_ok payload
                (ComputeBudgetProgram.setComputeUnitLimit (Z.pos computeUnit)
                 :: instructions) computeUnit options) as [fee Hfee].
    rewrite Hfee. exists fee. split; [reflexivity|].
    destruct (ComputeBudgetProgram.setComputeUnitPrice fee); reflexivity.
Qed.

(** What one call puts in front of the list. *)
Lemma addPriorityFeeInstructions_added (payload : MultiTransactionPayload)
    (instructions : list TransactionInstruction) (computeUnit : positive)
    (options : option TransactionExecutionOptions) :
  exists added,
    (addPriorityFeeInstructions payload instructions computeUnit options).1
    = added ++ instructions
    /\ (countType ComputeBudgetInstruction.SetComputeUnitLimit added <= 1)%nat
    /\ (countType ComputeBudgetInstruction.SetComputeUnitPrice added <= 1)%nat
    /\ List.length added
       = (countType ComputeBudgetInstruction.SetComputeUnitLimit added
          + countType ComputeBudgetInstruction.SetComputeUnitPrice added)%nat
    /\ ((1 <= countType ComputeBudgetInstruction.SetComputeUnitLimit
                instructions)%nat ->
        countType ComputeBudgetInstruction.SetComputeUnitLimit added = 0%nat)
    /\ ((1 <= countType ComputeBudgetInstruction.SetComputeUnitPrice
                instructions)%nat ->
        countType ComputeBudgetInstruction.SetComputeUnitPrice added = 0%nat).
Proof.
  destruct (addPriorityFeeInstructions_cases payload instructions computeUnit
              options) as [[e ->]|(hasLimit & hasPrice & HL & HP & H)].
  - exists []. cbn. repeat split; lia.
  - assert (CL := Array_some_count _ _ _ HL).
    assert (CP := Array_some_count _ _ _ HP).
    cbv zeta in H.
    destruct hasLimit, hasPrice.
    + rewrite H. exists []. cbn. repeat split; lia.
    + destruct H as (fee & _ & H).
      destruct (ComputeBudgetProgram.setComputeUnitPrice fee)
        as [instruction|e] eqn:Hp; rewrite H.
      * exists [instruction]. cbn [fst app].
        rewrite !countType_cons, !(hasType_price _ _ _ Hp). cbn.
        repeat split; lia.
      * exists []. cbn. repeat split; lia.
    + rewrite H.
      exists [ComputeBudgetProgram.setComputeUnitLimit (Z.pos computeUnit)].
      cbn [fst app]. rewrite !countType_cons, !hasType_limit. cbn.
      repeat split; lia.
    + destruct H as (fee & _ & H).
      destruct (ComputeBudgetProgram.setComputeUnitPrice fee)
        as [instruction|e] eqn:Hp; rewrite H.
      * exists [instruction;
                ComputeBudgetProgram.setComputeUnitLimit (Z.pos computeUnit)].
        cbn [fst app].
        rewrite !countType_cons, !(hasType_price _ _ _ Hp), !hasType_limit. cbn.
        repeat split; lia.
      * exists [ComputeBudgetProgram.setComputeUnitLimit (Z.pos computeUnit)].
        cbn [fst app]. rewrite !countType_cons, !hasType_limit. cbn.
        repeat split; lia.
Qed.





(** With a budget below the base fee the price is negative and its
    encoding is refused; the limit has been put in front by then and
    stays. *)
Lemma negative_price_leaves_the_limit :
  let payload :=
    Examples.payloadOf (Examples.node [Examples.sample 5] (fun _ => false))
      [Examples.request "Alice"] in
  let options :=
    Some {| enablePriorityFee := None; sendTransactionInterval := None;
            maxSendTransactionRetries := None; priorityLevel := None;
            maxPriorityFeeSol := Some (1 # 1000000);
            exactPriorityFeeSol := None; confirmationTimeout := None;
            skipPreflight := None; sigVerify := None; commitment := None |} in
  let r :=
    addPriorityFeeInstructions payload [Examples.transfer "Alice" "Bob"]
      MAX_COMPUTE_UNIT options in
  calculatePriorityFee payload
    [ComputeBudgetProgram.setComputeUnitLimit 1400000;
     Examples.transfer "Alice" "Bob"] MAX_COMPUTE_UNIT options = Ok (-2857)
  /\ r.1 = [ComputeBudgetProgram.setComputeUnitLimit 1400000;
            Examples.transfer "Alice" "Bob"]
  /\ exists e, r.2 = Throw e.
Proof.
  split; [vm_compute; reflexivity|]. split; [vm_compute; reflexivity|].
  eexists. vm_compute. reflexivity.
Qed.

(** ** The exact-fee option *)

(** C10.  When [exactPriorityFeeSol] is zero the option is falsy: the fee
    is computed exactly as if the option were absent, that is, it is the
    estimator's fee (or its fallback) under the per-compute-unit cap,
    truncated to an integer; the exact-fee conversion is not used. *)
Theorem zero_exact_fee_is_treated_as_absent
    (payload : MultiTransactionPayload)
    (instructions : list TransactionInstruction) (computeUnit : positive)
    (o : TransactionExecutionOptions) (x : Q) :
  exactPriorityFeeSol o = Some x -> (x == 0)%Q ->
  calculatePriorityFee payload instructions computeUnit (Some o)
  = calculatePriorityFee payload instructions computeUnit
      (Some (withExactPriorityFeeSol o None))
  /\ calculatePriorityFee payload instructions computeUnit (Some o)
     = BigNumber.toBigInt BigNumber.ROUND_DOWN
         (getRecentPriorityFee (_connection payload) instructions
            (nullish (priorityLevel o) medium)
            (maxPriorityFeePerCU
               (nullish (maxPriorityFeeSol o) DEFAULT_MAX_PRIORITY_FEE)
               computeUnit)).
Proof.
  intros Hx Hz.
  assert (F : truthyQ x = false).
  { unfold truthyQ. apply Qeq_bool_iff in Hz. now rewrite Hz. }
  rewrite !calculatePriorityFee_unfold. simpl. rewrite Hx, F. split; reflexivity.
Qed.

(** C10 at a concrete call: with the samples 5 and 7 (median 6, medium
    level, fee 8) a request for an exact fee of zero yields 8. *)
Lemma zero_exact_fee_is_treated_as_absent_witness :
  let payload :=
    Examples.payloadOf
      (Examples.node [Examples.sample 5; Examples.sample 7] (fun _ => false))
      [Examples.request "Alice"] in
  let o := withExactPriorityFeeSol Examples.noOptions (Some 0%Q) in
  calculatePriorityFee payload [Examples.transfer "Alice" "Bob"] 605 (Some o)
  = calculatePriorityFee payload [Examples.transfer "Alice" "Bob"] 605
      (Some (withExactPriorityFeeSol o None))
  /\ calculatePriorityFee payload [Examples.transfer "Alice" "Bob"] 605 (Some o)
     = Ok 8.
Proof.
  intros payload o.
  destruct (zero_exact_fee_is_treated_as_absent payload
              [Examples.transfer "Alice" "Bob"] 605 o 0%Q)
    as [H1 H2]; [reflexivity|reflexivity|].
  split; [exact H1|]. rewrite H2. vm_compute. reflexivity.
Defined.

(** ** Construction *)

Lemma validateEntries_rejects (entries : list TransactionData) (index : nat) :
  (exists d, In d entries /\ (instructions d = [] \/ feePayer d = None)) ->
  exists i,
    validateEntries index entries
    = Throw (Error ("Transaction " ++ string_of_index i
                      ++ ": No instructions provided"))
    \/ validateEntries index entries
       = Throw (Error ("Transaction " ++ string_of_index i
                         ++ ": Fee payer is required")).
Proof.
  revert index. induction entries as [|data rest IH]; intros index (d & Hin & Hd).
  - destruct Hin.
  - simpl.
    destruct (instructions data) as [|ix ixs] eqn:Hi; simpl; [eauto|].
    destruct (feePayer data) as [p|] eqn:Hp; [|eauto].
    apply IH. exists d. split; [|assumption].
    destruct Hin as [->|Hin]; [|assumption].
    destruct Hd as [Hd|Hd]; congruence.
Qed.

Lemma validateEntries_accepts (entries : list TransactionData) (index : nat) :
  Forall (fun d => instructions d <> [] /\ feePayer d <> None) entries ->
  validateEntries index entries = Ok tt.
Proof.
  intros H. revert index. induction H as [|d rest [Hi Hp] _ IH]; intros index.
  - reflexivity.
  - simpl. destruct (instructions d); [contradiction|]. simpl.
    destruct (feePayer d); [apply IH|contradiction].
Qed.

(** The batch constructor does validate: constructing a
    [MultiTransactionPayload] with an empty batch, or with a request that
    has no instruction or no fee payer, raises an error; the error is
    decided by the requests alone, whatever the node, so before any
    network call. *)
Theorem MultiTransactionPayload_new_validates
    (connection : Connection) (errors : gmap Z string)
    (transactionsData : list TransactionData)
    (signAllTransactions : option SignAllTransactionsFunction) :
  transactionsData = []
  \/ (exists d, In d transactionsData
                /\ (instructions d = [] \/ feePayer d = None)) ->
  exists message,
    (message = "At least one transaction is required"
     \/ exists i : nat,
          message = ("Transaction " ++ string_of_index i
                       ++ ": No instructions provided")%string
          \/ message = ("Transaction " ++ string_of_index i
                          ++ ": Fee payer is required")%string)
    /\ forall connection',
         MultiTransactionPayload_new connection' errors transactionsData
           signAllTransactions = Throw (Error message).
Proof.
  intros [->|H].
  - eexists. split; [left; reflexivity|]. reflexivity.
  - unfold MultiTransactionPayload_new, validateTransactionData.
    destruct transactionsData as [|d0 rest] eqn:E.
    { destruct H as (d & [] & _). }
    rewrite <- E in *. replace (List.length transactionsData =? 0)%nat with false
      by (subst; reflexivity).
    destruct (validateEntries_rejects transactionsData 0 H) as (i & [Hi|Hi]);
      rewrite Hi; eexists.
    + split; [right; exists i; left; reflexivity|reflexivity].
    + split; [right; exists i; right; reflexivity|reflexivity].
Qed.

Lemma MultiTransactionPayload_new_validates_witness :
  exists message,
    MultiTransactionPayload_new (Examples.node [] (fun _ => false)) ∅
      [Examples.request "Alice";
       {| instructions := []; feePayer := Some "Carol"; signers := None;
          addressLookupTableAccounts := None |}]
      (Some Examples.wallet)
    = Throw (Error message)
    /\ message = "Transaction 1: No instructions provided".
Proof.
  destruct (MultiTransactionPayload_new_validates
              (Examples.node [] (fun _ => false)) ∅
              [Examples.request "Alice";
               {| instructions := []; feePayer := Some "Carol"; signers := None;
                  addressLookupTableAccounts := None |}]
              (Some Examples.wallet))
    as (message & _ & H).
  - right. eexists. split; [right; left; reflexivity|]. left. reflexivity.
  - exists message. split; [apply H|].
    specialize (H (Examples.node [] (fun _ => false))).
    vm_compute in H. now injection H as <-.
Defined.

(** C9, on the single-transaction path.  The claim asks that a request
    with no instruction be refused at construction; [new TransactionPayload]
    accepts it (and one with no fee payer as well): the constructor returns
    a payload and no error, where the batch constructor raises. *)
Lemma TransactionPayload_new_checks_nothing :
  (exists payload,
     TransactionPayload.new (Examples.node [] (fun _ => false)) ∅
       {| instructions := []; feePayer := Some "Alice"; signers := None;
          addressLookupTableAccounts := None |}
       (Some (fun tx => Ok tx))
     = Ok payload)
  /\ (exists payload,
        TransactionPayload.new (Examples.node [] (fun _ => false)) ∅
          {| instructions := []; feePayer := None; signers := None;
             addressLookupTableAccounts := None |}
          None
        = Ok payload)
  /\ MultiTransactionPayload_new (Examples.node [] (fun _ => false)) ∅
        [{| instructions := []; feePayer := Some "Alice"; signers := None;
            addressLookupTableAccounts := None |}]
        (Some Examples.wallet)
      = Throw (Error "Transaction 0: No instructions provided").
Proof.
  split; [eexists; reflexivity|]. split; [eexists; reflexivity|]. reflexivity.
Qed.

(** ** The sending loop *)

Lemma alreadyProcessed_dec (r : Result string) :
  {alreadyProcessed r} + {~ alreadyProcessed r}.
Proof.
  destruct r as [v|err]; simpl; [right; tauto|].
  destruct (includes (message_of err) _); [left; reflexivity|right; discriminate].
Qed.


Lemma classify_ReturnNow (err : JsError) :
  ~ alreadyProcessed (Throw err) -> classifySendError err <> ReturnNow.
Proof.
  simpl. unfold classifySendError.
  destruct (includes (message_of err) "This transaction has already been processed");
    [tauto|].
  intros _. destruct (includes (message_of err) "Blockhash not found"); discriminate.
Qed.



Lemma classify_Rethrow (err : JsError) :
  classifySendError err = Rethrow ->
  includes (message_of err) "This transaction has already been processed" = false
  /\ includes (message_of err) "Blockhash not found" = false.
Proof.
  unfold classifySendError.
  destruct (includes (message_of err) "This transaction has already been processed");
    [discriminate|].
  destruct (includes (message_of err) "Blockhash not found"); [discriminate|].
  auto.
Qed.

Section SendingLoop.

Variable connection : Connection.
Variable signedTransaction : VersionedTransaction.
Variable signature : string.
Variables lastValidBlockHeight maxRetries : Z.





End SendingLoop.

(** The retry budget bounds the number of iterations. *)
Lemma sendLoop_terminates (connection : Connection)
    (signedTransaction : VersionedTransaction) (signature : string)
    (lastValidBlockHeight maxRetries : Z) (fuel : nat) :
  forall st : SendState,
    (Z.to_nat (maxRetries - retry st) <= fuel)%nat ->
    exists run,
      sendLoop fuel connection signedTransaction signature lastValidBlockHeight
        maxRetries st = Some run.
Proof.
  induction fuel as [|fuel IH]; intros st Hfuel; cbn [sendLoop];
    destruct ((blockHeight st <? lastValidBlockHeight) && (retry st <? maxRetries))
      eqn:C;
    try (eexists; reflexivity).
  - apply andb_prop in C as [_ Hr]. apply Z.ltb_lt in Hr. lia.
  - apply andb_prop in C as [_ Hr]. apply Z.ltb_lt in Hr.
    destruct (sendRawTransaction connection signedTransaction (sendCalls st))
      as [ok|err].
    + destruct (getBlockHeight connection signature (heightCalls st)) as [h|err].
      * apply IH. simpl. lia.
      * destruct (classifySendError err); try (eexists; reflexivity).
        destruct (getBlockHeight connection signature (S (heightCalls st)));
          [|eexists; reflexivity].
        apply IH. simpl. lia.
    + destruct (classifySendError err); try (eexists; reflexivity).
      destruct (getBlockHeight connection signature (heightCalls st));
        [|eexists; reflexivity].
      apply IH. simpl. lia.
Qed.



(** ** The batch orchestrator *)

Section PipelineProperties.

Variable translateError : JsError -> gmap Z string -> JsError.
Variable sign : VersionedTransaction -> list Signer -> VersionedTransaction.
Variable JSON_stringify : list (nat * string) -> string.
Variable completionOrder : nat -> list nat.
Variable sendAndConfirm :
  Connection -> VersionedTransaction -> string -> string -> Z ->
  option TransactionExecutionOptions ->
  Result unit * list VersionedTransaction.

Lemma collectSimulationErrors_spec (payload : MultiTransactionPayload)
    (signedTransactions : list VersionedTransaction) (i : nat) (e' : JsError) :
  Permutation (completionOrder (List.length signedTransactions))
              (List.seq 0 (List.length signedTransactions)) ->
  In (i, e')
     (collectSimulationErrors translateError completionOrder payload
        signedTransactions)
  <-> simulationFails translateError payload signedTransactions i e'.
Proof.
  intros Hperm. unfold collectSimulationErrors, simulationFails.
  rewrite <- list_elem_of_In, list_elem_of_omap. split.
  - intros (j & _ & Hj).
    destruct (signedTransactions !! j) as [tx|] eqn:Htx; [|discriminate].
    destruct (simulateTransaction (_connection payload) tx) as [ok|e] eqn:Hs;
      [discriminate|].
    injection Hj as <- <-. eauto.
  - intros (tx & e & Htx & Hs & ->). exists i. split.
    + apply list_elem_of_In. apply (Permutation_in _ (Permutation_sym Hperm)).
      apply in_seq. apply lookup_lt_Some in Htx. lia.
    + now rewrite Htx, Hs.
Qed.

Lemma simulate_sigVerify (payload : MultiTransactionPayload)
    (options : option TransactionExecutionOptions)
    (signAll : SignAllTransactionsFunction)
    (latest : BlockhashWithExpiryBlockHeight)
    (signedTransactions : list VersionedTransaction) :
  _signAllTransactions payload = Some signAll ->
  getLatestBlockhash (_connection payload) 0 = Ok latest ->
  signAll (buildVersionTransactions sign payload (transactionsData payload)
             (blockhash latest)) = Ok signedTransactions ->
  simulate translateError sign JSON_stringify completionOrder payload
    (Some (withSigVerify options))
  = let simulationErrors :=
      collectSimulationErrors translateError completionOrder payload
        signedTransactions in
    if (0 <? List.length simulationErrors)%nat then
      Throw
        (MultiTransactionSimulationError
           ("One or more simulation failed:" ++ newline
              ++ JSON_stringify
                   (List.map (fun e => (e.1, message_of e.2)) simulationErrors))
           simulationErrors)
    else
      Ok (list_to_map
            (omap id (collectSimulationResults payload signedTransactions))).
Proof.
  intros Hsign Hlatest Hsigned. unfold simulate. rewrite Hlatest. simpl.
  rewrite Hsign. unfold buildVersionTransactions in Hsigned.
  rewrite Hsigned. reflexivity.
Qed.

(** C2, as the code has it.  A simulation fails, for the orchestrator,
    when the node's [simulateTransaction] call is rejected; what a
    completed simulation reports in [value.err] is never read.  In a batch
    execution that reaches the simulations (a signer is present, the
    priority fee is enabled, the blockhash is fetched and the wallet
    signs), if at least one per-request simulation call is rejected then
    [execute] rejects with one [MultiTransactionSimulationError] whose
    [simulationErrors] hold exactly the failing indices, each with its
    translated error, and nothing is broadcast (nor is any request
    edited). *)
Theorem failed_simulation_aborts_batch
    (payload : MultiTransactionPayload)
    (options : option TransactionExecutionOptions)
    (signAll : SignAllTransactionsFunction)
    (latest : BlockhashWithExpiryBlockHeight)
    (signedTransactions : list VersionedTransaction) :
  _signAllTransactions payload = Some signAll ->
  nullish (opt options enablePriorityFee) true = true ->
  getLatestBlockhash (_connection payload) 0 = Ok latest ->
  signAll (buildVersionTransactions sign payload (transactionsData payload)
             (blockhash latest)) = Ok signedTransactions ->
  Permutation (completionOrder (List.length signedTransactions))
              (List.seq 0 (List.length signedTransactions)) ->
  (exists i e', simulationFails translateError payload signedTransactions i e') ->
  let run :=
    execute translateError sign JSON_stringify completionOrder sendAndConfirm
      payload options in
  exists message simulationErrors,
    outcome run = Throw (MultiTransactionSimulationError message simulationErrors)
    /\ (forall i e',
          In (i, e') simulationErrors
          <-> simulationFails translateError payload signedTransactions i e')
    /\ broadcasts run = []
    /\ finalTransactionsData run = transactionsData payload.
Proof.
  intros Hsign Henable Hlatest Hsigned Hperm (i & e' & Hfail) run.
  subst run. unfold execute, prepare. rewrite Hsign, Henable.
  rewrite (simulate_sigVerify payload options signAll latest signedTransactions
             Hsign Hlatest Hsigned).
  cbv zeta.
  assert (Hin := proj2 (collectSimulationErrors_spec payload signedTransactions
                          i e' Hperm) Hfail).
  destruct (collectSimulationErrors translateError completionOrder payload
              signedTransactions) as [|first others] eqn:E; [destruct Hin|].
  simpl. eexists _, _. split; [reflexivity|]. split; [|split; reflexivity].
  intros j e''. rewrite <- E. now apply collectSimulationErrors_spec.
Qed.

Lemma addPriorityFeeInstructions_prefix (payload : MultiTransactionPayload)
    (instructions : list TransactionInstruction) (computeUnit : positive)
    (options : option TransactionExecutionOptions) :
  exists added,
    (addPriorityFeeInstructions payload instructions computeUnit options).1
    = added ++ instructions
    /\ (List.length added <= 2)%nat.
Proof.
  destruct (addPriorityFeeInstructions_added payload instructions computeUnit
              options) as (added & E & L1 & P1 & Hlen & _).
  exists added. split; [exact E|lia].
Qed.

(** What the compute-budget pass leaves in [transactionsData]: the same
    requests, in the same order, each with at most two instructions put in
    front of its own. *)
Lemma prepare_data (payload : MultiTransactionPayload)
    (options : option TransactionExecutionOptions) :
  let final :=
    (prepare translateError sign JSON_stringify completionOrder payload
       options).2 in
  List.length final = List.length (transactionsData payload)
  /\ forall i d, final !! i = Some d ->
       exists request added,
         transactionsData payload !! i = Some request
         /\ d = setInstructions request (added ++ instructions request)
         /\ (List.length added <= 2)%nat.
Proof.
  unfold prepare.
  destruct (simulate _ _ _ _ _ _) as [simulationResults|e]; cbn [snd].
  - split.
    + rewrite length_zip_with.
      change (List.map fst ?l) with (fst <$> l).
      rewrite length_fmap, length_imap. apply Nat.min_id.
    + intros i d Hd. apply lookup_zip_with_Some in Hd as (request & ins & -> & Hr & Hins).
      change (List.map fst ?l) with (fst <$> l) in Hins.
      rewrite list_lookup_fmap, list_lookup_imap, Hr in Hins. simpl in Hins.
      injection Hins as <-.
      destruct (addPriorityFeeInstructions_prefix payload (instructions request)
                  (computeUnitFor (simulationResults !! i)) options)
        as (added & -> & Hlen).
      eauto.
  - split; [reflexivity|]. intros i d Hd. exists d, []. split; [assumption|].
    split; [now destruct d|simpl; lia].
Qed.

(** C1.  Whenever a batch execution returns outcomes, there are exactly as
    many as there are requests, and the outcome at each index carries the
    request at that index (the input request, with at most two
    compute-budget instructions put in front of its instructions) and the
    transaction compiled from that request; this holds however the
    individual transactions settle. *)
Theorem execute_outcomes_aligned
    (payload : MultiTransactionPayload)
    (options : option TransactionExecutionOptions)
    (outs : list ExecuteReturnItem) :
  let run :=
    execute translateError sign JSON_stringify completionOrder sendAndConfirm
      payload options in
  outcome run = Ok outs ->
  List.length outs = List.length (transactionsData payload)
  /\ List.length (finalTransactionsData run) = List.length (transactionsData payload)
  /\ exists latest,
       let transactions :=
         buildVersionTransactions sign payload (finalTransactionsData run)
           (blockhash latest) in
       getLatestBlockhash (_connection payload)
         (if nullish (opt options enablePriorityFee) true then 1%nat else 0%nat)
       = Ok latest
       /\ List.length transactions = List.length (transactionsData payload)
       /\ forall i o, outs !! i = Some o ->
            finalTransactionsData run !! i = Some (transactionData o)
            /\ transactions !! i = Some (transaction o)
            /\ exists request added,
                 transactionsData payload !! i = Some request
                 /\ transactionData o
                    = setInstructions request (added ++ instructions request)
                 /\ (List.length added <= 2)%nat.
Proof.
  intros run. subst run. unfold execute.
  destruct (_signAllTransactions payload) as [signAll|]; [|discriminate].
  set (prepared :=
         if nullish (opt options enablePriorityFee) true
         then prepare translateError sign JSON_stringify completionOrder
                payload options
         else (Ok tt, transactionsData payload)).
  assert (Hprep :
            List.length prepared.2 = List.length (transactionsData payload)
            /\ forall i d, prepared.2 !! i = Some d ->
                 exists request added,
                   transactionsData payload !! i = Some request
                   /\ d = setInstructions request (added ++ instructions request)
                   /\ (List.length added <= 2)%nat).
  { subst prepared. destruct (nullish (opt options enablePriorityFee) true).
    - apply prepare_data.
    - split; [reflexivity|]. intros i d Hd. exists d, [].
      split; [assumption|]. split; [now destruct d|simpl; lia]. }
  destruct Hprep as [Hlen Hdata].
  destruct prepared.1 as [ok|e]; [|discriminate].
  destruct (getLatestBlockhash _ _) as [latest|e] eqn:Hlatest; [|discriminate].
  destruct (signAll _) as [signedTransactions|e]; [|discriminate].
  cbn [outcome finalTransactionsData].
  set (transactions := buildVersionTransactions sign payload prepared.2
                         (blockhash latest)).
  set (results := List.map fst _).
  destruct (List.length results =? List.length prepared.2)%nat eqn:E1;
    [|discriminate].
  destruct (List.length results =? List.length transactions)%nat eqn:E2;
    [|discriminate].
  apply Nat.eqb_eq in E1, E2. cbn [negb].
  intros [= <-]. rewrite length_imap.
  split; [lia|]. split; [assumption|].
  exists latest. fold transactions. split; [reflexivity|]. split; [lia|].
  intros i o Ho. rewrite list_lookup_imap in Ho.
  destruct (results !! i) as [result|] eqn:Hr; [|discriminate].
  injection Ho as <-. cbn [transactionData transaction].
  apply lookup_lt_Some in Hr.
  assert (H1 : prepared.2 !! i = Some (prepared.2 !!! i))
    by (apply list_lookup_lookup_total_lt; lia).
  assert (H2 : transactions !! i = Some (transactions !!! i))
    by (apply list_lookup_lookup_total_lt; lia).
  split; [assumption|]. split; [assumption|]. now apply Hdata.
Qed.

(** [execute] does return outcomes once the pre-flight steps succeed and
    the wallet hands back as many transactions as it was given. *)
Lemma execute_returns_outcomes
    (payload : MultiTransactionPayload)
    (options : option TransactionExecutionOptions)
    (signAll : SignAllTransactionsFunction)
    (latest : BlockhashWithExpiryBlockHeight)
    (signedTransactions : list VersionedTransaction) :
  let enabled := nullish (opt options enablePriorityFee) true in
  let prepared :=
    if enabled
    then prepare translateError sign JSON_stringify completionOrder payload options
    else (Ok tt, transactionsData payload) in
  _signAllTransactions payload = Some signAll ->
  prepared.1 = Ok tt ->
  getLatestBlockhash (_connection payload) (if enabled then 1%nat else 0%nat)
  = Ok latest ->
  signAll (buildVersionTransactions sign payload prepared.2 (blockhash latest))
  = Ok signedTransactions ->
  List.length signedTransactions = List.length (transactionsData payload) ->
  exists outs,
    outcome (execute translateError sign JSON_stringify completionOrder
               sendAndConfirm payload options) = Ok outs.
Proof.
  intros enabled prepared Hsign Hprep Hlatest Hsigned Hlen.
  assert (Hdata : List.length prepared.2 = List.length (transactionsData payload)).
  { subst prepared. destruct enabled; [apply prepare_data|reflexivity]. }
  unfold execute. rewrite Hsign. fold enabled. fold prepared.
  rewrite Hprep, Hlatest, Hsigned. cbn [outcome].
  rewrite !List.length_map.
  unfold buildVersionTransactions at 1. rewrite List.length_map.
  rewrite Hlen, Hdata, Nat.eqb_refl. cbn [negb]. eauto.
Qed.

End PipelineProperties.

(** ** The theorems at concrete batches *)

(** C1, at a batch of two requests of which the first confirms and the
    second runs out of funds: two outcomes, in the order of the requests. *)
Lemma execute_outcomes_aligned_witness :
  let payload :=
    Examples.payloadOf
      (Examples.node [Examples.sample 5; Examples.sample 7] (fun _ => false))
      [Examples.request "Alice"; Examples.request "Carol"] in
  let run :=
    execute Examples.translateError Examples.sign Examples.JSON_stringify
      Examples.completionOrder Examples.sendAndConfirm payload None in
  exists outs,
    outcome run = Ok outs
    /\ List.map settled outs
       = [fulfilled "sig-Alice";
          rejected (Error "An account does not have enough SOL for transaction")]
    /\ List.map (fun o => feePayer (transactionData o)) outs
       = [Some "Alice"; Some "Carol"]
    /\ List.length outs = List.length (transactionsData payload).
Proof.
  intros payload run.
  eexists. split; [vm_compute; reflexivity|].
  split; [reflexivity|]. split; [reflexivity|].
  refine (proj1 (execute_outcomes_aligned Examples.translateError Examples.sign
                   Examples.JSON_stringify Examples.completionOrder
                   Examples.sendAndConfirm payload None _ _)).
  vm_compute. reflexivity.
Defined.

(** C2, at a batch of three requests of which the second and the third
    fail to simulate: one aggregate error with both indices, nothing
    broadcast. *)
Lemma failed_simulation_aborts_batch_witness :
  let payload :=
    Examples.payloadOf
      (Examples.node [Examples.sample 5] (fun payer => negb (String.eqb payer "Alice")))
      [Examples.request "Alice"; Examples.request "Carol"; Examples.request "Dave"] in
  let run :=
    execute Examples.translateError Examples.sign Examples.JSON_stringify
      Examples.completionOrder Examples.sendAndConfirm payload None in
  exists message,
    outcome run
    = Throw (MultiTransactionSimulationError message
               [(2%nat, Error "failed to simulate transaction: AccountNotFound");
                (1%nat, Error "failed to simulate transaction: AccountNotFound")])
    /\ broadcasts run = [].
Proof.
  intros payload run.
  destruct (failed_simulation_aborts_batch Examples.translateError Examples.sign
              Examples.JSON_stringify Examples.completionOrder
              Examples.sendAndConfirm payload None Examples.wallet
              {| blockhash := "EkSnNWid2cvwEVnVx9aBqawnmiCNiDgp3gUdkDPTKN1N";
                 lastValidBlockHeight := 240 |}
              (List.map
                 (fun tx =>
                    {| message := message tx;
                       signatures :=
                         [String.append "sig-" (nullish (payerKey (message tx)) "")] |})
                 (buildVersionTransactions Examples.sign payload
                    (transactionsData payload)
                    "EkSnNWid2cvwEVnVx9aBqawnmiCNiDgp3gUdkDPTKN1N")))
    as (message & errs & Hout & _ & Hsent & _).
  - reflexivity.
  - reflexivity.
  - reflexivity.
  - reflexivity.
  - apply Permutation_sym, Permutation_rev.
  - exists 1%nat, (Error "failed to simulate transaction: AccountNotFound").
    eexists _, _. split; [reflexivity|]. split; reflexivity.
  - exists message. split; [|exact Hsent].
    fold run in Hout. rewrite Hout. vm_compute in Hout.
    injection Hout as _ <-. reflexivity.
Defined.

(** C2, counterexample.  Against a node whose simulations complete and
    report in [value.err] that the transaction would fail, a batch of two
    is not aborted: [execute] returns two outcomes and three raw
    transactions were handed to the node. *)
Lemma reported_simulation_error_is_broadcast :
  let payload :=
    Examples.payloadOf Samples.reportingNode
      [Examples.request "Alice"; Examples.request "Carol"] in
  let run :=
    execute Examples.translateError Examples.sign Examples.JSON_stringify
      Examples.completionOrder Examples.sendAndConfirm payload None in
  (forall tx, exists result,
     simulateTransaction (_connection payload) tx = Ok result
     /\ err result <> None)
  /\ (exists outs, outcome run = Ok outs /\ List.length outs = 2%nat)
  /\ List.length (broadcasts run) = 3%nat.
Proof.
  split; [|split].
  - intros tx. eexists. split; [reflexivity|discriminate].
  - eexists. split; vm_compute; reflexivity.
  - vm_compute. reflexivity.
Qed.

(** * Further properties of the pipeline *)

(** ** The estimator beyond the cap *)

Lemma min_eqv (a b cap : Q) :
  (a == b)%Q ->
  BigNumber.eqv (BigNumber.min (BigNumber.BN a) (BigNumber.BN cap))
                (BigNumber.BN (Qmin b cap)).
Proof.
  intros E. simpl. now apply Q.min_compat.
Qed.

(** The estimator's fee as a number: the rounded product, or the fallback,
    under the cap. *)
Lemma getRecentPriorityFee_value (connection : Connection)
    (instructions : list TransactionInstruction) (level : PriorityLevel)
    (cap : Q) :
  match getRecentPrioritizationFees connection
          (lockedWritableAccounts instructions) with
  | Ok fees =>
      exists m, 0 <= m
        /\ BigNumber.eqv
             (medianFee (replaceNonZeroAndSortPrioritizationFeesAsc fees))
             (BigNumber.ofZ m)
        /\ BigNumber.eqv
             (getRecentPriorityFee connection instructions level (BigNumber.BN cap))
             (BigNumber.BN
                (Qmin (inject_Z (Qceiling (inject_Z m * multipliers level))) cap))
  | Throw _ =>
      getRecentPriorityFee connection instructions level (BigNumber.BN cap)
      = BigNumber.BN (Qmin (inject_Z (fallbackFees level)) cap)
  end.
Proof.
  unfold getRecentPriorityFee.
  destruct (getRecentPrioritizationFees connection _) as [fees|e];
    [|reflexivity].
  destruct (medianFee_integer fees) as (m & Hm0 & Hm).
  exists m. split; [assumption|]. split; [assumption|].
  assert (H := calculatedFee_ceiling _ m level Hm).
  destruct (calculatedFee _ level) as [|q]; [contradiction|].
  now apply min_eqv.
Qed.

Lemma multipliers_increasing (m : Z) :
  0 <= m ->
  (inject_Z m * multipliers low <= inject_Z m * multipliers medium)%Q
  /\ (inject_Z m * multipliers medium <= inject_Z m * multipliers high)%Q.
Proof.
  intros Hm. unfold multipliers, Qle; simpl. lia.
Qed.

(** X1.  For one and the same answer of the node and one cap, the
    estimate does not decrease with the priority level: low <= medium <=
    high, on the sampled path and on the fallback path alike. *)
Theorem getRecentPriorityFee_monotone_in_level (connection : Connection)
    (instructions : list TransactionInstruction) (cap : Q) :
  BigNumber.le
    (getRecentPriorityFee connection instructions low (BigNumber.BN cap))
    (getRecentPriorityFee connection instructions medium (BigNumber.BN cap))
  /\ BigNumber.le
       (getRecentPriorityFee connection instructions medium (BigNumber.BN cap))
       (getRecentPriorityFee connection instructions high (BigNumber.BN cap)).
Proof.
  assert (Hl := getRecentPriorityFee_value connection instructions low cap).
  assert (Hm := getRecentPriorityFee_value connection instructions medium cap).
  assert (Hh := getRecentPriorityFee_value connection instructions high cap).
  destruct (getRecentPrioritizationFees connection _) as [fees|e].
  - destruct Hl as (m & Hm0 & Hmed & Hl).
    destruct Hm as (m' & _ & Hmed' & Hm).
    destruct Hh as (m'' & _ & Hmed'' & Hh).
    assert (E' : m' = m /\ m'' = m).
    { destruct (medianFee _) as [|q]; [contradiction|].
      unfold BigNumber.eqv, BigNumber.ofZ in *.
      rewrite Hmed in Hmed', Hmed''. unfold Qeq in *. simpl in *. lia. }
    destruct E' as [-> ->].
    destruct (multipliers_increasing m Hm0) as [L1 L2].
    apply Qceiling_resp_le in L1, L2.
    destruct (getRecentPriorityFee connection instructions low _) as [|a];
      [contradiction|].
    destruct (getRecentPriorityFee connection instructions medium _) as [|b];
      [contradiction|].
    destruct (getRecentPriorityFee connection instructions high _) as [|c];
      [contradiction|].
    unfold BigNumber.eqv, BigNumber.le in *. rewrite Hl, Hm, Hh.
    split; apply Q.min_le_compat_r; rewrite <- Zle_Qle; assumption.
  - rewrite Hl, Hm, Hh. unfold BigNumber.le.
    split; apply Q.min_le_compat_r; unfold Qle; simpl; lia.
Qed.

Lemma sorted_permutation_unique (l1 l2 : list Z) :
  StronglySorted Z.le l1 -> StronglySorted Z.le l2 -> Permutation l1 l2 ->
  l1 = l2.
Proof.
  intros S1. revert l2. induction S1 as [|x xs Sxs IH Hx]; intros l2 S2 P.
  - apply Permutation_nil in P. now subst.
  - destruct S2 as [|y ys Sys Hy].
    + apply Permutation_sym, Permutation_nil in P. discriminate.
    + assert (E : x = y).
      { assert (Hin1 : In y (x :: xs))
          by (apply (Permutation_in _ (Permutation_sym P)); now left).
        assert (Hin2 : In x (y :: ys))
          by (apply (Permutation_in _ P); now left).
        rewrite List.Forall_forall in Hx, Hy.
        destruct Hin1 as [->|Hin1]; [reflexivity|].
        destruct Hin2 as [->|Hin2]; [reflexivity|].
        specialize (Hx _ Hin1). specialize (Hy _ Hin2). lia. }
      subst y. f_equal. apply IH; [assumption|].
      now apply Permutation_cons_inv in P.
Qed.

Lemma feeZ_sorted (l : list RecentPrioritizationFees) :
  Forall positiveFee l -> Sorted feeLeq l ->
  StronglySorted Z.le (List.map feeZ l).
Proof.
  intros Hpos Hs. apply Sorted_StronglySorted; [intros a b c; lia|].
  induction Hs as [|x xs Hxs IH Hhd]; simpl; constructor.
  - apply IH. now inversion Hpos.
  - destruct Hhd as [|y ys Hxy]; simpl; constructor.
    unfold feeLeq, feeZ in *.
    destruct (prioritizationFee x), (prioritizationFee y); tauto.
Qed.

(** The fee rates of the sorted list are the sorted fee rates of the kept
    samples: they depend on the kept rates only, as a multiset. *)
Lemma sorted_rates_unique (fees fees' : list RecentPrioritizationFees) :
  Permutation (List.map feeZ (List.filter keepFee fees))
              (List.map feeZ (List.filter keepFee fees')) ->
  List.map feeZ (replaceNonZeroAndSortPrioritizationFeesAsc fees)
  = List.map feeZ (replaceNonZeroAndSortPrioritizationFeesAsc fees').
Proof.
  intros P. apply sorted_permutation_unique.
  - apply feeZ_sorted; [apply replaceNonZeroAndSort_positive|].
    apply Array_sort_Sorted, filter_keepFee_positive.
  - apply feeZ_sorted; [apply replaceNonZeroAndSort_positive|].
    apply Array_sort_Sorted, filter_keepFee_positive.
  - unfold replaceNonZeroAndSortPrioritizationFeesAsc.
    rewrite (Permutation_map feeZ (Array_sort_Permutation feeComparator _)).
    rewrite P. apply Permutation_map, Permutation_sym, Array_sort_Permutation.
Qed.

(** The median is a function of the fee rates of the kept list. *)
Lemma medianFee_of_rates (l l' : list RecentPrioritizationFees) :
  Forall positiveFee l -> Forall positiveFee l' ->
  List.map feeZ l = List.map feeZ l' ->
  BigNumber.eqv (medianFee l) (medianFee l').
Proof.
  intros Hl Hl' E.
  assert (Hlen : List.length l = List.length l').
  { rewrite <- (List.length_map feeZ l), E. apply List.length_map. }
  assert (Hlk : forall i s, l !! i = Some s ->
                  exists s', l' !! i = Some s' /\ feeZ s' = feeZ s).
  { intros i s Hs.
    assert (H : (feeZ <$> l) !! i = Some (feeZ s))
      by (rewrite list_lookup_fmap, Hs; reflexivity).
    change (feeZ <$> l) with (List.map feeZ l) in H. rewrite E in H.
    change (List.map feeZ l') with (feeZ <$> l') in H.
    rewrite list_lookup_fmap in H.
    destruct (l' !! i) as [s'|]; [|discriminate].
    injection H as H. eauto. }
  assert (K := medianFee_kept l Hl). assert (K' := medianFee_kept l' Hl').
  destruct l as [|x xs], l' as [|x' xs']; try discriminate.
  - rewrite K. simpl. reflexivity.
  - rewrite <- Hlen in K'.
    destruct (Nat.odd (List.length (x :: xs))).
    + destruct K as (m & Hm & Hv), K' as (m' & Hm' & Hv').
      destruct (Hlk _ _ Hm) as (s' & Hs' & Es). rewrite Hm' in Hs'.
      injection Hs' as <-. rewrite Es in Hv'.
      destruct (medianFee (x :: xs)), (medianFee (x' :: xs')); try contradiction.
      unfold BigNumber.eqv, BigNumber.ofZ in *. now rewrite Hv, Hv'.
    + destruct K as (a & b & Ha & Hb & Hv), K' as (a' & b' & Ha' & Hb' & Hv').
      destruct (Hlk _ _ Ha) as (s1 & Hs1 & E1). rewrite Ha' in Hs1.
      injection Hs1 as <-.
      destruct (Hlk _ _ Hb) as (s2 & Hs2 & E2). rewrite Hb' in Hs2.
      injection Hs2 as <-. rewrite E1, E2 in Hv'.
      destruct (medianFee (x :: xs)), (medianFee (x' :: xs')); try contradiction.
      unfold BigNumber.eqv, BigNumber.ofZ in *. now rewrite Hv, Hv'.
Qed.

Lemma calculatedFee_eqv (a b : BigNumber.t) (level : PriorityLevel) :
  BigNumber.eqv a b ->
  BigNumber.eqv (calculatedFee a level) (calculatedFee b level).
Proof.
  intros E. unfold calculatedFee. apply decimalPlaces_eqv.
  destruct a, b; simpl in *; try tauto. now rewrite E.
Qed.

Lemma min_eqv_l (a b cap : BigNumber.t) :
  BigNumber.eqv a b ->
  BigNumber.eqv (BigNumber.min a cap) (BigNumber.min b cap).
Proof.
  destruct a, b, cap; simpl; try tauto. intros E. now apply Q.min_compat.
Qed.

(** X2.  The estimate depends on the samples only through the multiset of
    kept (numeric, positive) fee rates: two answers of the node with the
    same kept rates, in any order, with any slots and with any number of
    NaN or non-positive samples among them, give the same fee. *)
Theorem getRecentPriorityFee_depends_on_kept_rates
    (connection connection' : Connection)
    (instructions : list TransactionInstruction) (level : PriorityLevel)
    (maxFeeCap : BigNumber.t) (fees fees' : list RecentPrioritizationFees) :
  getRecentPrioritizationFees connection (lockedWritableAccounts instructions)
  = Ok fees ->
  getRecentPrioritizationFees connection' (lockedWritableAccounts instructions)
  = Ok fees' ->
  Permutation (List.map feeZ (List.filter keepFee fees))
              (List.map feeZ (List.filter keepFee fees')) ->
  BigNumber.eqv
    (getRecentPriorityFee connection instructions level maxFeeCap)
    (getRecentPriorityFee connection' instructions level maxFeeCap).
Proof.
  intros H H' P. unfold getRecentPriorityFee. rewrite H, H'.
  apply min_eqv_l, calculatedFee_eqv, medianFee_of_rates;
    try apply replaceNonZeroAndSort_positive.
  now apply sorted_rates_unique.
Qed.

Lemma filter_keepFee_none (fees : list RecentPrioritizationFees) :
  Forall (fun s => ~ positiveFee s) fees -> List.filter keepFee fees = [].
Proof.
  induction 1 as [|s rest Hs _ IH]; simpl; [reflexivity|].
  destruct (keepFee s) eqn:K; [|assumption].
  apply keepFee_positive in K. contradiction.
Qed.

(** X3.  When the node answers the fee query but no sample is a positive
    number (no sample at all, or only NaN, zero and negative rates), the
    estimate is min(0, cap) at every level: the fixed fallback fees are
    used only when the query itself fails. *)
Theorem getRecentPriorityFee_without_positive_sample
    (connection : Connection) (instructions : list TransactionInstruction)
    (level : PriorityLevel) (cap : Q) (fees : list RecentPrioritizationFees) :
  getRecentPrioritizationFees connection (lockedWritableAccounts instructions)
  = Ok fees ->
  Forall (fun s => ~ positiveFee s) fees ->
  BigNumber.eqv
    (getRecentPriorityFee connection instructions level (BigNumber.BN cap))
    (BigNumber.BN (Qmin 0 cap)).
Proof.
  intros H Hnone. unfold getRecentPriorityFee. rewrite H.
  unfold replaceNonZeroAndSortPrioritizationFeesAsc.
  rewrite (filter_keepFee_none fees Hnone). cbn [Array_sort].
  apply min_eqv. destruct level; vm_compute; reflexivity.
Qed.

(** ** The price handed to the compute-budget program *)

Lemma roundQ_nonneg (rm : BigNumber.RoundingMode) (y : Q) :
  (0 <= y)%Q -> 0 <= BigNumber.roundQ rm y.
Proof.
  intros Hy. unfold BigNumber.roundQ.
  assert (F : forall z, (0 <= z)%Q -> 0 <= Qfloor z).
  { intros z Hz. apply Qfloor_resp_le in Hz. exact Hz. }
  assert (C : forall z, (0 <= z)%Q -> 0 <= Qceiling z).
  { intros z Hz. apply Qceiling_resp_le in Hz. exact Hz. }
  replace (Qle_bool 0 y) with true by (symmetry; now apply Qle_bool_iff).
  destruct rm; auto.
  apply F. apply Qle_trans with y; [assumption|].
  rewrite <- (Qplus_0_r y) at 1. apply Qplus_le_r. discriminate.
Qed.

Lemma roundQ_nonpos (rm : BigNumber.RoundingMode) (y : Q) :
  (y <= 0)%Q -> BigNumber.roundQ rm y <= 0.
Proof.
  intros Hy. unfold BigNumber.roundQ.
  assert (F : forall z, (z <= 0)%Q -> Qfloor z <= 0).
  { intros z Hz. apply Qfloor_resp_le in Hz. exact Hz. }
  assert (C : forall z, (z <= 0)%Q -> Qceiling z <= 0).
  { intros z Hz. apply Qceiling_resp_le in Hz. exact Hz. }
  destruct rm; auto.
  - destruct (Qle_bool 0 y); auto.
  - destruct (Qle_bool 0 y) eqn:E.
    + apply Qle_bool_iff in E.
      assert (E0 : (y == 0)%Q) by now apply Qle_antisym.
      rewrite E0. reflexivity.
    + apply C. apply Qle_trans with y; [|assumption].
      rewrite <- (Qplus_0_r y) at 2. apply Qplus_le_r. discriminate.
Qed.

Lemma div_nonneg (a b : Q) :
  (0 <= a)%Q -> (0 < b)%Q ->
  exists q, BigNumber.div (BigNumber.BN a) (BigNumber.BN b) = BigNumber.BN q
            /\ (0 <= q)%Q.
Proof.
  intros Ha Hb. unfold BigNumber.div.
  replace (Qeq_bool b 0) with false.
  2:{ symmetry. destruct (Qeq_bool b 0) eqn:E; [|reflexivity].
      apply Qeq_bool_iff in E. rewrite E in Hb. discriminate. }
  eexists. split; [reflexivity|].
  assert (P := pow10_pos BigNumber.DECIMAL_PLACES).
  apply Qle_shift_div_l; [assumption|]. rewrite Qmult_0_l.
  change 0%Q with (inject_Z 0). rewrite <- Zle_Qle.
  apply roundQ_nonneg. apply Qmult_le_0_compat; [|now apply Qlt_le_weak].
  apply Qle_shift_div_l; [assumption|]. now rewrite Qmult_0_l.
Qed.

Lemma div_nonpos (a b : Q) :
  (a <= 0)%Q -> (0 < b)%Q ->
  exists q, BigNumber.div (BigNumber.BN a) (BigNumber.BN b) = BigNumber.BN q
            /\ (q <= 0)%Q.
Proof.
  intros Ha Hb. unfold BigNumber.div.
  replace (Qeq_bool b 0) with false.
  2:{ symmetry. destruct (Qeq_bool b 0) eqn:E; [|reflexivity].
      apply Qeq_bool_iff in E. rewrite E in Hb. discriminate. }
  eexists. split; [reflexivity|].
  assert (P := pow10_pos BigNumber.DECIMAL_PLACES).
  apply Qle_shift_div_r; [assumption|]. rewrite Qmult_0_l.
  change 0%Q with (inject_Z 0). rewrite <- Zle_Qle.
  apply roundQ_nonpos.
  assert (H : (a / b <= 0)%Q).
  { apply Qle_shift_div_r; [assumption|]. now rewrite Qmult_0_l. }
  rewrite <- (Qmult_0_l (BigNumber.pow10 BigNumber.DECIMAL_PLACES)).
  apply Qmult_le_compat_r; [assumption|now apply Qlt_le_weak].
Qed.

Lemma LAMPORTS_PER_MICRO_LAMPORT_pos : (0 < LAMPORTS_PER_MICRO_LAMPORT)%Q.
Proof. reflexivity. Qed.

Lemma computeUnit_pos (computeUnit : positive) :
  (0 < inject_Z (Z.pos computeUnit))%Q.
Proof. unfold Qlt. simpl. lia. Qed.

Lemma div_sign (a b : Q) :
  (0 < b)%Q ->
  exists q, BigNumber.div (BigNumber.BN a) (BigNumber.BN b) = BigNumber.BN q
            /\ ((0 <= a)%Q -> (0 <= q)%Q) /\ ((a <= 0)%Q -> (q <= 0)%Q).
Proof.
  intros Hb.
  destruct (div_finite a b) as [q Hq].
  { destruct (Qeq_bool b 0) eqn:E; [|reflexivity].
    apply Qeq_bool_iff in E. rewrite E in Hb. discriminate. }
  exists q. split; [assumption|]. split; intros Ha.
  - destruct (div_nonneg a b Ha Hb) as (q' & E & H). congruence.
  - destruct (div_nonpos a b Ha Hb) as (q' & E & H). congruence.
Qed.

(** The sign of the per-compute-unit cap follows that of the budget left
    once the base fee is paid. *)
Lemma maxPriorityFeePerCU_sign (maxSol : Q) (computeUnit : positive) :
  exists c, maxPriorityFeePerCU maxSol computeUnit = BigNumber.BN c
    /\ ((inject_Z BASE_FEE_LAMPORTS <= maxSol * inject_Z LAMPORTS_PER_SOL)%Q ->
        (0 <= c)%Q)
    /\ ((maxSol * inject_Z LAMPORTS_PER_SOL <= inject_Z BASE_FEE_LAMPORTS)%Q ->
        (c <= 0)%Q).
Proof.
  unfold maxPriorityFeePerCU, BigNumber.times, BigNumber.minus, BigNumber.lift2,
    BigNumber.ofZ.
  set (L := (maxSol * inject_Z LAMPORTS_PER_SOL - inject_Z BASE_FEE_LAMPORTS)%Q).
  destruct (div_sign L (inject_Z (Z.pos computeUnit)) (computeUnit_pos computeUnit))
    as (q1 & -> & P1 & N1).
  destruct (div_sign q1 LAMPORTS_PER_MICRO_LAMPORT LAMPORTS_PER_MICRO_LAMPORT_pos)
    as (c & -> & P2 & N2).
  exists c. split; [reflexivity|]. split; intros H.
  - apply P2, P1. subst L.
    apply (Qplus_le_l _ _ (inject_Z BASE_FEE_LAMPORTS)). ring_simplify. exact H.
  - apply N2, N1. subst L.
    apply (Qplus_le_l _ _ (inject_Z BASE_FEE_LAMPORTS)). ring_simplify. exact H.
Qed.

(** The estimate is the smaller of a non-negative integer and the cap. *)
Lemma getRecentPriorityFee_shape (connection : Connection)
    (instructions : list TransactionInstruction) (level : PriorityLevel)
    (cap : Q) :
  exists (v : Q) (k : Z),
    getRecentPriorityFee connection instructions level (BigNumber.BN cap)
    = BigNumber.BN v
    /\ (v == Qmin (inject_Z k) cap)%Q /\ 0 <= k.
Proof.
  assert (H := getRecentPriorityFee_value connection instructions level cap).
  destruct (getRecentPrioritizationFees connection _) as [fees|e].
  - destruct H as (m & Hm & _ & Hv).
    destruct (getRecentPriorityFee _ _ _ _) as [|v]; [contradiction|].
    exists v, (Qceiling (inject_Z m * multipliers level)).
    split; [reflexivity|]. split; [exact Hv|].
    change 0 with (Qceiling 0). apply Qceiling_resp_le.
    apply Qmult_le_0_compat; [unfold Qle; simpl; lia|].
    destruct level; discriminate.
  - rewrite H. exists (Qmin (inject_Z (fallbackFees level)) cap), (fallbackFees level).
    split; [reflexivity|]. split; [reflexivity|]. destruct level; simpl; lia.
Qed.

Lemma calculatePriorityFee_estimated (payload : MultiTransactionPayload)
    (instructions : list TransactionInstruction) (computeUnit : positive)
    (options : option TransactionExecutionOptions) :
  noExactFee options ->
  calculatePriorityFee payload instructions computeUnit options
  = BigNumber.toBigInt BigNumber.ROUND_DOWN
      (getRecentPriorityFee (_connection payload) instructions
         (nullish (opt options priorityLevel) medium)
         (maxPriorityFeePerCU
            (nullish (opt options maxPriorityFeeSol) DEFAULT_MAX_PRIORITY_FEE)
            computeUnit)).
Proof.
  unfold noExactFee. intros H. rewrite calculatePriorityFee_unfold.
  destruct (opt options exactPriorityFeeSol) as [x|]; [|reflexivity].
  unfold truthyQ. apply Qeq_bool_iff in H. now rewrite H.
Qed.

(** X4.  When no exact fee is asked for and the budget [maxPriorityFeeSol]
    (0.001 SOL by default) covers the 5000-lamport base fee, the price per
    compute unit is an integer between 0 and the per-compute-unit cap
    derived from the budget, whatever the node reports. *)
Theorem calculatePriorityFee_within_budget (payload : MultiTransactionPayload)
    (instructions : list TransactionInstruction) (computeUnit : positive)
    (options : option TransactionExecutionOptions) :
  let maxSol :=
    nullish (opt options maxPriorityFeeSol) DEFAULT_MAX_PRIORITY_FEE in
  noExactFee options ->
  (inject_Z BASE_FEE_LAMPORTS <= maxSol * inject_Z LAMPORTS_PER_SOL)%Q ->
  exists (fee : Z) (cap : Q),
    maxPriorityFeePerCU maxSol computeUnit = BigNumber.BN cap
    /\ calculatePriorityFee payload instructions computeUnit options = Ok fee
    /\ 0 <= fee /\ (inject_Z fee <= cap)%Q.
Proof.
  intros maxSol Hno Hbudget.
  rewrite (calculatePriorityFee_estimated _ _ _ _ Hno). fold maxSol.
  destruct (maxPriorityFeePerCU_sign maxSol computeUnit) as (cap & -> & Hpos & _).
  specialize (Hpos Hbudget).
  destruct (getRecentPriorityFee_shape (_connection payload) instructions
              (nullish (opt options priorityLevel) medium) cap)
    as (v & k & -> & Hv & Hk).
  assert (Hv0 : (0 <= v)%Q).
  { rewrite Hv. apply Q.min_glb; [|assumption]. unfold Qle; simpl; lia. }
  assert (Hvc : (v <= cap)%Q) by (rewrite Hv; apply Q.le_min_r).
  exists (BigNumber.roundQ BigNumber.ROUND_DOWN v), cap.
  split; [reflexivity|]. split; [reflexivity|]. split.
  - now apply roundQ_nonneg.
  - unfold BigNumber.roundQ.
    replace (Qle_bool 0 v) with true by (symmetry; now apply Qle_bool_iff).
    apply Qle_trans with v; [apply Qfloor_le|assumption].
Qed.

(** X5.  When no exact fee is asked for and the budget [maxPriorityFeeSol]
    does not exceed the base fee, the price per compute unit is zero or
    negative, whatever the node reports. *)
Theorem calculatePriorityFee_below_base_fee (payload : MultiTransactionPayload)
    (instructions : list TransactionInstruction) (computeUnit : positive)
    (options : option TransactionExecutionOptions) :
  let maxSol :=
    nullish (opt options maxPriorityFeeSol) DEFAULT_MAX_PRIORITY_FEE in
  noExactFee options ->
  (maxSol * inject_Z LAMPORTS_PER_SOL <= inject_Z BASE_FEE_LAMPORTS)%Q ->
  exists fee : Z,
    calculatePriorityFee payload instructions computeUnit options = Ok fee
    /\ fee <= 0.
Proof.
  intros maxSol Hno Hbudget.
  rewrite (calculatePriorityFee_estimated _ _ _ _ Hno). fold maxSol.
  destruct (maxPriorityFeePerCU_sign maxSol computeUnit) as (cap & -> & _ & Hneg).
  specialize (Hneg Hbudget).
  destruct (getRecentPriorityFee_shape (_connection payload) instructions
              (nullish (opt options priorityLevel) medium) cap)
    as (v & k & -> & Hv & Hk).
  eexists. split; [reflexivity|].
  apply roundQ_nonpos. rewrite Hv.
  apply Qle_trans with cap; [apply Q.le_min_r|assumption].
Qed.

(** ** The sending loop: budget and errors *)

(** Case analysis of one iteration of the loop. *)
Ltac send_cases H :=
  repeat match type of H with
         | Some _ = Some _ => injection H as <-
         | context [match classifySendError ?e with _ => _ end] =>
             destruct (classifySendError e) eqn:?
         | context [match getBlockHeight ?c ?s ?n with _ => _ end] =>
             destruct (getBlockHeight c s n) eqn:?
         | context [match sendRawTransaction ?c ?t ?n with _ => _ end] =>
             destruct (sendRawTransaction c t n) eqn:?
         end.

Lemma sendLoop_budget (connection : Connection)
    (signedTransaction : VersionedTransaction) (signature : string)
    (lastValidBlockHeight maxRetries : Z) (fuel : nat) :
  forall (st : SendState) (run : SendRun),
    sendLoop fuel connection signedTransaction signature lastValidBlockHeight
      maxRetries st = Some run ->
    Z.of_nat (List.length (sendResponses run))
    <= Z.of_nat (List.length (responses st)) + Z.max 0 (maxRetries - retry st).
Proof.
  induction fuel as [|fuel IH]; intros st run; cbn [sendLoop];
    destruct ((blockHeight st <? lastValidBlockHeight) && (retry st <? maxRetries))
      eqn:C;
    try discriminate;
    try (intros [= <-]; simpl; lia).
  apply andb_prop in C as [_ Hr]. apply Z.ltb_lt in Hr.
  intros H. send_cases H; simpl;
    try (apply IH in H; simpl in H); rewrite ?length_app in *; simpl in *; lia.
Qed.

Lemma sendLoop_raised (connection : Connection)
    (signedTransaction : VersionedTransaction) (signature : string)
    (lastValidBlockHeight maxRetries : Z) (fuel : nat) :
  forall (st : SendState) (run : SendRun) (err : JsError),
    sendLoop fuel connection signedTransaction signature lastValidBlockHeight
      maxRetries st = Some run ->
    exit run = Raised err ->
    (exists n, getBlockHeight connection signature n = Throw err)
    \/ (In (Throw err) (sendResponses run)
        /\ classifySendError err = Rethrow).
Proof.
  induction fuel as [|fuel IH]; intros st run err; cbn [sendLoop];
    destruct ((blockHeight st <? lastValidBlockHeight) && (retry st <? maxRetries))
      eqn:C;
    try discriminate;
    try (intros [= <-]; simpl; destruct (_ <=? _); discriminate).
  intros H. send_cases H; simpl; try discriminate;
    try (intros [= <-]); try (now apply IH in H); eauto.
  all: right; split; [|assumption]; apply in_or_app; right; now left.
Qed.

(** X6.  The sending loop never broadcasts more often than the retry
    budget [maxSendTransactionRetries] allows (none at all for a budget of
    zero or less), and when the first poll already shows a block height at
    or above the last valid one it raises the block-height error without
    broadcasting anything. *)
Theorem sendTransactionWithRetry_broadcast_budget
    (payload : MultiTransactionPayload)
    (signedTransaction : VersionedTransaction) (signature : string)
    (lastValidBlockHeight : Z) (options : option TransactionExecutionOptions) :
  exists run,
    sendTransactionWithRetry payload signedTransaction signature
      lastValidBlockHeight options = Some run
    /\ Z.of_nat (List.length (sendResponses run))
       <= Z.max 0 (nullish (opt options maxSendTransactionRetries)
                           Number_MAX_SAFE_INTEGER)
    /\ forall h,
         getBlockHeight (_connection payload) signature 0 = Ok h ->
         lastValidBlockHeight <= h ->
         exit run = Expired /\ sendResponses run = [].
Proof.
  unfold sendTransactionWithRetry.
  set (maxRetries := nullish _ _).
  destruct (getBlockHeight (_connection payload) signature 0) as [h|e].
  - set (st := {| retry := 0; blockHeight := h; sendCalls := 0; heightCalls := 1;
                  responses := [] |}).
    destruct (sendLoop_terminates (_connection payload) signedTransaction
                signature lastValidBlockHeight maxRetries (Z.to_nat maxRetries) st)
      as [run Hrun].
    { simpl. rewrite Z.sub_0_r. lia. }
    exists run. split; [exact Hrun|]. split.
    + apply sendLoop_budget in Hrun. simpl in Hrun. rewrite Z.sub_0_r in Hrun.
      exact Hrun.
    + intros h' [= <-] Hh.
      destruct (Z.to_nat maxRetries); cbn [sendLoop] in Hrun;
        replace (blockHeight st <? lastValidBlockHeight) with false in Hrun
          by (symmetry; apply Z.ltb_ge; exact Hh);
        cbn [andb] in Hrun; injection Hrun as <-; simpl;
        replace (lastValidBlockHeight <=? h) with true
          by (symmetry; now apply Z.leb_le); auto.
  - eexists. split; [reflexivity|]. simpl. split; [lia|]. discriminate.
Qed.

(** X7.  An error the sending loop passes on to its caller is either a
    failure of a block-height poll, or the answer to one of its broadcasts
    whose message mentions neither "already been processed" nor "Blockhash
    not found": those two answers are never surfaced. *)
Theorem sendTransactionWithRetry_raises_only_other_errors
    (payload : MultiTransactionPayload)
    (signedTransaction : VersionedTransaction) (signature : string)
    (lastValidBlockHeight : Z) (options : option TransactionExecutionOptions) :
  exists run,
    sendTransactionWithRetry payload signedTransaction signature
      lastValidBlockHeight options = Some run
    /\ forall err,
         exit run = Raised err ->
         (exists n, getBlockHeight (_connection payload) signature n = Throw err)
         \/ (In (Throw err) (sendResponses run)
             /\ includes (message_of err)
                  "This transaction has already been processed" = false
             /\ includes (message_of err) "Blockhash not found" = false).
Proof.
  unfold sendTransactionWithRetry.
  set (maxRetries := nullish _ _).
  destruct (getBlockHeight (_connection payload) signature 0) as [h|e] eqn:H0.
  - set (st := {| retry := 0; blockHeight := h; sendCalls := 0; heightCalls := 1;
                  responses := [] |}).
    destruct (sendLoop_terminates (_connection payload) signedTransaction
                signature lastValidBlockHeight maxRetries (Z.to_nat maxRetries) st)
      as [run Hrun].
    { simpl. rewrite Z.sub_0_r. lia. }
    exists run. split; [exact Hrun|]. intros err Herr.
    destruct (sendLoop_raised _ _ _ _ _ _ _ _ _ Hrun Herr) as [Hp|[Hin Hc]];
      [left; exact Hp|right].
    split; [exact Hin|]. now apply classify_Rethrow.
  - eexists. split; [reflexivity|]. simpl. intros err [= <-]. left. eauto.
Qed.

(** ** Construction of a batch payload *)

Lemma validateEntries_first_offender (entries : list TransactionData)
    (index : nat) (e : JsError) :
  validateEntries index entries = Throw e ->
  exists k d,
    entries !! k = Some d
    /\ Forall wellFormed (take k entries)
    /\ ((instructions d = []
         /\ e = Error ("Transaction " ++ string_of_index (index + k)
                         ++ ": No instructions provided"))
        \/ (instructions d <> [] /\ feePayer d = None
            /\ e = Error ("Transaction " ++ string_of_index (index + k)
                            ++ ": Fee payer is required"))).
Proof.
  revert index. induction entries as [|data rest IH]; intros index; simpl.
  - discriminate.
  - destruct (instructions data) as [|ix ixs] eqn:Hi; simpl.
    + intros [= <-]. exists 0%nat, data. rewrite Nat.add_0_r.
      split; [reflexivity|]. split; [constructor|]. left. auto.
    + destruct (feePayer data) as [p|] eqn:Hp.
      * intros H. destruct (IH _ H) as (k & d & Hk & Hall & Hmsg).
        exists (S k), d. split; [exact Hk|]. split.
        -- simpl. constructor; [|exact Hall]. split; congruence.
        -- replace (index + S k)%nat with (S index + k)%nat by lia. exact Hmsg.
      * intros [= <-]. exists 0%nat, data. rewrite Nat.add_0_r.
        split; [reflexivity|]. split; [constructor|]. right.
        rewrite Hi. repeat split; congruence.
Qed.

(** X8.  [new MultiTransactionPayload(...)] succeeds exactly when the
    batch is not empty and every request has at least one instruction and
    a fee payer; the payload then holds the arguments as they were given. *)
Theorem MultiTransactionPayload_new_accepts_iff_well_formed
    (connection : Connection) (errors : gmap Z string)
    (transactionsData : list TransactionData)
    (signAllTransactions : option SignAllTransactionsFunction)
    (payload : MultiTransactionPayload) :
  MultiTransactionPayload_new connection errors transactionsData
    signAllTransactions = Ok payload
  <-> transactionsData <> []
      /\ Forall wellFormed transactionsData
      /\ payload = Build_MultiTransactionPayload connection errors
                     transactionsData signAllTransactions.
Proof.
  unfold MultiTransactionPayload_new, validateTransactionData. split.
  - destruct transactionsData as [|d rest] eqn:E; [discriminate|].
    rewrite <- E. replace (List.length transactionsData =? 0)%nat with false
      by (subst; reflexivity).
    destruct (validateEntries 0 transactionsData) as [[]|e] eqn:V;
      [|discriminate].
    intros [= <-]. split; [subst; discriminate|]. split; [|reflexivity].
    clear E. revert V. generalize 0%nat.
    induction transactionsData as [|x xs IH]; intros n; simpl; [constructor|].
    destruct (instructions x) eqn:Hi; simpl; [discriminate|].
    destruct (feePayer x) eqn:Hp; [|discriminate].
    intros V. constructor; [split; congruence|]. eapply IH, V.
  - intros (Hne & Hall & ->).
    destruct transactionsData as [|d rest] eqn:E; [contradiction|].
    rewrite <- E in *. replace (List.length transactionsData =? 0)%nat with false
      by (subst; reflexivity).
    now rewrite (validateEntries_accepts transactionsData 0 Hall).
Qed.

(** X9.  When the constructor refuses a non-empty batch, its message
    names the first request that is not well formed, and for that request
    the missing instructions are reported before the missing fee payer. *)
Theorem MultiTransactionPayload_new_reports_first_offender
    (connection : Connection) (errors : gmap Z string)
    (transactionsData : list TransactionData)
    (signAllTransactions : option SignAllTransactionsFunction) (e : JsError) :
  transactionsData <> [] ->
  MultiTransactionPayload_new connection errors transactionsData
    signAllTransactions = Throw e ->
  exists i d,
    transactionsData !! i = Some d
    /\ Forall wellFormed (take i transactionsData)
    /\ ((instructions d = []
         /\ e = Error ("Transaction " ++ string_of_index i
                         ++ ": No instructions provided"))
        \/ (instructions d <> [] /\ feePayer d = None
            /\ e = Error ("Transaction " ++ string_of_index i
                            ++ ": Fee payer is required"))).
Proof.
  intros Hne. unfold MultiTransactionPayload_new, validateTransactionData.
  destruct transactionsData as [|d rest] eqn:E; [contradiction|].
  rewrite <- E in *. replace (List.length transactionsData =? 0)%nat with false
    by (subst; reflexivity).
  destruct (validateEntries 0 transactionsData) as [[]|e'] eqn:V;
    [discriminate|].
  intros [= <-]. exact (validateEntries_first_offender _ _ _ V).
Qed.

(** ** Amounts *)

Lemma pow_TEN (d : nat) :
  BigNumber.eqv (BigNumber_pow TEN_BIGNUM d)
                (BigNumber.BN (inject_Z (10 ^ Z.of_nat d))).
Proof.
  induction d as [|d IH].
  - simpl. reflexivity.
  - cbn [BigNumber_pow]. destruct (BigNumber_pow TEN_BIGNUM d) as [|q];
      [contradiction|].
    unfold TEN_BIGNUM, BigNumber.times, BigNumber.lift2, BigNumber.ofZ,
      BigNumber.eqv in *.
    rewrite IH, <- inject_Z_mult, Nat2Z.inj_succ, Z.pow_succ_r by lia.
    reflexivity.
Qed.

Lemma toFixed0_integer (q : Q) (n : Z) :
  (q == inject_Z n)%Q -> toFixed0 (BigNumber.BN q) = Ok n.
Proof.
  intros E. unfold toFixed0, BigNumber.toBigInt.
  now rewrite (roundQ_comp _ _ _ E), roundQ_inject_Z.
Qed.

(** Dividing an integer by a power of ten of at most 20 digits is exact. *)
Lemma div_pow10_exact (n : Z) (b : Q) (d : nat) :
  (d <= 20)%nat -> (b == inject_Z (10 ^ Z.of_nat d))%Q ->
  BigNumber.eqv (BigNumber.div (BigNumber.ofZ n) (BigNumber.BN b))
                (BigNumber.BN (inject_Z n / inject_Z (10 ^ Z.of_nat d))).
Proof.
  intros Hd Hb.
  assert (P : 0 < 10 ^ Z.of_nat d) by (apply Z.pow_pos_nonneg; lia).
  assert (Hb0 : ~ (inject_Z (10 ^ Z.of_nat d) == 0)%Q).
  { unfold Qeq. simpl. lia. }
  unfold BigNumber.div, BigNumber.ofZ.
  replace (Qeq_bool b 0) with false.
  2:{ symmetry. destruct (Qeq_bool b 0) eqn:E; [|reflexivity].
      apply Qeq_bool_iff in E. rewrite Hb in E. contradiction. }
  unfold BigNumber.decimalPlaces, BigNumber.eqv.
  assert (P20 := pow10_pos BigNumber.DECIMAL_PLACES).
  assert (Hsplit : 10 ^ Z.of_nat 20 = 10 ^ Z.of_nat (20 - d) * 10 ^ Z.of_nat d).
  { rewrite <- Z.pow_add_r by lia. f_equal. lia. }
  assert (E : (inject_Z n / b * BigNumber.pow10 BigNumber.DECIMAL_PLACES
               == inject_Z (n * 10 ^ Z.of_nat (20 - d)))%Q).
  { rewrite Hb. unfold BigNumber.pow10, BigNumber.DECIMAL_PLACES.
    rewrite Hsplit, !inject_Z_mult. field. exact Hb0. }
  rewrite (roundQ_comp _ _ _ E), roundQ_inject_Z.
  unfold BigNumber.pow10, BigNumber.DECIMAL_PLACES.
  rewrite Hsplit, !inject_Z_mult. field. split; [exact Hb0|].
  unfold Qeq. simpl.
  assert (0 < 10 ^ Z.of_nat (20 - d)) by (apply Z.pow_pos_nonneg; lia). lia.
Qed.

Lemma times_div_pow10 (n : Z) (d : nat) (q : Q) :
  (d <= 20)%nat -> (q == inject_Z (10 ^ Z.of_nat d))%Q ->
  toFixed0 (BigNumber.times (BigNumber.div (BigNumber.ofZ n) (BigNumber.BN q))
                            (BigNumber.BN q))
  = Ok n.
Proof.
  intros Hd Hq.
  assert (H := div_pow10_exact n q d Hd Hq).
  destruct (BigNumber.div (BigNumber.ofZ n) (BigNumber.BN q)) as [|r];
    [contradiction|].
  unfold BigNumber.times, BigNumber.lift2. apply toFixed0_integer.
  unfold BigNumber.eqv in H. rewrite H, Hq. field.
  unfold Qeq. simpl.
  assert (0 < 10 ^ Z.of_nat d) by (apply Z.pow_pos_nonneg; lia). lia.
Qed.

Lemma parseSol_formatSol (n : Z) :
  parseSol (formatSol (BigNumber.ofZ n)) = Ok n.
Proof.
  unfold parseSol, formatSol.
  apply (times_div_pow10 n 9%nat (inject_Z LAMPORTS_PER_SOL)); [lia|reflexivity].
Qed.

(** X10.  For a token with at most 20 decimals, formatting an integer
    amount of smallest units and parsing the result back returns the
    amount: [parseToken(formatToken(n, d), d) = n].  [formatSol] and
    [parseSol] are the case of 9 decimals. *)
Theorem parseToken_formatToken (n : Z) (decimals : nat) :
  (decimals <= 20)%nat ->
  parseToken (formatToken (BigNumber.ofZ n) decimals) decimals = Ok n
  /\ parseSol (formatSol (BigNumber.ofZ n)) = Ok n.
Proof.
  intros Hd. split; [|apply parseSol_formatSol].
  unfold parseToken, formatToken.
  assert (Hp := pow_TEN decimals).
  destruct (BigNumber_pow TEN_BIGNUM decimals) as [|q] eqn:E; [contradiction|].
  now apply (times_div_pow10 n decimals q).
Qed.

(** X11.  [parseSol] rounds to the nearest lamport: for every finite amount
    the result differs from amount x 10^9 by at most one half; an amount
    that is not a number makes it throw. *)
Theorem parseSol_rounds_to_nearest (amount : Q) :
  (exists lamports,
     parseSol (BigNumber.BN amount) = Ok lamports
     /\ (inject_Z lamports - amount * inject_Z LAMPORTS_PER_SOL <= 1 # 2)%Q
     /\ (amount * inject_Z LAMPORTS_PER_SOL - inject_Z lamports <= 1 # 2)%Q)
  /\ exists e, parseSol BigNumber.NaN = Throw e.
Proof.
  split; [|eexists; reflexivity].
  unfold parseSol, toFixed0, BigNumber.times, BigNumber.lift2, BigNumber.ofZ,
    BigNumber.toBigInt.
  set (y := (amount * inject_Z LAMPORTS_PER_SOL)%Q).
  eexists. split; [reflexivity|]. unfold BigNumber.roundQ.
  destruct (Qle_bool 0 y).
  - assert (L := Qfloor_le (y + (1 # 2))). assert (U := Qlt_floor (y + (1 # 2))).
    rewrite inject_Z_plus in U. change (inject_Z 1) with 1%Q in U.
    split; lra.
  - assert (L := Qle_ceiling (y - (1 # 2))). assert (U := Qceiling_lt (y - (1 # 2))).
    unfold Z.sub in U. rewrite inject_Z_plus in U.
    change (inject_Z (- (1))) with (-1 # 1)%Q in U.
    split; lra.
Qed.

(** The bound of 20 decimals is where the round trip stops: with 21
    decimals one smallest unit is formatted as 0. *)
Lemma formatToken_21_decimals_drops_a_unit :
  parseToken (formatToken (BigNumber.ofZ 1) 21) 21 = Ok 0.
Proof. vm_compute. reflexivity. Qed.

(** ** The decimals cache *)

(** X12.  Once [getMintDecimals] has answered for a mint, every later call
    for that mint returns the same decimals from the cache, whatever the
    node would answer by then (even a failure), and leaves the cache as it
    is; a cached value of 0 is served like any other. *)
Theorem getMintDecimals_memoizes
    (getTokenSupply getTokenSupply' : PublicKey -> Result Z)
    (cache cache1 : gmap string Z) (mint : PublicKey) (decimals : Z) :
  getMintDecimals getTokenSupply cache mint = (cache1, Ok decimals) ->
  getMintDecimals getTokenSupply' cache1 mint = (cache1, Ok decimals).
Proof.
  unfold getMintDecimals.
  destruct (cache !! mint) as [d|] eqn:Hc.
  - intros [= <- <-]. now rewrite Hc.
  - destruct (getTokenSupply mint) as [d|e]; [|discriminate].
    intros [= <- <-]. now rewrite lookup_insert_eq.
Qed.

(** X13.  [getMintDecimals] only ever adds to the cache: every entry stays
    with its value, the entries of other mints are untouched, a failed
    lookup changes nothing, and a successful one leaves the mint cached
    with the decimals it returned. *)
Theorem getMintDecimals_cache_grows
    (getTokenSupply : PublicKey -> Result Z)
    (cache : gmap string Z) (mint : PublicKey) :
  let r := getMintDecimals getTokenSupply cache mint in
  cache ⊆ r.1
  /\ (forall other, other <> mint -> r.1 !! other = cache !! other)
  /\ match r.2 with
     | Ok decimals => r.1 !! mint = Some decimals
     | Throw _ => r.1 = cache /\ cache !! mint = None
     end.
Proof.
  unfold getMintDecimals.
  destruct (cache !! mint) as [d|] eqn:Hc; cbn [fst snd].
  - split; [reflexivity|]. split; [reflexivity|exact Hc].
  - destruct (getTokenSupply mint) as [d|e]; cbn [fst snd].
    + split; [now apply insert_subseteq|]. split.
      * intros other Hne. now apply lookup_insert_ne.
      * apply lookup_insert_eq.
    + split; [reflexivity|]. split; [reflexivity|]. split; reflexivity.
Qed.

(** ** The batch orchestrator: what the outcomes carry *)

Section PipelineFurther.

Variable translateError : JsError -> gmap Z string -> JsError.
Variable sign : VersionedTransaction -> list Signer -> VersionedTransaction.
Variable JSON_stringify : list (nat * string) -> string.
Variable completionOrder : nat -> list nat.
Variable sendAndConfirm :
  Connection -> VersionedTransaction -> string -> string -> Z ->
  option TransactionExecutionOptions ->
  Result unit * list VersionedTransaction.

(** A returned list of outcomes, taken apart. *)
Lemma execute_Ok_inv (payload : MultiTransactionPayload)
    (options : option TransactionExecutionOptions)
    (outs : list ExecuteReturnItem) :
  let enabled := nullish (opt options enablePriorityFee) true in
  let prepared :=
    if enabled
    then prepare translateError sign JSON_stringify completionOrder payload options
    else (Ok tt, transactionsData payload) in
  outcome (execute translateError sign JSON_stringify completionOrder
             sendAndConfirm payload options) = Ok outs ->
  exists signAll latest signedTransactions,
    _signAllTransactions payload = Some signAll
    /\ prepared.1 = Ok tt
    /\ getLatestBlockhash (_connection payload)
         (if enabled then 1%nat else 0%nat) = Ok latest
    /\ signAll (buildVersionTransactions sign payload prepared.2 (blockhash latest))
       = Ok signedTransactions
    /\ List.length signedTransactions = List.length prepared.2
    /\ outs
       = imap
           (fun i result =>
              {| settled := result;
                 transactionData := prepared.2 !!! i;
                 transaction :=
                   buildVersionTransactions sign payload prepared.2
                     (blockhash latest) !!! i |})
           (List.map fst
              (List.map (settleOne translateError sendAndConfirm payload latest
                           options)
                        signedTransactions)).
Proof.
  intros enabled prepared. unfold execute.
  destruct (_signAllTransactions payload) as [signAll|]; [|discriminate].
  fold enabled. fold prepared.
  destruct prepared.1 as [[]|e] eqn:Hp; [|discriminate].
  destruct (getLatestBlockhash _ _) as [latest|e] eqn:Hl; [|discriminate].
  destruct (signAll _) as [signedTransactions|e] eqn:Hs; [|discriminate].
  cbn [outcome].
  destruct (List.length _ =? List.length prepared.2)%nat eqn:E1; [|discriminate].
  destruct (List.length _ =? List.length (buildVersionTransactions _ _ _ _))%nat;
    [|discriminate].
  cbn [negb]. intros [= <-].
  apply Nat.eqb_eq in E1. rewrite !List.length_map in E1.
  exists signAll, latest, signedTransactions. repeat split; assumption.
Qed.

Lemma parse_has_no_funds_pattern (err : JsError) (idlErrors : gmap Z string) :
  let e := parseSolanaSendTransactionError translateError err idlErrors in
  includes (message_of e)
    "Attempt to debit an account but found no record of a prior credit." = false
  /\ includes (message_of e) "custom program error: 0x1" = false
  /\ includes (message_of e) "insufficient funds" = false.
Proof.
  unfold parseSolanaSendTransactionError.
  destruct (includes (message_of (translateError err idlErrors))
              "Attempt to debit an account but found no record of a prior credit.")
    eqn:H1; cbn [orb]; [repeat split; reflexivity|].
  destruct (includes (message_of (translateError err idlErrors))
              "custom program error: 0x1") eqn:H2;
    cbn [orb]; [repeat split; reflexivity|].
  destruct (includes (message_of (translateError err idlErrors))
              "insufficient funds") eqn:H3;
    [repeat split; reflexivity|].
  auto.
Qed.

Lemma settleOne_rejected (payload : MultiTransactionPayload)
    (latest : BlockhashWithExpiryBlockHeight)
    (options : option TransactionExecutionOptions)
    (tx : VersionedTransaction) (e : JsError) :
  (settleOne translateError sendAndConfirm payload latest options tx).1
  = rejected e ->
  exists err, e = parseSolanaSendTransactionError translateError err
                    (_errors payload).
Proof.
  unfold settleOne. destruct (signatures tx) as [|signature rest]; cbn [fst].
  - intros [= <-]. eauto.
  - destruct (sendAndConfirm _ _ _ _ _ _).1 as [ok|err]; cbn [fst];
      [discriminate|].
    intros [= <-]. eauto.
Qed.

(** X14.  No rejected outcome of a batch carries a message that mentions
    "insufficient funds", "custom program error: 0x1" or the missing prior
    credit: [execute] replaces every such error (after translation) by the
    one error that says that an account lacks SOL. *)
Theorem execute_rejections_are_normalized
    (payload : MultiTransactionPayload)
    (options : option TransactionExecutionOptions)
    (outs : list ExecuteReturnItem) (o : ExecuteReturnItem) (e : JsError) :
  outcome (execute translateError sign JSON_stringify completionOrder
             sendAndConfirm payload options) = Ok outs ->
  In o outs -> settled o = rejected e ->
  includes (message_of e)
    "Attempt to debit an account but found no record of a prior credit." = false
  /\ includes (message_of e) "custom program error: 0x1" = false
  /\ includes (message_of e) "insufficient funds" = false.
Proof.
  intros Hout Hin Hrej.
  destruct (execute_Ok_inv payload options outs Hout)
    as (signAll & latest & signed & _ & _ & _ & _ & _ & ->).
  apply list_elem_of_In, list_elem_of_lookup in Hin as [i Hi].
  rewrite list_lookup_imap in Hi.
  change (List.map fst ?l) with (fst <$> l) in Hi.
  change (List.map ?f signed) with (f <$> signed) in Hi.
  rewrite !list_lookup_fmap in Hi.
  destruct (signed !! i) as [tx|]; [|discriminate].
  simpl in Hi. injection Hi as <-. cbn [settled] in Hrej.
  destruct (settleOne_rejected payload latest options tx e Hrej) as [err ->].
  apply parse_has_no_funds_pattern.
Qed.

Lemma firstThrow_Ok (rs : list (Result unit)) (i : nat) (r : Result unit) :
  firstThrow rs = Ok tt -> rs !! i = Some r -> r = Ok tt.
Proof.
  revert i. induction rs as [|[[]|e] rest IH]; intros i; simpl.
  - intros _ H. discriminate.
  - destruct i as [|i]; simpl; [now intros _ [= <-]|]. apply IH.
  - discriminate.
Qed.

Lemma addPriorityFeeInstructions_Ok_has_both
    (payload : MultiTransactionPayload)
    (instructions : list TransactionInstruction) (computeUnit : positive)
    (options : option TransactionExecutionOptions) :
  let r := addPriorityFeeInstructions payload instructions computeUnit options in
  r.2 = Ok tt ->
  (1 <= countType ComputeBudgetInstruction.SetComputeUnitLimit r.1)%nat
  /\ (1 <= countType ComputeBudgetInstruction.SetComputeUnitPrice r.1)%nat.
Proof.
  intros r.
  destruct (addPriorityFeeInstructions_cases payload instructions computeUnit
              options) as [[e H]|(hasLimit & hasPrice & HL & HP & H)];
    fold r in H.
  - rewrite H. discriminate.
  - assert (CL := Array_some_count _ _ _ HL).
    assert (CP := Array_some_count _ _ _ HP).
    cbv zeta in H.
    destruct hasLimit, hasPrice;
      try (destruct H as (fee & _ & H);
           destruct (ComputeBudgetProgram.setComputeUnitPrice fee)
             as [instruction|e] eqn:Hp);
      rewrite H; cbn [fst snd]; try discriminate; intros _;
      rewrite ?countType_cons, ?(hasType_price _ _ _ Hp), ?hasType_limit;
      simpl; lia.
Qed.

Lemma prepare_Ok_has_both (payload : MultiTransactionPayload)
    (options : option TransactionExecutionOptions) (i : nat)
    (d : TransactionData) :
  let prepared :=
    prepare translateError sign JSON_stringify completionOrder payload options in
  prepared.1 = Ok tt -> prepared.2 !! i = Some d ->
  (1 <= countType ComputeBudgetInstruction.SetComputeUnitLimit (instructions d))%nat
  /\ (1 <= countType ComputeBudgetInstruction.SetComputeUnitPrice
            (instructions d))%nat.
Proof.
  unfold prepare.
  destruct (simulate _ _ _ _ _ _) as [simulationResults|e]; cbn [fst snd];
    [|discriminate].
  intros Hall Hd.
  apply lookup_zip_with_Some in Hd as (request & ins & -> & Hr & Hins).
  change (List.map fst ?l) with (fst <$> l) in Hins.
  change (List.map snd ?l) with (snd <$> l) in Hall.
  rewrite list_lookup_fmap, list_lookup_imap, Hr in Hins. simpl in Hins.
  injection Hins as <-.
  apply addPriorityFeeInstructions_Ok_has_both.
  apply (firstThrow_Ok _ i _ Hall).
  rewrite list_lookup_fmap, list_lookup_imap, Hr. reflexivity.
Qed.

(** X15.  When a batch is executed with the priority fee enabled (the
    default) and outcomes are returned, every request carried by an
    outcome holds at least one compute-unit-limit and at least one
    compute-unit-price instruction. *)
Theorem execute_sets_the_compute_budget
    (payload : MultiTransactionPayload)
    (options : option TransactionExecutionOptions)
    (outs : list ExecuteReturnItem) (o : ExecuteReturnItem) :
  nullish (opt options enablePriorityFee) true = true ->
  outcome (execute translateError sign JSON_stringify completionOrder
             sendAndConfirm payload options) = Ok outs ->
  In o outs ->
  (1 <= countType ComputeBudgetInstruction.SetComputeUnitLimit
          (instructions (transactionData o)))%nat
  /\ (1 <= countType ComputeBudgetInstruction.SetComputeUnitPrice
            (instructions (transactionData o)))%nat.
Proof.
  intros Hen Hout Hin.
  destruct (execute_Ok_inv payload options outs Hout)
    as (signAll & latest & signed & _ & Hprep & _ & _ & Hlen & ->).
  rewrite Hen in Hprep, Hlen.
  apply list_elem_of_In, list_elem_of_lookup in Hin as [i Hi].
  rewrite list_lookup_imap in Hi.
  destruct (_ !! i) as [result|] eqn:Hr; [|discriminate].
  simpl in Hi. injection Hi as <-. cbn [transactionData].
  apply lookup_lt_Some in Hr. rewrite !List.length_map in Hr.
  rewrite Hen.
  assert (Hd : (prepare translateError sign JSON_stringify completionOrder
                  payload options).2 !! i
               = Some ((prepare translateError sign JSON_stringify
                          completionOrder payload options).2 !!! i))
    by (apply list_lookup_lookup_total_lt; lia).
  exact (prepare_Ok_has_both payload options i _ Hprep Hd).
Qed.

(** X16.  In the returned list the outcome at index i is decided by the
    i-th transaction the wallet handed back: it is fulfilled exactly when
    that transaction has a first signature and its send/confirm pair
    settled without error, and the fulfilled value is that signature. *)
Theorem execute_outcome_follows_wallet_output
    (payload : MultiTransactionPayload)
    (options : option TransactionExecutionOptions)
    (outs : list ExecuteReturnItem) :
  let run :=
    execute translateError sign JSON_stringify completionOrder sendAndConfirm
      payload options in
  outcome run = Ok outs ->
  exists signAll latest signedTransactions,
    _signAllTransactions payload = Some signAll
    /\ getLatestBlockhash (_connection payload)
         (if nullish (opt options enablePriorityFee) true then 1%nat else 0%nat)
       = Ok latest
    /\ signAll (buildVersionTransactions sign payload (finalTransactionsData run)
                  (blockhash latest)) = Ok signedTransactions
    /\ List.length signedTransactions = List.length outs
    /\ forall i o tx signature,
         outs !! i = Some o -> signedTransactions !! i = Some tx ->
         (settled o = fulfilled signature
          <-> (exists rest, signatures tx = signature :: rest)
              /\ exists ok,
                   (sendAndConfirm (_connection payload) tx signature
                      (blockhash latest) (lastValidBlockHeight latest)
                      options).1 = Ok ok).
Proof.
  intros run Hout.
  assert (Hfinal : finalTransactionsData run
                   = (if nullish (opt options enablePriorityFee) true
                      then prepare translateError sign JSON_stringify
                             completionOrder payload options
                      else (Ok tt, transactionsData payload)).2).
  { subst run. unfold execute in *.
    destruct (_signAllTransactions payload); [|discriminate].
    destruct (_ : Result unit * list TransactionData).1; [|discriminate].
    destruct (getLatestBlockhash _ _); [|discriminate].
    destruct (s _); [|discriminate]. reflexivity. }
  destruct (execute_Ok_inv payload options outs Hout)
    as (signAll & latest & signed & Hs & _ & Hl & Hsigned & Hlen & ->).
  exists signAll, latest, signed. rewrite Hfinal.
  split; [exact Hs|]. split; [exact Hl|]. split; [exact Hsigned|].
  split; [now rewrite length_imap, !List.length_map|].
  intros i o tx signature Ho Htx.
  rewrite list_lookup_imap in Ho.
  change (List.map fst ?l) with (fst <$> l) in Ho.
  change (List.map ?f signed) with (f <$> signed) in Ho.
  rewrite !list_lookup_fmap, Htx in Ho. simpl in Ho. injection Ho as <-.
  cbn [settled]. unfold settleOne.
  destruct (signatures tx) as [|sig0 rest]; cbn [fst].
  - split; [discriminate|]. intros [[rest' H] _]. discriminate.
  - destruct (sendAndConfirm _ tx sig0 _ _ _).1 as [ok|err] eqn:Hsc; cbn [fst].
    + split.
      * intros [= <-]. split; eauto.
      * intros [[rest' [= <- <-]] _]. reflexivity.
    + split; [discriminate|].
      intros [[rest' [= <- <-]] [ok Hok]]. congruence.
Qed.

Lemma collectSimulationResults_lookup (connection : Connection)
    (l : list VersionedTransaction) (k j : nat) :
  (list_to_map
     (omap id
        (imap
           (fun i signedTransaction =>
              match simulateTransaction connection signedTransaction with
              | Ok result => Some ((k + i)%nat, result)
              | Throw _ => None
              end) l)) : gmap nat SimulatedTransactionResponse) !! j
  = if decide (k <= j)%nat
    then match l !! (j - k)%nat with
         | Some tx =>
             match simulateTransaction connection tx with
             | Ok result => Some result
             | Throw _ => None
             end
         | None => None
         end
    else None.
Proof.
  revert k j. induction l as [|tx l IH]; intros k j.
  - simpl. rewrite lookup_empty. now destruct (decide _).
  - cbn [imap].
    rewrite (imap_ext _
               (fun i signedTransaction =>
                  match simulateTransaction connection signedTransaction with
                  | Ok result => Some ((S k + i)%nat, result)
                  | Throw _ => None
                  end) l).
    2:{ intros i x _. unfold compose.
        destruct (simulateTransaction connection x); [|reflexivity].
        do 2 f_equal. lia. }
    assert (Hrest := IH (S k) j). clear IH.
    set (rest := imap _ l) in *.
    destruct (simulateTransaction connection tx) as [r|e] eqn:Hs.
    + rewrite Nat.add_0_r.
      change (omap id (Some (k, r) :: rest)) with ((k, r) :: omap id rest).
      change (list_to_map ((k, r) :: omap id rest)
              : gmap nat SimulatedTransactionResponse)
        with (<[k := r]> (list_to_map (omap id rest)
                          : gmap nat SimulatedTransactionResponse)).
      destruct (decide (k = j)) as [->|Hne].
      * rewrite lookup_insert, decide_True by reflexivity.
        rewrite decide_True by lia. rewrite Nat.sub_diag. simpl.
        now rewrite Hs.
      * rewrite lookup_insert_ne by assumption. rewrite Hrest.
        destruct (decide (S k <= j)%nat), (decide (k <= j)%nat); try lia;
          try reflexivity.
        replace (j - k)%nat with (S (j - S k)) by lia. reflexivity.
    + change (omap id (None :: rest)) with (omap id rest). rewrite Hrest.
      destruct (decide (S k <= j)%nat), (decide (k <= j)%nat); try lia;
        try reflexivity.
      * replace (j - k)%nat with (S (j - S k)) by lia. reflexivity.
      * assert (j = k) as -> by lia. rewrite Nat.sub_diag. simpl.
        now rewrite Hs.
Qed.

Lemma simulate_Ok_inv (payload : MultiTransactionPayload)
    (options : option TransactionExecutionOptions)
    (simulationResults : gmap nat SimulatedTransactionResponse) :
  simulate translateError sign JSON_stringify completionOrder payload options
  = Ok simulationResults ->
  exists latest signedTransactions,
    getLatestBlockhash (_connection payload) 0 = Ok latest
    /\ (if nullish (opt options sigVerify) false
        then exists signAll,
               _signAllTransactions payload = Some signAll
               /\ signAll (buildVersionTransactions sign payload
                             (transactionsData payload) (blockhash latest))
                  = Ok signedTransactions
        else signedTransactions
             = List.map (compileTransaction (blockhash latest))
                        (transactionsData payload))
    /\ collectSimulationErrors translateError completionOrder payload
         signedTransactions = []
    /\ simulationResults
       = list_to_map (omap id (collectSimulationResults payload signedTransactions)).
Proof.
  unfold simulate.
  destruct (nullish (opt options sigVerify) false);
    (destruct (getLatestBlockhash _ _) as [latest|e]; [|discriminate]); simpl.
  - destruct (_signAllTransactions payload) as [signAll|]; [|discriminate].
    destruct (signAll _) as [signed|e] eqn:Hs; [|discriminate]. simpl.
    destruct (collectSimulationErrors _ _ _ _) eqn:He; simpl; [|discriminate].
    intros [= <-]. exists latest, signed.
    split; [reflexivity|]. split; [eauto|]. split; [assumption|reflexivity].
  - destruct (collectSimulationErrors _ _ _ _) eqn:He; simpl; [|discriminate].
    intros [= <-]. eexists latest, _.
    split; [reflexivity|]. split; [reflexivity|]. split; [exact He|reflexivity].
Qed.

(** X17.  When the simulations are scheduled in some order of their
    indices and [simulate] resolves, the map it resolves to has an entry
    at every index of the simulated transactions and at no other key, and
    the entry at index i is the node's answer for the i-th transaction. *)
Theorem simulate_resolves_with_every_result
    (payload : MultiTransactionPayload)
    (options : option TransactionExecutionOptions)
    (simulationResults : gmap nat SimulatedTransactionResponse) :
  (forall n, Permutation (completionOrder n) (List.seq 0 n)) ->
  simulate translateError sign JSON_stringify completionOrder payload options
  = Ok simulationResults ->
  exists latest signedTransactions,
    getLatestBlockhash (_connection payload) 0 = Ok latest
    /\ (if nullish (opt options sigVerify) false
        then exists signAll,
               _signAllTransactions payload = Some signAll
               /\ signAll (buildVersionTransactions sign payload
                             (transactionsData payload) (blockhash latest))
                  = Ok signedTransactions
        else signedTransactions
             = List.map (compileTransaction (blockhash latest))
                        (transactionsData payload))
    /\ (forall i tx, signedTransactions !! i = Some tx ->
          exists result,
            simulateTransaction (_connection payload) tx = Ok result
            /\ simulationResults !! i = Some result)
    /\ (forall i, (List.length signedTransactions <= i)%nat ->
          simulationResults !! i = None).
Proof.
  intros Hperm Hsim.
  destruct (simulate_Ok_inv payload options simulationResults Hsim)
    as (latest & signed & Hl & Hsigned & Herr & ->).
  exists latest, signed. split; [exact Hl|]. split; [exact Hsigned|].
  unfold collectSimulationResults.
  assert (Hlook := collectSimulationResults_lookup (_connection payload) signed 0).
  cbn [Nat.add] in Hlook.
  split.
  - intros i tx Htx.
    destruct (simulateTransaction (_connection payload) tx) as [r|e] eqn:Hs.
    + exists r. split; [reflexivity|].
      rewrite Hlook, decide_True by lia. now rewrite Nat.sub_0_r, Htx, Hs.
    + exfalso.
      assert (Hin : In (i, translateError e (_errors payload))
                       (collectSimulationErrors translateError completionOrder
                          payload signed)).
      { apply collectSimulationErrors_spec; [apply Hperm|].
        unfold simulationFails. eauto. }
      rewrite Herr in Hin. destruct Hin.
  - intros i Hi. rewrite Hlook, decide_True by lia. rewrite Nat.sub_0_r.
    now rewrite (lookup_ge_None_2 signed i Hi).
Qed.

End PipelineFurther.

(** X18.  For a simulation that consumed a positive number of units the
    requested limit is the integer part of eleven tenths of the
    consumption plus the 400 units of the budget instructions; it leaves
    at least 440 units of headroom and is not capped at the maximum. *)
Theorem computeUnitFor_headroom (response : SimulatedTransactionResponse)
    (units : N) :
  unitsConsumed response = Some units ->
  (0 < units)%N ->
  Z.pos (computeUnitFor (Some response))
  = (11 * (Z.of_N units + COMPUTE_BUDGET_PROGRAM_COMPUTE_UNIT)) / 10
  /\ Z.of_N units + 440 <= Z.pos (computeUnitFor (Some response)).
Proof.
  intros Hu Hpos. unfold computeUnitFor. rewrite Hu.
  unfold truthyZ. destruct (Z.of_N units =? 0) eqn:E; [lia|]. cbn [negb].
  unfold COMPUTE_BUDGET_PROGRAM_COMPUTE_UNIT.
  assert (Hfloor : Qfloor (inject_Z (Z.of_N units + 400) * (11 # 10))
                   = (11 * (Z.of_N units + 400)) / 10).
  { unfold Qfloor, Qmult, inject_Z. simpl Qnum. simpl Qden.
    f_equal. lia. }
  rewrite Hfloor.
  assert (Z.of_N units + 440 <= 11 * (Z.of_N units + 400) / 10).
  { apply Z.div_le_lower_bound; lia. }
  rewrite Z2Pos.id by lia. split; [reflexivity|assumption].
Qed.


(** ** Balances *)

Lemma Array_map_throwing_length {A B : Type} (f : A -> Result B)
    (l : list A) (ys : list B) :
  Array_map_throwing f l = Ok ys -> List.length ys = List.length l.
Proof.
  revert ys. induction l as [|x xs IH]; intros ys; simpl.
  - now intros [= <-].
  - destruct (f x); [|discriminate].
    destruct (Array_map_throwing f xs); [|discriminate].
    intros [= <-]. simpl. f_equal. now apply IH.
Qed.

Lemma fillBalances_cons (tokenMints : list Address)
    (accountInfo : option AccountData) (rest : list (option AccountData))
    (i : nat) (balances balances' : gmap string BigNumber.t) :
  fillBalances tokenMints (accountInfo :: rest) i balances = Ok balances' ->
  exists mint shown,
    tokenMints !! i = Some mint
    /\ ((accountInfo = None /\ shown = BigNumber.ofZ 0)
        \/ exists amount decimals,
             accountInfo = Some (ParsedData amount decimals)
             /\ shown = formatToken (BigNumber.ofZ amount) decimals)
    /\ fillBalances tokenMints rest (S i)
         (<[Address_toString mint := shown]> balances) = Ok balances'.
Proof.
  cbn [fillBalances].
  destruct accountInfo as [[bytes|amount decimals]|]; [discriminate| |];
    (destruct (tokenMints !! i) as [mint|]; [|discriminate]); intros H;
    eexists mint, _; (split; [reflexivity|]); (split; [|exact H]).
  - right. eauto.
  - left. split; reflexivity.
Qed.

Lemma fillBalances_spec (tokenMints : list Address)
    (accountsInfo : list (option AccountData)) :
  forall (i : nat) (balances balances' : gmap string BigNumber.t),
    fillBalances tokenMints accountsInfo i balances = Ok balances' ->
    (forall j, (j < List.length accountsInfo)%nat ->
               is_Some (tokenMints !! (i + j)%nat))
    /\ (forall key,
          (forall j mint, (j < List.length accountsInfo)%nat ->
             tokenMints !! (i + j)%nat = Some mint ->
             Address_toString mint <> key) ->
          balances' !! key = balances !! key)
    /\ (forall j mint,
          (j < List.length accountsInfo)%nat ->
          tokenMints !! (i + j)%nat = Some mint ->
          (forall j' later, (j < j')%nat -> (j' < List.length accountsInfo)%nat ->
             tokenMints !! (i + j')%nat = Some later ->
             Address_toString later <> Address_toString mint) ->
          (accountsInfo !! j = Some None
           /\ balances' !! Address_toString mint = Some (BigNumber.ofZ 0))
          \/ exists amount decimals,
               accountsInfo !! j = Some (Some (ParsedData amount decimals))
               /\ balances' !! Address_toString mint
                  = Some (formatToken (BigNumber.ofZ amount) decimals)).
Proof.
  induction accountsInfo as [|accountInfo rest IH]; intros i balances balances' H.
  - injection H as <-. split; [simpl; lia|]. split; [reflexivity|simpl; lia].
  - apply fillBalances_cons in H as (mint0 & shown & Hm & Hshown & H).
    destruct (IH _ _ _ H) as (Hlen & Hkeep & Hlast). clear IH.
    split; [|split].
    + intros [|j] Hj; [rewrite Nat.add_0_r, Hm; eauto|].
      replace (i + S j)%nat with (S i + j)%nat by lia.
      apply Hlen. simpl in Hj. lia.
    + intros key Hkey. rewrite Hkeep.
      * apply lookup_insert_ne. apply (Hkey 0%nat); [simpl; lia|].
        now rewrite Nat.add_0_r.
      * intros j mint Hj Hmint. apply (Hkey (S j)); [simpl; lia|].
        now replace (i + S j)%nat with (S i + j)%nat by lia.
    + intros [|j] mint Hj Hmint Hlater.
      * rewrite Nat.add_0_r, Hm in Hmint. injection Hmint as <-.
        assert (E : balances' !! Address_toString mint0 = Some shown).
        { rewrite Hkeep; [now rewrite lookup_insert, decide_True|].
          intros j later Hj' Hl.
          apply (Hlater (S j)); [lia|simpl; lia|].
          now replace (i + S j)%nat with (S i + j)%nat by lia. }
        destruct Hshown as [[-> ->]|(amount & decimals & -> & ->)];
          [left|right; exists amount, decimals]; split; (reflexivity || exact E).
      * simpl in Hj.
        replace (i + S j)%nat with (S i + j)%nat in Hmint by lia.
        apply (Hlast j mint); [lia|exact Hmint|].
        intros j' later Hlt Hj' Hl.
        apply (Hlater (S j')); [lia|simpl; lia|].
        now replace (i + S j')%nat with (S i + j')%nat by lia.
Qed.

Lemma fillBalances_keys (tokenMints : list Address)
    (accountsInfo : list (option AccountData)) :
  forall (i : nat) (balances balances' : gmap string BigNumber.t),
    fillBalances tokenMints accountsInfo i balances = Ok balances' ->
    forall key,
      is_Some (balances' !! key)
      <-> is_Some (balances !! key)
          \/ exists j mint, (j < List.length accountsInfo)%nat
               /\ tokenMints !! (i + j)%nat = Some mint
               /\ Address_toString mint = key.
Proof.
  induction accountsInfo as [|accountInfo rest IH]; intros i balances balances' H key.
  - injection H as <-. split; [now left|].
    intros [Hs|(j & mint & Hj & _)]; [exact Hs|simpl in Hj; lia].
  - apply fillBalances_cons in H as (mint0 & shown & Hm & _ & H).
    rewrite (IH _ _ _ H key). clear IH. split.
    + intros [Hs|(j & mint & Hj & Hmint & Hkey)].
      * destruct (decide (Address_toString mint0 = key)) as [E|E].
        -- right. exists 0%nat, mint0. rewrite Nat.add_0_r. simpl.
           split; [lia|]. split; assumption.
        -- left. now rewrite lookup_insert_ne in Hs.
      * right. exists (S j), mint. simpl. split; [lia|].
        replace (i + S j)%nat with (S i + j)%nat by lia. split; assumption.
    + intros [Hs|([|j] & mint & Hj & Hmint & Hkey)].
      * left. destruct (decide (Address_toString mint0 = key)) as [E|E].
        -- rewrite E, lookup_insert, decide_True by reflexivity. eauto.
        -- now rewrite lookup_insert_ne.
      * left. rewrite Nat.add_0_r, Hm in Hmint. injection Hmint as <-.
        rewrite Hkey, lookup_insert, decide_True by reflexivity. eauto.
      * right. exists j, mint. simpl in Hj. split; [lia|].
        replace (S i + j)%nat with (i + S j)%nat by lia. split; assumption.
Qed.

Section TokenAccountsProperties.

Variable PublicKey_new : string -> Result PublicKey.
Variable isOnCurve : PublicKey -> bool.
Variable findProgramAddressSync : list PublicKey -> PublicKey -> Result PublicKey.
Variable getBalance : PublicKey -> Result Z.
Variable getMultipleParsedAccounts :
  list PublicKey -> Result (list (option AccountData)).

(** X19.  When the node answers with one entry per address asked and
    [getTokenBalances] resolves, the record has exactly the texts of the
    given mints as keys; a mint (at its last position in the list, when its
    text occurs more than once) shows 0 when its token account does not
    exist and otherwise the account's amount divided by ten to its
    decimals. *)
Theorem getTokenBalances_lists_every_mint
    (address : Address) (tokenMints : list Address) (allowOwnerOffCurve : bool)
    (balances : gmap string BigNumber.t) :
  (forall keys accountsInfo,
     getMultipleParsedAccounts keys = Ok accountsInfo ->
     List.length accountsInfo = List.length keys) ->
  getTokenBalances PublicKey_new isOnCurve findProgramAddressSync
    getMultipleParsedAccounts address tokenMints allowOwnerOffCurve
  = Ok balances ->
  (forall key,
     is_Some (balances !! key)
     <-> exists mint, In mint tokenMints /\ Address_toString mint = key)
  /\ exists keys accountsInfo,
       getMultipleParsedAccounts keys = Ok accountsInfo
       /\ List.length keys = List.length tokenMints
       /\ forall i mint,
            tokenMints !! i = Some mint ->
            (forall j later, (i < j)%nat -> tokenMints !! j = Some later ->
               Address_toString later <> Address_toString mint) ->
            (accountsInfo !! i = Some None
             /\ balances !! Address_toString mint = Some (BigNumber.ofZ 0))
            \/ exists amount decimals,
                 accountsInfo !! i = Some (Some (ParsedData amount decimals))
                 /\ balances !! Address_toString mint
                    = Some (formatToken (BigNumber.ofZ amount) decimals).
Proof.
  intros Hrpc. unfold getTokenBalances.
  destruct (Array_map_throwing _ tokenMints) as [keys|e] eqn:Hkeys; [|discriminate].
  apply Array_map_throwing_length in Hkeys.
  destruct (getMultipleParsedAccounts keys) as [accountsInfo|e] eqn:Hacc;
    [|discriminate].
  assert (Hlen := Hrpc _ _ Hacc). rewrite Hkeys in Hlen.
  intros Hfill. split.
  - intros key. rewrite (fillBalances_keys _ _ _ _ _ Hfill key). split.
    + intros [Hs|(j & mint & _ & Hmint & Hkey)].
      * rewrite lookup_empty in Hs. now destruct Hs.
      * exists mint. split; [|exact Hkey].
        apply list_elem_of_In. now apply list_elem_of_lookup_2 in Hmint.
    + intros (mint & Hin & Hkey). right.
      apply list_elem_of_In, list_elem_of_lookup in Hin as [j Hj].
      exists j, mint. split; [|split; assumption].
      rewrite Hlen. now apply lookup_lt_Some in Hj.
  - exists keys, accountsInfo. split; [exact Hacc|]. split; [exact Hkeys|].
    intros i mint Hmint Hlater.
    destruct (fillBalances_spec _ _ _ _ _ Hfill) as (_ & _ & Hlast).
    apply (Hlast i mint).
    + rewrite Hlen. now apply lookup_lt_Some in Hmint.
    + exact Hmint.
    + intros j later Hlt _ Hl. now apply (Hlater j).
Qed.

(** X20.  With [allowOwnerOffCurve] off and an owner that is not on the
    curve, [getTokenBalances] never resolves for a non-empty list of
    mints, and how it rejects does not depend on the node: with "Token
    owner is off curve." or, when the first mint is not a key, with the
    error of its translation. *)
Theorem getTokenBalances_off_curve_owner
    (address : Address) (tokenMints : list Address) (owner : PublicKey) :
  translateAddress PublicKey_new address = Ok owner ->
  isOnCurve owner = false ->
  tokenMints <> [] ->
  exists e,
    (forall node : list PublicKey -> Result (list (option AccountData)),
       getTokenBalances PublicKey_new isOnCurve findProgramAddressSync node
         address tokenMints false = Throw e)
    /\ (e = Error "Token owner is off curve."
        \/ exists first,
             head tokenMints = Some first
             /\ translateAddress PublicKey_new first = Throw e).
Proof.
  intros Ho Hcurve Hne.
  destruct tokenMints as [|first rest]; [contradiction|].
  unfold getTokenBalances. cbn [Array_map_throwing].
  destruct (translateAddress PublicKey_new first) as [mintKey|e] eqn:Hm.
  - rewrite Ho. unfold getAssociatedTokenAddressSync. rewrite Hcurve.
    eexists. split; [intros node; reflexivity|]. now left.
  - exists e. split; [intros node; reflexivity|]. right. eauto.
Qed.

(** X21.  The lamports behind a balance that [getSolBalance] shows can be
    read back from it: [parseSol] of the shown balance is the node's
    answer. *)
Theorem getSolBalance_shows_the_balance (address : Address)
    (shown : BigNumber.t) :
  getSolBalance PublicKey_new getBalance address = Ok shown ->
  exists key lamports,
    translateAddress PublicKey_new address = Ok key
    /\ getBalance key = Ok lamports
    /\ parseSol shown = Ok lamports.
Proof.
  unfold getSolBalance.
  destruct (translateAddress PublicKey_new address) as [key|e]; [|discriminate].
  destruct (getBalance key) as [lamports|e] eqn:Hb; [|discriminate].
  intros [= <-]. exists key, lamports.
  split; [reflexivity|]. split; [exact Hb|apply parseSol_formatSol].
Qed.

End TokenAccountsProperties.

(** ** The single-transaction payload *)

Lemma countType_app (type : ComputeBudgetInstruction.InstructionType)
    (l1 l2 : list TransactionInstruction) :
  countType type (l1 ++ l2) = (countType type l1 + countType type l2)%nat.
Proof. unfold countType. now rewrite List.filter_app, List.length_app. Qed.

Lemma roundQ_FLOOR_DOWN (v : Q) :
  (0 <= v)%Q ->
  BigNumber.roundQ BigNumber.ROUND_FLOOR v = BigNumber.roundQ BigNumber.ROUND_DOWN v.
Proof.
  intros H. unfold BigNumber.roundQ.
  now replace (Qle_bool 0 v) with true by (symmetry; now apply Qle_bool_iff).
Qed.

Section TransactionPayloadProperties.

Variable translateError : JsError -> gmap Z string -> JsError.
Variable sign : VersionedTransaction -> list Signer -> VersionedTransaction.
Variable sendAndConfirm :
  Connection -> VersionedTransaction -> string -> string -> Z ->
  option TransactionExecutionOptions ->
  Result unit * list VersionedTransaction.

Lemma getPriorityFeeInstructions_Ok (payload : TransactionPayload.t)
    (computeUnit : positive) (options : option TransactionExecutionOptions)
    (added : list TransactionInstruction) :
  TransactionPayloadMethods.getPriorityFeeInstructions payload computeUnit options
  = Ok added ->
  let own := instructions (TransactionPayload.transactionData payload) in
  (List.length added <= 2)%nat
  /\ countType ComputeBudgetInstruction.SetComputeUnitLimit (added ++ own)
     = Nat.max 1 (countType ComputeBudgetInstruction.SetComputeUnitLimit own)
  /\ countType ComputeBudgetInstruction.SetComputeUnitPrice (added ++ own)
     = Nat.max 1 (countType ComputeBudgetInstruction.SetComputeUnitPrice own).
Proof.
  unfold TransactionPayloadMethods.getPriorityFeeInstructions.
  destruct (Array_some _ _) as [hasLimit|e] eqn:HL; [|discriminate].
  destruct (Array_some
              (isBudgetInstruction ComputeBudgetInstruction.SetComputeUnitPrice)
              _) as [hasPrice|e] eqn:HP; [|discriminate].
  assert (CL := Array_some_count _ _ _ HL).
  assert (CP := Array_some_count _ _ _ HP).
  destruct hasLimit, hasPrice; cbn [negb];
    try destruct (TransactionPayloadMethods.calculatePriorityFee _ _ _)
      as [fee|e];
    try discriminate;
    try (destruct (ComputeBudgetProgram.setComputeUnitPrice fee)
           as [instruction|e] eqn:Hp; [|discriminate]);
    intros [= <-]; cbv zeta;
    rewrite !countType_app; cbn [app];
    rewrite ?countType_cons, ?(hasType_price _ _ _ Hp), ?hasType_limit;
    simpl; lia.
Qed.

(** X22.  When [execute] of a single-transaction payload resolves with the
    priority fee enabled, the transaction handed to the wallet is the
    request with at most two instructions put in front of its own; it holds
    one compute-unit-limit and one compute-unit-price instruction when the
    request held none, and as many as the request held otherwise.  The value
    resolved is the first signature of what the wallet returned, and the
    send/confirm pair for it settled without error. *)
Theorem TransactionPayload_execute_sends_the_compute_budget
    (payload : TransactionPayload.t)
    (options : option TransactionExecutionOptions) (signature : string) :
  let data := TransactionPayload.transactionData payload in
  nullish (opt options enablePriorityFee) true = true ->
  (TransactionPayloadMethods.execute translateError sign sendAndConfirm
     payload options).1 = Ok signature ->
  exists signTransaction latest added signedTransaction rest ok,
    TransactionPayload._signTransaction payload = Some signTransaction
    /\ getLatestBlockhash (TransactionPayload._connection payload) 1 = Ok latest
    /\ (List.length added <= 2)%nat
    /\ countType ComputeBudgetInstruction.SetComputeUnitLimit
         (added ++ instructions data)
       = Nat.max 1 (countType ComputeBudgetInstruction.SetComputeUnitLimit
                      (instructions data))
    /\ countType ComputeBudgetInstruction.SetComputeUnitPrice
         (added ++ instructions data)
       = Nat.max 1 (countType ComputeBudgetInstruction.SetComputeUnitPrice
                      (instructions data))
    /\ signTransaction
         (signWith sign (signers data)
            (compileTransaction (blockhash latest)
               (setInstructions data (added ++ instructions data))))
       = Ok signedTransaction
    /\ signatures signedTransaction = signature :: rest
    /\ (sendAndConfirm (TransactionPayload._connection payload)
          signedTransaction signature (blockhash latest)
          (lastValidBlockHeight latest) options).1 = Ok ok.
Proof.
  intros data Henable. unfold TransactionPayloadMethods.execute.
  destruct (TransactionPayload._signTransaction payload) as [signTransaction|];
    [|discriminate].
  rewrite Henable. cbv zeta.
  destruct (TransactionPayloadMethods.simulate _ _ _ _) as [simulationResult|e];
    [|discriminate].
  destruct (TransactionPayloadMethods.getPriorityFeeInstructions _ _ _)
    as [added|e] eqn:Hadd; [|discriminate].
  apply getPriorityFeeInstructions_Ok in Hadd as (Hlen & HL & HP).
  destruct (getLatestBlockhash _ 1%nat) as [latest|e]; [|discriminate].
  fold data.
  destruct (signTransaction _) as [signedTransaction|e] eqn:Hsigned;
    [|discriminate].
  destruct (signatures signedTransaction) as [|first rest] eqn:Hsig;
    [discriminate|].
  destruct (sendAndConfirm _ _ _ _ _ _).1 as [ok|e] eqn:Hsent; [|discriminate].
  cbn [fst]. intros [= <-].
  exists signTransaction, latest, added, signedTransaction, rest, ok.
  repeat (split; [first [reflexivity | assumption]|]). exact Hsent.
Qed.

(** X23.  A rejection of [execute] of a single-transaction payload is
    either the refusal to run without a signing function, or an error
    whose message mentions neither "insufficient funds", nor "custom
    program error: 0x1", nor the missing prior credit: everything thrown
    after the first check, the simulation's errors included, goes through
    [parseSolanaSendTransactionError]. *)
Theorem TransactionPayload_rejects_only_normalized_errors
    (payload : TransactionPayload.t)
    (options : option TransactionExecutionOptions) (e : JsError) :
  (TransactionPayloadMethods.execute translateError sign sendAndConfirm
     payload options).1 = Throw e ->
  (TransactionPayload._signTransaction payload = None
   /\ e = Error TransactionPayloadMethods.SIGN_FUNCTION_REQUIRED)
  \/ (TransactionPayload._signTransaction payload <> None
      /\ includes (message_of e)
           "Attempt to debit an account but found no record of a prior credit."
         = false
      /\ includes (message_of e) "custom program error: 0x1" = false
      /\ includes (message_of e) "insufficient funds" = false).
Proof.
  unfold TransactionPayloadMethods.execute.
  destruct (TransactionPayload._signTransaction payload) as [signTransaction|].
  - cbv zeta.
    match goal with
    | |- (match ?a.1 with _ => _ end).1 = _ -> _ =>
        destruct a.1 as [signature|err]
    end; cbn [fst]; [discriminate|].
    intros [= <-]. right. split; [discriminate|].
    apply parse_has_no_funds_pattern.
  - cbn [fst]. intros [= <-]. left. split; reflexivity.
Qed.

(** X24.  The single-transaction class and the batch class compute the
    same price per compute unit for the same node, instructions, compute
    budget and options whenever an exact fee is given or the budget
    [maxPriorityFeeSol] covers the base fee: rounding down and rounding
    towards zero differ on negative numbers only. *)
Theorem calculatePriorityFee_agrees_with_batch
    (single : TransactionPayload.t) (batch : MultiTransactionPayload)
    (computeUnit : positive) (options : option TransactionExecutionOptions) :
  let maxSol :=
    nullish (opt options maxPriorityFeeSol) DEFAULT_MAX_PRIORITY_FEE in
  TransactionPayload._connection single = _connection batch ->
  (noExactFee options ->
   (inject_Z BASE_FEE_LAMPORTS <= maxSol * inject_Z LAMPORTS_PER_SOL)%Q) ->
  TransactionPayloadMethods.calculatePriorityFee single computeUnit options
  = calculatePriorityFee batch
      (instructions (TransactionPayload.transactionData single))
      computeUnit options.
Proof.
  intros maxSol Hconn Hbudget.
  unfold TransactionPayloadMethods.calculatePriorityFee, calculatePriorityFee.
  rewrite Hconn.
  assert (Hest :
    BigNumber.toBigInt BigNumber.ROUND_FLOOR
      (getRecentPriorityFee (_connection batch)
         (instructions (TransactionPayload.transactionData single))
         (nullish (opt options priorityLevel) medium)
         (maxPriorityFeePerCU maxSol computeUnit))
    = BigNumber.toBigInt BigNumber.ROUND_DOWN
        (getRecentPriorityFee (_connection batch)
           (instructions (TransactionPayload.transactionData single))
           (nullish (opt options priorityLevel) medium)
           (maxPriorityFeePerCU maxSol computeUnit)) \/ ~ noExactFee options).
  { destruct (opt options exactPriorityFeeSol) as [x|] eqn:Hx.
    - destruct (Qeq_bool x 0) eqn:E.
      + left.
        assert (Hno : noExactFee options).
        { unfold noExactFee. rewrite Hx. now apply Qeq_bool_iff. }
        specialize (Hbudget Hno).
        destruct (maxPriorityFeePerCU_sign maxSol computeUnit)
          as (cap & -> & Hpos & _).
        destruct (getRecentPriorityFee_shape (_connection batch)
                    (instructions (TransactionPayload.transactionData single))
                    (nullish (opt options priorityLevel) medium) cap)
          as (v & k & -> & Hv & Hk).
        unfold BigNumber.toBigInt. f_equal. apply roundQ_FLOOR_DOWN.
        rewrite Hv. apply Q.min_glb; [unfold Qle; simpl; lia|auto].
      + right. unfold noExactFee. rewrite Hx. intros H.
        apply Qeq_bool_iff in H. congruence.
    - left.
      assert (Hno : noExactFee options) by (unfold noExactFee; now rewrite Hx).
      specialize (Hbudget Hno).
      destruct (maxPriorityFeePerCU_sign maxSol computeUnit)
        as (cap & -> & Hpos & _).
      destruct (getRecentPriorityFee_shape (_connection batch)
                  (instructions (TransactionPayload.transactionData single))
                  (nullish (opt options priorityLevel) medium) cap)
        as (v & k & -> & Hv & Hk).
      unfold BigNumber.toBigInt. f_equal. apply roundQ_FLOOR_DOWN.
      rewrite Hv. apply Q.min_glb; [unfold Qle; simpl; lia|auto]. }
  unfold noExactFee in Hest. unfold maxPriorityFeePerCU, maxSol in Hest.
  destruct (opt options exactPriorityFeeSol) as [x|]; unfold truthyQ.
  - destruct (Qeq_bool x 0) eqn:E; cbn [negb]; [|reflexivity].
    destruct Hest as [Hest|Hest]; [exact Hest|].
    exfalso. apply Hest. now apply Qeq_bool_iff.
  - destruct Hest as [Hest|Hest]; [exact Hest|]. exfalso. now apply Hest.
Qed.

End TransactionPayloadProperties.

(** ** The properties at sample inputs *)

(** X2 at two nodes that report the rates 5 and 7 in opposite orders, one
    of them with a zero sample in between. *)
Lemma getRecentPriorityFee_depends_on_kept_rates_witness :
  BigNumber.eqv
    (getRecentPriorityFee
       (Examples.node [Examples.sample 5; Examples.sample 0; Examples.sample 7]
          (fun _ => false))
       [Examples.transfer "Alice" "Bob"] high (BigNumber.BN 1000))
    (getRecentPriorityFee
       (Examples.node [Examples.sample 7; Examples.sample 5] (fun _ => false))
       [Examples.transfer "Alice" "Bob"] high (BigNumber.BN 1000)).
Proof.
  apply (getRecentPriorityFee_depends_on_kept_rates _ _ _ _ _
           [Examples.sample 5; Examples.sample 0; Examples.sample 7]
           [Examples.sample 7; Examples.sample 5]).
  - reflexivity.
  - reflexivity.
  - simpl. apply perm_swap.
Defined.

(** X3 at a node whose samples are all zero, with a cap of 1000. *)
Lemma getRecentPriorityFee_without_positive_sample_witness :
  BigNumber.eqv
    (getRecentPriorityFee
       (Examples.node [Examples.sample 0; Examples.sample 0] (fun _ => false))
       [Examples.transfer "Alice" "Bob"] high (BigNumber.BN 1000))
    (BigNumber.BN (Qmin 0 1000)).
Proof.
  apply (getRecentPriorityFee_without_positive_sample _ _ _ _
           [Examples.sample 0; Examples.sample 0]).
  - reflexivity.
  - repeat constructor; intros (z & Hz & Hpos); injection Hz as <-; lia.
Defined.

(** X4 at the default budget of 0.001 SOL and the maximal compute budget. *)
Lemma calculatePriorityFee_within_budget_witness :
  exists (fee : Z) (cap : Q),
    maxPriorityFeePerCU DEFAULT_MAX_PRIORITY_FEE MAX_COMPUTE_UNIT = BigNumber.BN cap
    /\ calculatePriorityFee
         (Examples.payloadOf (Examples.node [Examples.sample 5] (fun _ => false))
            [Examples.request "Alice"])
         [Examples.transfer "Alice" "Bob"] MAX_COMPUTE_UNIT None = Ok fee
    /\ 0 <= fee /\ (inject_Z fee <= cap)%Q.
Proof.
  apply (calculatePriorityFee_within_budget
           (Examples.payloadOf (Examples.node [Examples.sample 5] (fun _ => false))
              [Examples.request "Alice"])
           [Examples.transfer "Alice" "Bob"] MAX_COMPUTE_UNIT None).
  - exact I.
  - vm_compute. discriminate.
Defined.

(** X5 at a budget of 0.000001 SOL, which is less than the base fee. *)
Lemma calculatePriorityFee_below_base_fee_witness :
  exists fee : Z,
    calculatePriorityFee
      (Examples.payloadOf (Examples.node [Examples.sample 5] (fun _ => false))
         [Examples.request "Alice"])
      [Examples.transfer "Alice" "Bob"] MAX_COMPUTE_UNIT
      (Some {| enablePriorityFee := None; sendTransactionInterval := None;
               maxSendTransactionRetries := None; priorityLevel := None;
               maxPriorityFeeSol := Some (1 # 1000000);
               exactPriorityFeeSol := None; confirmationTimeout := None;
               skipPreflight := None; sigVerify := None; commitment := None |})
    = Ok fee
    /\ fee <= 0.
Proof.
  apply calculatePriorityFee_below_base_fee.
  - exact I.
  - vm_compute. discriminate.
Defined.

(** X9 at a batch whose second request has no instruction and no payer. *)
Lemma MultiTransactionPayload_new_reports_first_offender_witness :
  exists i d,
    [Examples.request "Alice";
     {| instructions := []; feePayer := None; signers := None;
        addressLookupTableAccounts := None |}] !! i = Some d
    /\ Forall wellFormed
         (take i [Examples.request "Alice";
                  {| instructions := []; feePayer := None; signers := None;
                     addressLookupTableAccounts := None |}])
    /\ ((instructions d = []
         /\ Error "Transaction 1: No instructions provided"
            = Error ("Transaction " ++ string_of_index i
                       ++ ": No instructions provided"))
        \/ (instructions d <> [] /\ feePayer d = None
            /\ Error "Transaction 1: No instructions provided"
               = Error ("Transaction " ++ string_of_index i
                          ++ ": Fee payer is required"))).
Proof.
  apply (MultiTransactionPayload_new_reports_first_offender
           (Examples.node [] (fun _ => false)) ∅ _ None).
  - discriminate.
  - vm_compute. reflexivity.
Defined.

(** X10 at 1876190996 smallest units of a token with 6 decimals. *)
Lemma parseToken_formatToken_witness :
  parseToken (formatToken (BigNumber.ofZ 1876190996) 6) 6 = Ok 1876190996
  /\ parseSol (formatSol (BigNumber.ofZ 1876190996)) = Ok 1876190996.
Proof. apply parseToken_formatToken. lia. Defined.

(** X12 at a first call that asks the node and a second call made when the
    node fails. *)
Lemma getMintDecimals_memoizes_witness :
  getMintDecimals (fun _ => Throw (Error "fetch failed")) {["USDC" := 6]} "USDC"
  = ({["USDC" := 6]}, Ok 6).
Proof.
  apply (getMintDecimals_memoizes Samples.getTokenSupply _ ∅).
  reflexivity.
Defined.

(** X14 at a batch of two whose second transaction runs out of funds. *)
Lemma execute_rejections_are_normalized_witness :
  let e := Error "An account does not have enough SOL for transaction" in
  includes (message_of e)
    "Attempt to debit an account but found no record of a prior credit." = false
  /\ includes (message_of e) "custom program error: 0x1" = false
  /\ includes (message_of e) "insufficient funds" = false.
Proof.
  intros e.
  eapply (execute_rejections_are_normalized Examples.translateError
            Examples.sign Examples.JSON_stringify Examples.completionOrder
            Examples.sendAndConfirm
            (Examples.payloadOf
               (Examples.node [Examples.sample 5; Examples.sample 7]
                  (fun _ => false))
               [Examples.request "Alice"; Examples.request "Carol"])
            None).
  - vm_compute. reflexivity.
  - right. left. reflexivity.
  - reflexivity.
Defined.

(** X15 at the same batch: both compiled requests carry a limit and a
    price instruction. *)
Lemma execute_sets_the_compute_budget_witness :
  let payload :=
    Examples.payloadOf
      (Examples.node [Examples.sample 5; Examples.sample 7] (fun _ => false))
      [Examples.request "Alice"; Examples.request "Carol"] in
  let run :=
    execute Examples.translateError Examples.sign Examples.JSON_stringify
      Examples.completionOrder Examples.sendAndConfirm payload None in
  exists outs,
    outcome run = Ok outs
    /\ Forall
         (fun o =>
            (1 <= countType ComputeBudgetInstruction.SetComputeUnitLimit
                    (instructions (transactionData o)))%nat
            /\ (1 <= countType ComputeBudgetInstruction.SetComputeUnitPrice
                       (instructions (transactionData o)))%nat)
         outs.
Proof.
  intros payload run.
  assert (H : exists outs, outcome run = Ok outs).
  { eexists. vm_compute. reflexivity. }
  destruct H as (outs & Hout). exists outs. split; [exact Hout|].
  apply List.Forall_forall. intros o Ho.
  apply (execute_sets_the_compute_budget Examples.translateError Examples.sign
           Examples.JSON_stringify Examples.completionOrder
           Examples.sendAndConfirm payload None outs o).
  - reflexivity.
  - exact Hout.
  - exact Ho.
Defined.

(** X16 at the same batch: two transactions come back from the wallet. *)
Lemma execute_outcome_follows_wallet_output_witness :
  let payload :=
    Examples.payloadOf
      (Examples.node [Examples.sample 5; Examples.sample 7] (fun _ => false))
      [Examples.request "Alice"; Examples.request "Carol"] in
  exists (latest : BlockhashWithExpiryBlockHeight)
         (signedTransactions : list VersionedTransaction),
    getLatestBlockhash (_connection payload) 1 = Ok latest
    /\ List.length signedTransactions = 2%nat.
Proof.
  intros payload.
  assert (H : exists outs,
             outcome (execute Examples.translateError Examples.sign
                        Examples.JSON_stringify Examples.completionOrder
                        Examples.sendAndConfirm payload None) = Ok outs
             /\ List.length outs = 2%nat).
  { eexists. split; vm_compute; reflexivity. }
  destruct H as (outs & Hout & Hn).
  destruct (execute_outcome_follows_wallet_output Examples.translateError
              Examples.sign Examples.JSON_stringify Examples.completionOrder
              Examples.sendAndConfirm payload None outs Hout)
    as (signAll & latest & signed & _ & Hl & _ & Hlen & _).
  exists latest, signed. split; [exact Hl|]. now rewrite Hlen.
Defined.

(** X17 at a batch of two that simulate: the map has no key from 2 on. *)
Lemma simulate_resolves_with_every_result_witness :
  let payload :=
    Examples.payloadOf
      (Examples.node [Examples.sample 5] (fun _ => false))
      [Examples.request "Alice"; Examples.request "Carol"] in
  exists simulationResults,
    simulate Examples.translateError Examples.sign Examples.JSON_stringify
      Examples.completionOrder payload None = Ok simulationResults
    /\ forall i, (2 <= i)%nat -> simulationResults !! i = None.
Proof.
  intros payload.
  assert (H : exists m,
             simulate Examples.translateError Examples.sign
               Examples.JSON_stringify Examples.completionOrder payload None
             = Ok m).
  { eexists. vm_compute. reflexivity. }
  destruct H as (m & Hm). exists m. split; [exact Hm|].
  destruct (simulate_resolves_with_every_result Examples.translateError
              Examples.sign Examples.JSON_stringify Examples.completionOrder
              payload None m)
    as (latest & signed & _ & Hsigned & _ & Hnone).
  - intros n. symmetry. apply Permutation_rev.
  - exact Hm.
  - simpl in Hsigned. subst signed. exact Hnone.
Defined.

(** X18 at a simulation that consumed 150 units: the limit is 605. *)
Lemma computeUnitFor_headroom_witness :
  Z.pos (computeUnitFor (Some {| err := None; unitsConsumed := Some 150%N |}))
  = (11 * (150 + COMPUTE_BUDGET_PROGRAM_COMPUTE_UNIT)) / 10
  /\ 150 + 440 <= Z.pos (computeUnitFor
                           (Some {| err := None; unitsConsumed := Some 150%N |})).
Proof.
  apply (computeUnitFor_headroom
           {| err := None; unitsConsumed := Some 150%N |} 150%N).
  - reflexivity.
  - reflexivity.
Defined.

(** X19 at Alice's balances of USDC, which she holds, and of ZBCN, for
    which she has no account. *)
Lemma getTokenBalances_lists_every_mint_witness :
  exists balances,
    getTokenBalances Samples.PublicKey_new Samples.isOnCurve
      Samples.findProgramAddressSync Samples.getMultipleParsedAccounts
      (AddressText "Alice") [AddressKey "USDC"; AddressText "ZBCN"] false
    = Ok balances
    /\ forall key,
         is_Some (balances !! key)
         <-> exists mint,
               In mint [AddressKey "USDC"; AddressText "ZBCN"]
               /\ Address_toString mint = key.
Proof.
  assert (H : exists balances,
             getTokenBalances Samples.PublicKey_new Samples.isOnCurve
               Samples.findProgramAddressSync Samples.getMultipleParsedAccounts
               (AddressText "Alice") [AddressKey "USDC"; AddressText "ZBCN"] false
             = Ok balances).
  { eexists. vm_compute. reflexivity. }
  destruct H as (balances & Hb). exists balances. split; [exact Hb|].
  apply (getTokenBalances_lists_every_mint Samples.PublicKey_new
           Samples.isOnCurve Samples.findProgramAddressSync
           Samples.getMultipleParsedAccounts
           (AddressText "Alice") [AddressKey "USDC"; AddressText "ZBCN"] false
           balances).
  - intros keys accountsInfo [= <-]. apply List.length_map.
  - exact Hb.
Defined.

(** X20 at the program-derived owner "Vault". *)
Lemma getTokenBalances_off_curve_owner_witness :
  exists e,
    (forall node : list PublicKey -> Result (list (option AccountData)),
       getTokenBalances Samples.PublicKey_new Samples.isOnCurve
         Samples.findProgramAddressSync node
         (AddressKey "Vault") [AddressKey "USDC"; AddressText "ZBCN"] false
       = Throw e)
    /\ (e = Error "Token owner is off curve."
        \/ exists first,
             head [AddressKey "USDC"; AddressText "ZBCN"] = Some first
             /\ translateAddress Samples.PublicKey_new first = Throw e).
Proof.
  apply (getTokenBalances_off_curve_owner Samples.PublicKey_new
           Samples.isOnCurve Samples.findProgramAddressSync
           (AddressKey "Vault") [AddressKey "USDC"; AddressText "ZBCN"] "Vault").
  - reflexivity.
  - reflexivity.
  - discriminate.
Defined.

(** X21 at a balance of 2.5 SOL. *)
Lemma getSolBalance_shows_the_balance_witness :
  exists key lamports,
    translateAddress Samples.PublicKey_new (AddressText "Alice") = Ok key
    /\ Samples.getBalance key = Ok lamports
    /\ parseSol (formatSol (BigNumber.ofZ 2500000000)) = Ok lamports.
Proof.
  apply (getSolBalance_shows_the_balance Samples.PublicKey_new
           Samples.getBalance (AddressText "Alice")).
  reflexivity.
Defined.

(** X22 at a single transfer paid by Alice. *)
Lemma TransactionPayload_execute_sends_the_compute_budget_witness :
  let payload :=
    Samples.single (Examples.node [Examples.sample 5] (fun _ => false))
      (Examples.request "Alice") in
  exists added,
    (List.length added <= 2)%nat
    /\ countType ComputeBudgetInstruction.SetComputeUnitLimit
         (added ++ [Examples.transfer "Alice" "Bob"]) = 1%nat
    /\ countType ComputeBudgetInstruction.SetComputeUnitPrice
         (added ++ [Examples.transfer "Alice" "Bob"]) = 1%nat.
Proof.
  intros payload.
  destruct (TransactionPayload_execute_sends_the_compute_budget
              Examples.translateError Examples.sign Samples.sendAndConfirm
              payload None "sig-Alice")
    as (signTransaction & latest & added & signed & rest & ok
        & _ & _ & Hlen & HL & HP & _).
  - reflexivity.
  - vm_compute. reflexivity.
  - exists added. split; [exact Hlen|]. split; [exact HL|exact HP].
Defined.

(** X23 at a payload without signing function. *)
Lemma TransactionPayload_rejects_only_normalized_errors_witness :
  let payload :=
    TransactionPayload.Build_t (Examples.node [] (fun _ => false)) ∅
      (Examples.request "Alice") None in
  let e := Error TransactionPayloadMethods.SIGN_FUNCTION_REQUIRED in
  (TransactionPayload._signTransaction payload = None
   /\ e = Error TransactionPayloadMethods.SIGN_FUNCTION_REQUIRED)
  \/ (TransactionPayload._signTransaction payload <> None
      /\ includes (message_of e)
           "Attempt to debit an account but found no record of a prior credit."
         = false
      /\ includes (message_of e) "custom program error: 0x1" = false
      /\ includes (message_of e) "insufficient funds" = false).
Proof.
  intros payload e.
  apply (TransactionPayload_rejects_only_normalized_errors
           Examples.translateError Examples.sign Samples.sendAndConfirm
           payload None e).
  reflexivity.
Defined.

(** X24 at the default budget. *)
Lemma calculatePriorityFee_agrees_with_batch_witness :
  let connection := Examples.node [Examples.sample 5] (fun _ => false) in
  TransactionPayloadMethods.calculatePriorityFee
    (Samples.single connection (Examples.request "Alice")) MAX_COMPUTE_UNIT None
  = calculatePriorityFee
      (Examples.payloadOf connection [Examples.request "Alice"])
      [Examples.transfer "Alice" "Bob"] MAX_COMPUTE_UNIT None.
Proof.
  intros connection.
  apply (calculatePriorityFee_agrees_with_batch
           (Samples.single connection (Examples.request "Alice"))
           (Examples.payloadOf connection [Examples.request "Alice"])
           MAX_COMPUTE_UNIT None).
  - reflexivity.
  - intros _. vm_compute. discriminate.
Defined.

(** Below the base fee the two classes part: with a budget of one lamport and
    the fee query failing the batch class asks for -3570 micro-lamports and
    the single-transaction class for -3571. *)
Lemma calculatePriorityFee_parts_below_base_fee :
  let connection :=
    {| getLatestBlockhash := fun _ => Throw (Error "fetch failed");
       simulateTransaction := fun _ => Throw (Error "fetch failed");
       getRecentPrioritizationFees := fun _ => Throw (Error "fetch failed");
       sendRawTransaction := fun _ _ => Throw (Error "fetch failed");
       getBlockHeight := fun _ _ => Throw (Error "fetch failed") |} in
  let options :=
    Some {| enablePriorityFee := None; sendTransactionInterval := None;
            maxSendTransactionRetries := None; priorityLevel := None;
            maxPriorityFeeSol := Some (1 # 1000000000);
            exactPriorityFeeSol := None; confirmationTimeout := None;
            skipPreflight := None; sigVerify := None; commitment := None |} in
  TransactionPayloadMethods.calculatePriorityFee
    (Samples.single connection (Examples.request "Alice")) MAX_COMPUTE_UNIT options
  = Ok (-3571)
  /\ calculatePriorityFee
       (Examples.payloadOf connection [Examples.request "Alice"])
       [Examples.transfer "Alice" "Bob"] MAX_COMPUTE_UNIT options
     = Ok (-3570).
Proof. split; vm_compute; reflexivity. Qed.
